(** * aceWebPlayer: the scraping engine of [scrapperIptv.py]

    A shallow embedding of the two site scrapers, the scraper registry, the
    manager and the two exporters, followed by the properties proved about
    them.

    Conventions.
    - A Python [str] is a Rocq [string] that holds its UTF-8 bytes. The
      operations that count or classify characters ([len], [index], slices,
      [strip], [\d], [\s]) work on the characters of the text, [PyStr.chars],
      with the classes of Unicode; searching and replacing a text work on the
      bytes, which finds the same places, since the bytes of a character never
      begin inside another character.
    - A Python [dict] is an association list in insertion order: assigning to
      a key that is present overwrites the value where the key stands,
      assigning to a new key appends.
    - [None] is [None]; a raised exception is [Raise].
    - What the program gets from its libraries and from the network
      ([urlparse], [requests.get], the HTML parser) is a parameter of the
      manager; the document tree of BeautifulSoup and the few operations the
      scrapers call on it are modelled in [Bs4]. *)

From Stdlib Require Import String Ascii List ZArith NArith Lia Bool Arith.
Set Warnings "-register-all".
Import ListNotations.
Local Open Scope list_scope.
Local Open Scope string_scope.

(** ** Exceptions *)

Inductive exn := ValueError | TypeError | AttributeError.

Inductive result (A : Type) : Type :=
| Ok (a : A)
| Raise (e : exn).
Arguments Ok {A} a.
Arguments Raise {A} e.

Definition bind {A B} (r : result A) (k : A -> result B) : result B :=
  match r with
  | Ok a => k a
  | Raise e => Raise e
  end.

Notation "x <- r ;; k" := (bind r (fun x => k))
  (at level 61, r at next level, right associativity).

(** ** Python strings *)

Module PyStr.

Definition dquote : string := String "034"%char EmptyString.
Definition newline : ascii := "010"%char.

(** *** Characters

    In UTF-8 a character is one byte that is no continuation byte, followed
    by the continuation bytes that belong to it. *)

Definition is_cont (c : ascii) : bool :=
  let n := nat_of_ascii c in ((128 <=? n) && (n <? 192))%nat.

(** A byte put before the characters of a text: it starts a new character
    unless the first of them starts with a continuation byte. *)
Definition push (c : ascii) (l : list string) : list string :=
  match l with
  | String d t :: ts =>
      if is_cont d then String c (String d t) :: ts
      else String c EmptyString :: l
  | _ => String c EmptyString :: l
  end.

(** The characters of a text, in order, each as its bytes. *)
Fixpoint chars (s : string) : list string :=
  match s with
  | EmptyString => []
  | String c s' => push c (chars s')
  end.

(** The text made of the characters [l]: [''.join(l)]. *)
Fixpoint join (l : list string) : string :=
  match l with
  | [] => EmptyString
  | t :: l' => t ++ join l'
  end.

(** [len(s)] *)
Definition len (s : string) : nat := List.length (chars s).

(** [ord(c)] of a character given as its bytes. *)
Definition ord (t : string) : option N :=
  let b := N_of_ascii in
  (match t with
   | String a0 EmptyString =>
       if b a0 <? 128 then Some (b a0) else None
   | String a0 (String a1 EmptyString) =>
       if (192 <=? b a0) && (b a0 <? 224)
       then Some ((b a0 - 192) * 64 + (b a1 - 128))
       else None
   | String a0 (String a1 (String a2 EmptyString)) =>
       if (224 <=? b a0) && (b a0 <? 240)
       then Some (((b a0 - 224) * 64 + (b a1 - 128)) * 64 + (b a2 - 128))
       else None
   | String a0 (String a1 (String a2 (String a3 EmptyString))) =>
       if (240 <=? b a0) && (b a0 <? 248)
       then Some ((((b a0 - 240) * 64 + (b a1 - 128)) * 64 + (b a2 - 128)) * 64
                  + (b a3 - 128))
       else None
   | _ => None
   end)%N.

(** The characters for which [str.isspace] holds, which are those [\s]
    matches and [strip] removes. *)
Definition whitespace : list N :=
  [9; 10; 11; 12; 13; 28; 29; 30; 31; 32; 133; 160; 5760; 8192; 8193; 8194;
   8195; 8196; 8197; 8198; 8199; 8200; 8201; 8202; 8232; 8233; 8239; 8287;
   12288]%N.

(** The zeros of the decimal digits of Unicode 14.0 (category Nd), each
    followed by its digits 1 to 9: the characters [\d] matches in a [str]
    pattern. *)
Definition decimal_zeros : list N :=
  [48; 1632; 1776; 1984; 2406; 2534; 2662; 2790; 2918; 3046; 3174; 3302;
   3430; 3558; 3664; 3792; 3872; 4160; 4240; 6112; 6160; 6470; 6608; 6784;
   6800; 6992; 7088; 7232; 7248; 42528; 43216; 43264; 43472; 43504; 43600;
   44016; 65296; 66720; 68912; 69734; 69872; 69942; 70096; 70384; 70736;
   70864; 71248; 71360; 71472; 71904; 72016; 72784; 73040; 73120; 92768;
   92864; 93008; 120782; 120792; 120802; 120812; 120822; 123200; 123632;
   125264; 130032]%N.

(** [c.isspace()] for one character. *)
Definition isspace (t : string) : bool :=
  match ord t with
  | Some n => existsb (N.eqb n) whitespace
  | None => false
  end.

(** [c.isdecimal()] for one character. *)
Definition isdecimal (t : string) : bool :=
  match ord t with
  | Some n => existsb (fun z => (z <=? n) && (n <? z + 10))%N decimal_zeros
  | None => false
  end.

Fixpoint dropwhile {A : Type} (p : A -> bool) (l : list A) : list A :=
  match l with
  | x :: l' => if p x then dropwhile p l' else l
  | [] => []
  end.

(** [l] without the elements at its end for which [p] holds. *)
Definition rdropwhile {A : Type} (p : A -> bool) (l : list A) : list A :=
  rev (dropwhile p (rev l)).

(** [s.lstrip()] *)
Definition lstrip (s : string) : string :=
  join (dropwhile isspace (chars s)).

(** [s.rstrip()] *)
Definition rstrip (s : string) : string :=
  join (rdropwhile isspace (chars s)).

(** [s.strip()] *)
Definition strip (s : string) : string :=
  join (rdropwhile isspace (dropwhile isspace (chars s))).

(** [sub in s] *)
Fixpoint contains (sub s : string) : bool :=
  prefix sub s ||
  match s with
  | EmptyString => false
  | String _ s' => contains sub s'
  end.

(** The number of bytes before the first place where [sub] stands in [s]. *)
Fixpoint offset (sub s : string) : option nat :=
  if prefix sub s then Some 0
  else match s with
       | EmptyString => None
       | String _ s' => option_map S (offset sub s')
       end.

Fixpoint drop (n : nat) (s : string) : string :=
  match n, s with
  | S k, String _ s' => drop k s'
  | _, _ => s
  end.

Fixpoint take (n : nat) (s : string) : string :=
  match n, s with
  | S k, String c s' => String c (take k s')
  | _, _ => EmptyString
  end.

(** [s.index(sub)]: the number of characters before the first place where
    [sub] stands. *)
Definition index (sub s : string) : result nat :=
  match offset sub s with
  | Some i => Ok (len (take i s))
  | None => Raise ValueError
  end.

(** A slice bound as Python normalises it: a negative bound counts from the
    end, and the result is clamped to [0, len]. *)
Definition bound (len k : Z) : Z :=
  if (k <? 0)%Z then Z.max 0 (k + len) else Z.min k len.

(** [s[i:j]] *)
Definition slice (s : string) (i j : Z) : string :=
  let l := chars s in
  let len := Z.of_nat (List.length l) in
  let a := bound len i in
  let b := bound len j in
  join (firstn (Z.to_nat (b - a)) (skipn (Z.to_nat a) l)).

(** [s.replace(old, new)] for a non-empty [old]: left to right, an
    occurrence of [old] is replaced and the scan goes on after it. [skip]
    counts the bytes of the occurrence still to be dropped. *)
Fixpoint replace_from (old new : string) (skip : nat) (s : string) : string :=
  match s with
  | EmptyString => EmptyString
  | String c s' =>
      match skip with
      | S k => replace_from old new k s'
      | O =>
          if prefix old s
          then new ++ replace_from old new (String.length old - 1) s'
          else String c (replace_from old new O s')
      end
  end.

(** With an empty [old], [new] is put before every character and at the
    end. *)
Fixpoint interleave (new : string) (l : list string) : string :=
  match l with
  | [] => new
  | t :: l' => new ++ t ++ interleave new l'
  end.

Definition replace (old new s : string) : string :=
  match old with
  | EmptyString => interleave new (chars s)
  | String _ _ => replace_from old new O s
  end.

(** [t] occurs in [s]. *)
Definition substr (t s : string) : Prop := exists a b, s = a ++ t ++ b.

(** [s] neither starts nor ends with a whitespace character. *)
Definition trimmed (s : string) : bool :=
  match chars s with
  | [] => true
  | t :: l => negb (isspace t) && negb (isspace (last l t))
  end.

(** No character of [s] is whitespace. *)
Definition no_space (s : string) : bool :=
  forallb (fun t => negb (isspace t)) (chars s).

(** The characters [m] stand together in [l]. *)
Definition segment {A : Type} (m l : list A) : Prop :=
  exists a b, l = (a ++ m ++ b)%list.

(** What [chars] gives: every element is a byte followed by continuation
    bytes, and only the first element may start with a continuation
    byte. *)
Fixpoint all_cont (s : string) : bool :=
  match s with
  | EmptyString => true
  | String c s' => is_cont c && all_cont s'
  end.

Definition is_chunk (t : string) : bool :=
  match t with
  | String _ r => all_cont r
  | EmptyString => false
  end.

Definition is_char (t : string) : bool :=
  match t with
  | String c r => negb (is_cont c) && all_cont r
  | EmptyString => false
  end.

Definition chunked (l : list string) : Prop :=
  match l with
  | [] => True
  | t :: l' => is_chunk t = true /\ Forall (fun u => is_char u = true) l'
  end.

(** The byte [c] is not in [s]. *)
Fixpoint lacks (c : ascii) (s : string) : bool :=
  match s with
  | EmptyString => true
  | String d s' => negb (Ascii.eqb d c) && lacks c s'
  end.

End PyStr.

(** ** Python dictionaries, in insertion order *)

Module PyDict.

Definition dict (V : Type) : Type := list (string * V).

Section Ops.
Context {V : Type}.

(** [d.get(k)] *)
Fixpoint get (k : string) (d : dict V) : option V :=
  match d with
  | [] => None
  | (k', v) :: d' => if String.eqb k k' then Some v else get k d'
  end.

(** [k in d] *)
Definition mem (k : string) (d : dict V) : bool :=
  match get k d with Some _ => true | None => false end.

(** [d[k] = v] *)
Fixpoint set (k : string) (v : V) (d : dict V) : dict V :=
  match d with
  | [] => [(k, v)]
  | (k', v') :: d' =>
      if String.eqb k k' then (k, v) :: d' else (k', v') :: set k v d'
  end.

(** [d.update(other)] *)
Definition update (d other : dict V) : dict V :=
  fold_left (fun acc kv => set (fst kv) (snd kv) acc) other d.

Definition keys (d : dict V) : list string := map fst d.

(** What holds of every Python dictionary: a key stands once. *)
Definition wf (d : dict V) : Prop := NoDup (keys d).

(** The keys [ks] after assigning to the keys [us] in turn: a key that is
    there keeps its place, a new key goes to the end. *)
Definition extend (ks us : list string) : list string :=
  fold_left (fun ks u => if existsb (String.eqb u) ks then ks else (ks ++ [u])%list)
            us ks.
End Ops.

End PyDict.

(** ** The document tree of BeautifulSoup

    What [BeautifulSoup(html, 'html.parser')] builds: strings and tags with
    their attributes and contents. A string is a [NavigableString] or an
    instance of one of its subclasses (a comment, a declaration, the text of
    a [script], ...). Attribute values are kept as written; the [class]
    attribute, which BeautifulSoup holds as the list of its tokens, is split
    where it is read. *)

Module Bs4.
Import PyStr.

(** The subclasses of [NavigableString]. *)
Inductive string_class :=
| CData | ProcessingInstruction | XMLProcessingInstruction | Comment
| Declaration | Doctype
| Stylesheet | Script | TemplateString | RubyTextString | RubyParenthesisString.

Inductive node :=
| NavigableString (s : string)
| SpecialString (cls : string_class) (s : string)
| Tag (name : string) (attrs : PyDict.dict string) (contents : list node).

Definition is_tag (nm : string) (n : node) : bool :=
  match n with
  | Tag name _ _ => String.eqb name nm
  | _ => false
  end.

(** [tag.get(key)] *)
Definition get (key : string) (n : node) : option string :=
  match n with
  | Tag _ attrs _ => PyDict.get key attrs
  | _ => None
  end.

(** The maximal runs of characters that are not whitespace ([\S+]); [cur]
    holds the characters of the run being read. *)
Fixpoint tokens_from (cur l : list string) : list string :=
  match l with
  | [] =>
      match cur with [] => [] | _ :: _ => [join cur] end
  | t :: l' =>
      if isspace t
      then match cur with
           | [] => tokens_from [] l'
           | _ :: _ => join cur :: tokens_from [] l'
           end
      else tokens_from (cur ++ [t]) l'
  end.

Definition split_ws (s : string) : list string := tokens_from [] (chars s).

(** [tag.get('class')] *)
Definition get_class (n : node) : option (list string) :=
  option_map split_ws (get "class" n).

Definition has_class (cls : string) (n : node) : bool :=
  match get_class n with
  | Some l => existsb (String.eqb cls) l
  | None => false
  end.

(** [tag.descendants]: every node below the tag, in document order. *)
Fixpoint descendants (n : node) : list node :=
  match n with
  | Tag _ _ cs => flat_map (fun c => c :: descendants c) cs
  | _ => []
  end.

(** [tag.find_all(nm)] *)
Definition find_all (nm : string) (n : node) : list node :=
  filter (is_tag nm) (descendants n).

(** [tag.find(nm)] *)
Definition find (nm : string) (n : node) : option node :=
  hd_error (find_all nm n).

(** [tag.find_all(nm, class_=cls)] for a class name without whitespace. *)
Definition find_all_class (nm cls : string) (n : node) : list node :=
  filter (fun d => is_tag nm d && has_class cls d) (descendants n).

(** [tag.find(nm, class_=cls)] *)
Definition find_class (nm cls : string) (n : node) : option node :=
  hd_error (find_all_class nm cls n).

(** Every node below [n] with its parent, in document order. *)
Fixpoint children_with_parent (n : node) : list (node * node) :=
  match n with
  | Tag _ _ cs => flat_map (fun c => (n, c) :: children_with_parent c) cs
  | _ => []
  end.

(** [soup.select("ul.menu > li")] *)
Definition select_ul_menu_li (soup : node) : list node :=
  map snd
    (filter (fun pc => is_tag "ul" (fst pc) && has_class "menu" (fst pc)
                       && is_tag "li" (snd pc))
            (children_with_parent soup)).

(** [tag.get_text()], also [tag.text], for a tag that is no [script],
    [style], [template], [rt] nor [rp]: the strings below it whose class is
    [NavigableString] or [CData], joined. *)
Fixpoint get_text (n : node) : string :=
  match n with
  | NavigableString s => s
  | SpecialString CData s => s
  | SpecialString _ _ => EmptyString
  | Tag _ _ cs => String.concat EmptyString (map get_text cs)
  end.

(** *** [str(tag)]: the markup of a tag, with the default formatter *)

Fixpoint escape_xml (s : string) : string :=
  match s with
  | EmptyString => EmptyString
  | String c s' =>
      (if Ascii.eqb c "&" then "&amp;"
       else if Ascii.eqb c "<" then "&lt;"
       else if Ascii.eqb c ">" then "&gt;"
       else String c EmptyString) ++ escape_xml s'
  end.

Definition quoted_attribute_value (v : string) : string :=
  if contains dquote v
  then if contains "'" v
       then dquote ++ replace dquote "&quot;" v ++ dquote
       else "'" ++ v ++ "'"
  else dquote ++ v ++ dquote.

Definition attribute_text (key val : string) : string :=
  escape_xml (if String.eqb key "class"
              then String.concat " " (split_ws val)
              else val).

Fixpoint insert_attr (kv : string * string) (l : list (string * string))
  : list (string * string) :=
  match l with
  | [] => [kv]
  | kv' :: l' =>
      if String.leb (fst kv) (fst kv') then kv :: l
      else kv' :: insert_attr kv l'
  end.

(** The formatter writes the attributes sorted by name. *)
Definition sorted_attrs (l : list (string * string)) : list (string * string) :=
  fold_right insert_attr [] l.

Definition attribute_string (attrs : PyDict.dict string) : string :=
  String.concat EmptyString
    (map (fun kv => " " ++ fst kv ++ "="
                    ++ quoted_attribute_value (attribute_text (fst kv) (snd kv)))
         (sorted_attrs attrs)).

Definition void_elements : list string :=
  ["area"; "base"; "br"; "col"; "embed"; "hr"; "img"; "input"; "keygen";
   "link"; "menuitem"; "meta"; "param"; "source"; "track"; "wbr";
   "basefont"; "bgsound"; "command"; "frame"; "image"; "isindex"; "nextid";
   "spacer"].

Definition is_void (nm : string) : bool := existsb (String.eqb nm) void_elements.

Definition cdata_containing (nm : string) : bool :=
  String.eqb nm "script" || String.eqb nm "style".

(** [output_ready] of a string below a tag named [parent]: the preformatted
    classes are written as they are between their marks, the others go
    through the formatter. *)
Definition string_markup (parent : string) (cls : option string_class)
           (s : string) : string :=
  match cls with
  | Some CData => "<![CDATA[" ++ s ++ "]]>"
  | Some ProcessingInstruction => "<?" ++ s ++ ">"
  | Some XMLProcessingInstruction => "<?" ++ s ++ "?>"
  | Some Comment => "<!--" ++ s ++ "-->"
  | Some Declaration => "<?" ++ s ++ "?>"
  | Some Doctype => "<!DOCTYPE " ++ s ++ ">" ++ String newline EmptyString
  | _ => if cdata_containing parent then s else escape_xml s
  end.

Fixpoint decode (parent : string) (n : node) : string :=
  match n with
  | NavigableString s => string_markup parent None s
  | SpecialString cls s => string_markup parent (Some cls) s
  | Tag name attrs cs =>
      match cs with
      | [] =>
          if is_void name
          then "<" ++ name ++ attribute_string attrs ++ "/>"
          else "<" ++ name ++ attribute_string attrs ++ "></" ++ name ++ ">"
      | _ =>
          "<" ++ name ++ attribute_string attrs ++ ">"
          ++ String.concat EmptyString (map (decode name) cs)
          ++ "</" ++ name ++ ">"
      end
  end.

(** [str(tag)] *)
Definition str (n : node) : string := decode EmptyString n.

End Bs4.

(** ** The two regular expressions *)

Module Re.
Import PyStr.

(** [\d{2}:\d{2}] at the start of the characters [l]. *)
Definition hhmm_prefix (l : list string) : bool :=
  match l with
  | a :: b :: c :: d :: e :: _ =>
      isdecimal a && isdecimal b && String.eqb c ":" && isdecimal d && isdecimal e
  | _ => false
  end.

Fixpoint search_hhmm (l : list string) : option string :=
  if hhmm_prefix l then Some (join (firstn 5 l))
  else match l with
       | [] => None
       | _ :: l' => search_hhmm l'
       end.

(** [re.compile(r'\d{2}:\d{2}').search(s)]: the text of the leftmost
    match. *)
Definition time_pattern_search (s : string) : option string :=
  search_hhmm (chars s).

(** The longest run of digits at the start of the characters [l], and what
    follows it. *)
Fixpoint digits (l : list string) : list string * list string :=
  match l with
  | t :: l' =>
      if isdecimal t
      then let (d, r) := digits l' in (t :: d, r)
      else ([], l)
  | [] => ([], [])
  end.

Definition span_open : string := "<span class=" ++ dquote ++ "t" ++ dquote ++ ">".
Definition span_close : string := "</span>".

(** [<span class="t">(\d+:\d+)</span>] at the start of [s]: the group. A
    run of digits is followed by a character that is no digit, so the
    greedy [\d+] never has to give characters back. *)
Definition match_time_span (s : string) : option string :=
  if prefix span_open s then
    let (h, r1) := digits (chars (drop (String.length span_open) s)) in
    match h, r1 with
    | _ :: _, c :: r2 =>
        if String.eqb c ":" then
          let (m, r3) := digits r2 in
          match m with
          | _ :: _ =>
              if prefix span_close (join r3)
              then Some (join h ++ ":" ++ join m)
              else None
          | [] => None
          end
        else None
    | _, _ => None
    end
  else None.

(** [(.+?)(?:<span class="t">(\d+:\d+)</span>)] matched at the start of
    [s]: the lazy [.+?] takes one character that is no newline, then as few
    more as the rest of the pattern allows. The rest of the pattern starts
    with [<], which no byte inside a character is, so the bytes of [s] can
    be taken one at a time. *)
Fixpoint match_lead (s : string) : option (string * string) :=
  match s with
  | EmptyString => None
  | String c s' =>
      if Ascii.eqb c newline then None
      else match match_time_span s' with
           | Some t => Some (String c EmptyString, t)
           | None =>
               match match_lead s' with
               | Some (g, t) => Some (String c g, t)
               | None => None
               end
           end
  end.

(** [re.search(r'(.+?)(?:<span class="t">(\d+:\d+)</span>)', s)]: groups 1
    and 2 of the leftmost match. *)
Fixpoint time_span_search (s : string) : option (string * string) :=
  match match_lead s with
  | Some r => Some r
  | None =>
      match s with
      | EmptyString => None
      | String _ s' => time_span_search s'
      end
  end.

(** No [<] of [s] is followed by an [s]: no tag named [span] opens. *)
Fixpoint lt_s_free (s : string) : bool :=
  match s with
  | EmptyString => true
  | String c s' =>
      negb (Ascii.eqb c "<"
            && match s' with
               | String d _ => Ascii.eqb d "s"
               | EmptyString => false
               end)
      && lt_s_free s'
  end.

(** The exact form HH:MM: two digits, a colon, two digits. *)
Definition is_hhmm (s : string) : bool :=
  hhmm_prefix (chars s) && Nat.eqb (len s) 5.

Definition all_digits (s : string) : bool := forallb isdecimal (chars s).

(** What group 2 of the second pattern holds: one digit or more, a colon,
    one digit or more. *)
Definition time_group (g : string) : Prop :=
  exists h m, g = h ++ ":" ++ m
              /\ h <> EmptyString /\ m <> EmptyString
              /\ all_digits h = true /\ all_digits m = true.

End Re.

(** ** The records the scrapers build *)

Record Channel := mkChannel {
  name : string;
  url : option string        (* [None] when [link.get('href')] gave [None] *)
}.

Record Event := mkEvent {
  country_league : string;
  title : string;
  time : string;
  channels : list Channel
}.

(** ** RojadirectaScraper *)

Module RojadirectaScraper.
Import PyStr Bs4.

Definition no_especificado : string := "No especificado".
Definition placeholder : string := "<a href=" ++ dquote ++ "#" ++ dquote ++ ">".

(** [item.get('class', [''])[0] if item.get('class') else ''] *)
Definition country_class (item : node) : string :=
  match get_class item with
  | Some (c :: _) => c
  | _ => EmptyString
  end.

(** The inner loop over [channel_items.find_all('li', class_='subitem1')]. *)
Definition channel_step (channels : list Channel) (channel : node)
  : list Channel :=
  match find "a" channel with
  | Some channel_link =>
      let channel_name := strip (get_text channel_link) in
      let channel_url :=
        match get "href" channel_link with Some h => h | None => EmptyString end in
      (channels ++ [ {| name := channel_name; url := Some channel_url |} ])%list
  | None => channels
  end.

Definition item_channels (item : node) : list Channel :=
  match find "ul" item with
  | Some channel_items =>
      fold_left channel_step (find_all_class "li" "subitem1" channel_items) []
  | None => []
  end.

(** Title and time of an item, from its first anchor. *)
Definition title_and_time (event_link : node) : string * string :=
  let event_title := strip (get_text event_link) in
  let '(event_title, event_time) :=
    match Re.time_span_search (str event_link) with
    | Some (g1, g2) => (strip g1, g2)
    | None =>
        let event_time :=
          match find_class "span" "t" event_link with
          | Some time_span => get_text time_span
          | None => no_especificado
          end in
        (strip (replace event_time EmptyString event_title), event_time)
    end in
  (replace placeholder EmptyString event_title, event_time).

(** The body of the loop over [menu_items]: the event it appends, [None]
    when it leaves the item with [continue]. *)
Definition item_event (item : node) : option Event :=
  let country_class := country_class item in
  match find "a" item with
  | None => None
  | Some event_link =>
      let '(event_title, event_time) := title_and_time event_link in
      let channels := item_channels item in
      Some {| country_league := country_class;
              title := event_title;
              time := event_time;
              channels := channels |}
  end.

Definition step (events : list Event) (item : node) : list Event :=
  match item_event item with
  | Some event_info => (events ++ [event_info])%list
  | None => events
  end.

Definition scrape (soup : option node) : result (list Event) :=
  match soup with
  | None => Ok []
  | Some doc => Ok (fold_left step (select_ul_menu_li doc) [])
  end.

(** What one item adds to [events]. *)
Definition item_events (item : node) : list Event :=
  match item_event item with
  | Some event_info => [event_info]
  | None => []
  end.

(** The items the loop does not leave with [continue]. *)
Definition has_anchor (item : node) : bool :=
  match find "a" item with Some _ => true | None => false end.

(** The nested items the channels are read from. *)
Definition subitems (item : node) : list node :=
  match find "ul" item with
  | Some channel_items => find_all_class "li" "subitem1" channel_items
  | None => []
  end.

(** The channel record the anchor of a nested item gives. *)
Definition anchor_channel (channel_link : node) : Channel :=
  {| name := strip (get_text channel_link);
     url := Some (match get "href" channel_link with
                  | Some h => h
                  | None => EmptyString
                  end) |}.

End RojadirectaScraper.

(** ** DaddyLiveScraper *)

Module DaddyLiveScraper.
Import PyStr Bs4.

(** The loop over [strong.find_all('a')]: the link texts go to [canales],
    the channel records to [channels], which lives across the blocks. *)
Definition link_step (acc : list string * list Channel) (link : node)
  : list string * list Channel :=
  ((fst acc ++ [get_text link])%list,
   (snd acc ++ [ {| name := get_text link; url := get "href" link |} ])%list).

(** One turn of the loop over [strongs]; the state is [(events, channels)]. *)
Definition step (st : list Event * list Channel) (strong : node)
  : result (list Event * list Channel) :=
  let '(events, channels) := st in
  let texto_completo := get_text strong in
  match Re.time_pattern_search texto_completo with
  | Some hora =>
      i <- index hora texto_completo ;;
      let titulo_inicio := Z.of_nat (i + len hora) in
      let titulo_fin := Z.of_nat (len texto_completo) in
      let '(canales, channels) :=
        fold_left link_step (find_all "a" strong) ([], channels) in
      titulo_fin <-
        match canales with
        | c0 :: _ => j <- index c0 texto_completo ;; Ok (Z.of_nat j - 1)%Z
        | [] => Ok titulo_fin
        end ;;
      let titulo := strip (slice texto_completo titulo_inicio titulo_fin) in
      let event_info := {| country_league := EmptyString;
                           title := titulo;
                           time := hora;
                           channels := channels |} in
      Ok ((events ++ [event_info])%list, [])
  | None => Ok (events, channels)
  end.

Fixpoint loop (st : list Event * list Channel) (strongs : list node)
  : result (list Event * list Channel) :=
  match strongs with
  | [] => Ok st
  | strong :: rest => st' <- step st strong ;; loop st' rest
  end.

Definition scrape (soup : option node) : result (list Event) :=
  match soup with
  | None => Ok []
  | Some doc =>
      st <- loop ([], []) (find_all "strong" doc) ;;
      Ok (fst st)
  end.

(** What one block adds when it is met with an empty accumulator. *)
Definition block_events (strong : node) : list Event :=
  match step ([], []) strong with
  | Ok (events, _) => events
  | Raise _ => []
  end.

(** A block that holds a time token. *)
Definition is_event_block (strong : node) : bool :=
  match Re.time_pattern_search (get_text strong) with
  | Some _ => true
  | None => false
  end.

(** The channel record a link gives. *)
Definition link_channel (link : node) : Channel :=
  {| name := get_text link; url := get "href" link |}.

(** Where the title of a block ends: at the end of the text when the block
    has no link, else one character before the first place where the text of
    its first link stands. *)
Definition title_end (strong : node) (fin : Z) : Prop :=
  match find_all "a" strong with
  | [] => fin = Z.of_nat (len (get_text strong))
  | link :: _ =>
      exists j, index (get_text link) (get_text strong) = Ok j
                /\ fin = (Z.of_nat j - 1)%Z
  end.

End DaddyLiveScraper.

(** ** [urlparse(url).netloc]

    The manager takes the function as a parameter. This model of it, used
    for the worked examples, follows [urlsplit] of CPython 3.11.4 and later:
    leading control characters and blanks are stripped, tabs and line ends
    are removed, a scheme is split off at the first colon when all that
    stands before it is a scheme, and the network location is what stands
    between a leading [//] and the next [/], [?] or [#]. A network location
    with one bracket and not the other raises [ValueError]. The two checks
    that rest on other libraries ([ipaddress] for a bracketed host,
    [unicodedata] for a network location with characters outside ASCII) are
    parameters. *)

Module Urllib.
Import PyStr.

Definition is_alpha (c : ascii) : bool :=
  let n := nat_of_ascii c in
  (((65 <=? n) && (n <=? 90)) || ((97 <=? n) && (n <=? 122)))%nat.

Definition is_digit (c : ascii) : bool :=
  let n := nat_of_ascii c in ((48 <=? n) && (n <=? 57))%nat.

Definition scheme_char (c : ascii) : bool :=
  is_alpha c || is_digit c
  || Ascii.eqb c "+" || Ascii.eqb c "-" || Ascii.eqb c ".".

(** [url.lstrip(_WHATWG_C0_CONTROL_OR_SPACE)] *)
Fixpoint lstrip_c0 (s : string) : string :=
  match s with
  | String c s' => if (nat_of_ascii c <=? 32)%nat then lstrip_c0 s' else s
  | EmptyString => EmptyString
  end.

(** The removal of [_UNSAFE_URL_BYTES_TO_REMOVE]: tab, carriage return and
    line feed. *)
Fixpoint remove_unsafe (s : string) : string :=
  match s with
  | EmptyString => EmptyString
  | String c s' =>
      if Ascii.eqb c "009" || Ascii.eqb c "013" || Ascii.eqb c "010"
      then remove_unsafe s'
      else String c (remove_unsafe s')
  end.

(** What follows the first colon, when only scheme characters stand
    before it. *)
Fixpoint after_scheme (s : string) : option string :=
  match s with
  | EmptyString => None
  | String c s' =>
      if Ascii.eqb c ":" then Some s'
      else if scheme_char c then after_scheme s'
      else None
  end.

Definition strip_scheme (url : string) : string :=
  match url with
  | String c _ =>
      if is_alpha c
      then match after_scheme url with Some rest => rest | None => url end
      else url
  | EmptyString => url
  end.

Fixpoint until_delim (s : string) : string :=
  match s with
  | EmptyString => EmptyString
  | String c s' =>
      if Ascii.eqb c "/" || Ascii.eqb c "?" || Ascii.eqb c "#"
      then EmptyString
      else String c (until_delim s')
  end.

(** [s.partition(c)]: what stands before the first [c], whether there is
    one, and what stands after it. *)
Fixpoint partition (c : ascii) (s : string) : string * bool * string :=
  match s with
  | EmptyString => (EmptyString, false, EmptyString)
  | String d s' =>
      if Ascii.eqb d c then (EmptyString, true, s')
      else let '(a, found, b) := partition c s' in (String d a, found, b)
  end.

(** [s.rpartition(c)[2]]: what stands after the last [c], all of [s] when
    there is none. *)
Fixpoint after_last (c : ascii) (s : string) : string :=
  match s with
  | EmptyString => EmptyString
  | String d s' =>
      if lacks c s' then (if Ascii.eqb d c then s' else s)
      else after_last c s'
  end.

Definition isascii (s : string) : bool :=
  forallb (fun c => (nat_of_ascii c <? 128)%nat) (list_ascii_of_string s).

Section Checks.
(** [_check_bracketed_host(hostname)] returns: the host is an IPv6 or an
    IPvFuture address. *)
Variable bracketed_host_ok : string -> bool.
(** [_checknetloc(netloc)] returns, for a network location with characters
    outside ASCII. *)
Variable nfkc_ok : string -> bool.

Definition check_bracketed_host (hostname : string) : result unit :=
  if bracketed_host_ok hostname then Ok tt else Raise ValueError.

Definition check_bracketed_netloc (netloc : string) : result unit :=
  let hostname_and_port := after_last "@" netloc in
  let '(before_bracket, have_open_br, bracketed) :=
    partition "[" hostname_and_port in
  if have_open_br then
    match before_bracket with
    | String _ _ => Raise ValueError
    | EmptyString =>
        let '(hostname, _, port) := partition "]" bracketed in
        match port with
        | String c _ =>
            if Ascii.eqb c ":" then check_bracketed_host hostname
            else Raise ValueError
        | EmptyString => check_bracketed_host hostname
        end
    end
  else
    let '(hostname, _, _) := partition ":" hostname_and_port in
    check_bracketed_host hostname.

Definition checknetloc (netloc : string) : result unit :=
  match netloc with
  | EmptyString => Ok tt
  | String _ _ =>
      if isascii netloc then Ok tt
      else if nfkc_ok netloc then Ok tt
      else Raise ValueError
  end.

Definition netloc (url : string) : result string :=
  let url := remove_unsafe (lstrip_c0 url) in
  match strip_scheme url with
  | String "/" (String "/" rest) =>
      let netloc := until_delim rest in
      let open := negb (lacks "[" netloc) in
      let close := negb (lacks "]" netloc) in
      if (open && negb close) || (close && negb open) then Raise ValueError
      else
        _ <- (if open && close then check_bracketed_netloc netloc else Ok tt) ;;
        _ <- checknetloc netloc ;;
        Ok netloc
  | _ => Ok EmptyString
  end.
End Checks.

(** [str.lower] for a text of ASCII characters. *)
Fixpoint lower (s : string) : string :=
  match s with
  | EmptyString => EmptyString
  | String c s' =>
      let n := nat_of_ascii c in
      String (if ((65 <=? n) && (n <=? 90))%nat then ascii_of_nat (n + 32) else c)
             (lower s')
  end.

(** [urlparse(url).hostname], from the network location, for a host of
    ASCII characters: the user information and the port are left out and the
    host is put in lower case. *)
Definition hostname (netloc : string) : option string :=
  let hostinfo := after_last "@" netloc in
  let '(_, have_open_br, bracketed) := partition "[" hostinfo in
  let hostname :=
    if have_open_br then fst (fst (partition "]" bracketed))
    else fst (fst (partition ":" hostinfo)) in
  match hostname with
  | EmptyString => None
  | String _ _ =>
      let '(host, percent, zone) := partition "%" hostname in
      Some (lower host ++ (if percent then "%" else EmptyString) ++ zone)
  end.

End Urllib.

(** ** BaseScraper: the scraper object and how it is loaded *)

Module BaseScraper.

Record t := mk {
  url : string;
  html_content : option string;
  soup : option Bs4.node
}.

(** [__init__] *)
Definition init (u : string) : t :=
  {| url := u; html_content := None; soup := None |}.

Section Load.
(** [requests.get(url, headers=...)]: [None] when it raises, else the
    status code and the text of the response. *)
Variable requests_get : string -> option (Z * string).
(** [BeautifulSoup(text, 'html.parser')]: [None] when it raises. *)
Variable BeautifulSoup : string -> option Bs4.node.

Definition load_from_url (self : t) : t * bool :=
  match requests_get (url self) with
  | Some (status_code, text) =>
      if (status_code =? 200)%Z then
        match BeautifulSoup text with
        | Some doc =>
            ({| url := url self; html_content := Some text; soup := Some doc |},
             true)
        | None =>
            ({| url := url self; html_content := Some text; soup := soup self |},
             false)
        end
      else (self, false)
  | None => (self, false)
  end.

Definition load_from_html (self : t) (html : string) : t * bool :=
  match BeautifulSoup html with
  | Some doc =>
      ({| url := url self; html_content := Some html; soup := Some doc |}, true)
  | None =>
      ({| url := url self; html_content := Some html; soup := soup self |}, false)
  end.
End Load.

Section LoadFile.
(** [open(filepath, 'r', encoding='utf-8')] and [file.read()]: [None] when
    either raises, else the text of the file. *)
Variable read_file : string -> option string.
Variable BeautifulSoup : string -> option Bs4.node.

Definition load_from_file (self : t) (filepath : string) : t * bool :=
  match read_file filepath with
  | Some text =>
      match BeautifulSoup text with
      | Some doc =>
          ({| url := url self; html_content := Some text; soup := Some doc |}, true)
      | None =>
          ({| url := url self; html_content := Some text; soup := soup self |}, false)
      end
  | None => (self, false)
  end.
End LoadFile.

End BaseScraper.

(** The classes that can be registered, and the [scrape] of each. *)
Inductive scraper_class := Rojadirecta | DaddyLive.

Definition scrape_of (cls : scraper_class) : option Bs4.node -> result (list Event) :=
  match cls with
  | Rojadirecta => RojadirectaScraper.scrape
  | DaddyLive => DaddyLiveScraper.scrape
  end.

(** ** Python values, as the exporters see the results *)

Inductive pyval :=
| PNone
| PStr (s : string)
| PList (l : list pyval)
| PDict (d : list (string * pyval)).

Definition channel_dict (c : Channel) : PyDict.dict pyval :=
  [("name", PStr (name c));
   ("url", match url c with Some u => PStr u | None => PNone end)].

Definition event_dict (e : Event) : PyDict.dict pyval :=
  [("country_league", PStr (country_league e));
   ("title", PStr (title e));
   ("time", PStr (time e));
   ("channels", PList (map (fun c => PDict (channel_dict c)) (channels e)))].

(** [for x in v] *)
Definition py_iter (v : pyval) : result (list pyval) :=
  match v with
  | PList l => Ok l
  | PStr s => Ok (map PStr (PyStr.chars s))
  | PDict d => Ok (map (fun kv => PStr (fst kv)) d)
  | PNone => Raise TypeError
  end.

(** [v.get(k, default)] *)
Definition py_get (v : pyval) (k : string) (default : pyval) : result pyval :=
  match v with
  | PDict d => Ok (match PyDict.get k d with Some x => x | None => default end)
  | _ => Raise AttributeError
  end.

Fixpoint mapM {A B} (f : A -> result B) (l : list A) : result (list B) :=
  match l with
  | [] => Ok []
  | a :: l' => b <- f a ;; bs <- mapM f l' ;; Ok (b :: bs)
  end.

(** ** ScraperManager *)

Module ScraperManager.
Import PyStr.

Record t := mk {
  scraper_map : PyDict.dict scraper_class;
  results : PyDict.dict (list Event)
}.

(** [__init__] *)
Definition init : t := {| scraper_map := []; results := [] |}.

Definition register_scraper (self : t) (url_pattern : string)
           (scraper_class : scraper_class) : t :=
  {| scraper_map := PyDict.set url_pattern scraper_class (scraper_map self);
     results := results self |}.


Section World.
(** [urlparse(url).netloc], or the exception [urlparse] raises. *)
Variable netloc : string -> result string.
(** The network and the parser, as for [BaseScraper]; a page answers the
    same way during one run. *)
Variable requests_get : string -> option (Z * string).
Variable BeautifulSoup : string -> option Bs4.node.

(** The loop over [self.scraper_map.items()]. *)
Fixpoint first_match (domain : string) (items : PyDict.dict scraper_class)
  : option scraper_class :=
  match items with
  | [] => None
  | (pattern, scraper_class) :: rest =>
      if contains pattern domain then Some scraper_class
      else first_match domain rest
  end.

Definition get_scraper_for_url (self : t) (url : string)
  : result (option scraper_class) :=
  domain <- netloc url ;;
  Ok (first_match domain (scraper_map self)).

(** [urlparse] is called before anything is changed: when the method
    raises, the manager is as it was. *)
Definition scrape_url (self : t) (url : string) : result (t * list Event) :=
  scraper_class <- get_scraper_for_url self url ;;
  match scraper_class with
  | None => Ok (self, [])
  | Some scraper_class =>
      let scraper := BaseScraper.init url in
      let '(scraper, loaded) :=
        BaseScraper.load_from_url requests_get BeautifulSoup scraper in
      if loaded then
        results <- scrape_of scraper_class (BaseScraper.soup scraper) ;;
        Ok ({| scraper_map := scraper_map self;
               results := PyDict.set url results (ScraperManager.results self) |},
            results)
      else Ok (self, [])
  end.

(** The loop of [scrape_multiple_urls]: [self] and the local [results].
    When [scrape_url] raises the loop is left, with the manager as the turns
    before made it. *)
Fixpoint scrape_loop (self : t) (results : PyDict.dict (list Event))
         (urls : list string) : t * result (PyDict.dict (list Event)) :=
  match urls with
  | [] => (self, Ok results)
  | url :: rest =>
      match scrape_url self url with
      | Ok (self', r) => scrape_loop self' (PyDict.set url r results) rest
      | Raise e => (self, Raise e)
      end
  end.

(** The manager after the call, and what the call returns or raises. *)
Definition scrape_multiple_urls (self : t) (urls : list string)
  : t * result (PyDict.dict (list Event)) :=
  match scrape_loop self [] urls with
  | (self, Ok results) =>
      ({| scraper_map := scraper_map self;
          results := PyDict.update (ScraperManager.results self) results |},
       Ok results)
  | (self, Raise e) => (self, Raise e)
  end.

(** What a URL comes to, for the statements below: the exception of
    [urlparse]; else [None] when no pattern matches or the page does not
    load; else the events the scraper reads from the page. *)
Definition url_outcome (self : t) (url : string) : result (option (list Event)) :=
  scraper_class <- get_scraper_for_url self url ;;
  Ok match scraper_class with
     | None => None
     | Some scraper_class =>
         let '(scraper, loaded) :=
           BaseScraper.load_from_url requests_get BeautifulSoup
             (BaseScraper.init url) in
         if loaded then
           match scrape_of scraper_class (BaseScraper.soup scraper) with
           | Ok events => Some events
           | Raise _ => None
           end
         else None
     end.

(** [urlparse] accepts the URL. *)
Definition accepted (url : string) : bool :=
  match netloc url with Ok _ => true | Raise _ => false end.

(** A URL that [urlparse] accepts fails when no pattern matches it or its
    page does not load. *)
Definition fails (self : t) (url : string) : bool :=
  match get_scraper_for_url self url with
  | Ok None => true
  | Ok (Some _) =>
      negb (snd (BaseScraper.load_from_url requests_get BeautifulSoup
                   (BaseScraper.init url)))
  | Raise _ => false
  end.

(** A pattern matches the URL and its page loads. *)
Definition succeeds (self : t) (url : string) : bool :=
  match get_scraper_for_url self url with
  | Ok (Some _) =>
      snd (BaseScraper.load_from_url requests_get BeautifulSoup
             (BaseScraper.init url))
  | _ => false
  end.

(** *** The playlist exporter: the rows of [export_to_m3u]

    A row is a dictionary. When [all_rows] is not empty the method writes
    two lines for each row, in order; when it is empty it writes no
    file. *)

Definition row := PyDict.dict pyval.

Definition channel_row (domain url : string) (event : PyDict.dict pyval)
           (channel : pyval) : result row :=
  let row := [("source", PStr domain); ("url", PStr url)] in
  let row :=
    fold_left (fun row kv =>
                 if negb (String.eqb (fst kv) "channels")
                 then PyDict.set (fst kv) (snd kv) row
                 else row)
              event row in
  channel_name <- py_get channel "name" (PStr EmptyString) ;;
  let row := PyDict.set "channel_name" channel_name row in
  channel_url <- py_get channel "url" (PStr EmptyString) ;;
  Ok (PyDict.set "channel_url" channel_url row).

Definition event_rows (url : string) (event : PyDict.dict pyval)
  : result (list row) :=
  domain <- netloc url ;;
  if PyDict.mem "channels" event then
    chans <- py_iter (match PyDict.get "channels" event with
                      | Some v => v
                      | None => PList []
                      end) ;;
    mapM (channel_row domain url event) chans
  else
    Ok [ fold_left (fun row kv => PyDict.set (fst kv) (snd kv) row)
                   event [("source", PStr domain); ("url", PStr url)] ].

Definition all_rows (self : t) : result (list row) :=
  rows <- mapM (fun ue =>
                  rs <- mapM (fun e => event_rows (fst ue) (event_dict e)) (snd ue) ;;
                  Ok (List.concat rs))
               (results self) ;;
  Ok (List.concat rows).

End World.

Section Direct.
Variable BeautifulSoup : string -> option Bs4.node.
Variable read_file : string -> option string.

Definition scrape_from_html (self : t) (html : string) (scraper_type : scraper_class)
  : result (list Event) :=
  let scraper := BaseScraper.init "dummy_url" in
  let '(scraper, loaded) := BaseScraper.load_from_html BeautifulSoup scraper html in
  if loaded then scrape_of scraper_type (BaseScraper.soup scraper)
  else Ok [].

Definition scrape_file (self : t) (filepath : string) (scraper_type : scraper_class)
  : result (t * list Event) :=
  let scraper := BaseScraper.init "dummy_url" in
  let '(scraper, loaded) :=
    BaseScraper.load_from_file read_file BeautifulSoup scraper filepath in
  if loaded then
    results <- scrape_of scraper_type (BaseScraper.soup scraper) ;;
    Ok ({| scraper_map := scraper_map self;
           results := PyDict.set filepath results (ScraperManager.results self) |},
        results)
  else Ok (self, []).
End Direct.

End ScraperManager.

(** ** The file [export_to_m3u] writes *)

Module Playlist.
Import PyStr.

Section Write.
(** [repr] of a list or of a dictionary, which [str] gives for them. *)
Variable repr : pyval -> string.
(** [urlparse(url).netloc], or the exception [urlparse] raises. *)
Variable netloc : string -> result string.

(** [str(v)], as an f-string writes a value. *)
Definition py_str (v : pyval) : string :=
  match v with
  | PStr s => s
  | PNone => "None"
  | PList _ => repr v
  | PDict _ => repr v
  end.

(** [{row.get(key, "")}] *)
Definition field (row : ScraperManager.row) (key : string) : string :=
  py_str (match PyDict.get key row with
          | Some v => v
          | None => PStr EmptyString
          end).

(** The info line, with its end of line. *)
Definition extinf (source title channel_name : string) : string :=
  "#EXTINF:-1 tvg-id=" ++ dquote ++ dquote ++ " tvg-logo=" ++ dquote ++ dquote
  ++ " group-title=" ++ dquote ++ source ++ dquote ++ ","
  ++ title ++ " " ++ channel_name ++ String newline EmptyString.

(** The two [f.write] of a row. *)
Definition write_row (f : string) (row : ScraperManager.row) : string :=
  let f := f ++ extinf (field row "source") (field row "title")
                       (field row "channel_name") in
  f ++ field row "channel_url" ++ String newline EmptyString.

(** The text of the file: [None] when [all_rows] is empty, and no file is
    opened. The rows are built before the file is opened, so no file is
    written either when building them raises. *)
Definition export_to_m3u (self : ScraperManager.t) : result (option string) :=
  all_rows <- ScraperManager.all_rows netloc self ;;
  Ok (match all_rows with
      | [] => None
      | _ :: _ => Some (fold_left write_row all_rows EmptyString)
      end).
End Write.

End Playlist.

(** ** The [json] module, for the values above

    [dumps] is [json.dump(v, f, ensure_ascii=False, indent=4)]; [loads] is
    [json.load], for texts made of objects, arrays, strings and [null]
    (numbers and booleans, which no results map holds, are not among the
    values modelled and are refused). *)

Module Json.
Import PyStr.

Definition backslash : ascii := "092"%char.

Definition hex_digit (n : nat) : ascii :=
  match n with
  | 0 => "0" | 1 => "1" | 2 => "2" | 3 => "3" | 4 => "4" | 5 => "5"
  | 6 => "6" | 7 => "7" | 8 => "8" | 9 => "9" | 10 => "a" | 11 => "b"
  | 12 => "c" | 13 => "d" | 14 => "e" | _ => "f"
  end%char.

(** The replacement of one character in [encode_basestring]. *)
Definition escape_char (c : ascii) : string :=
  let n := nat_of_ascii c in
  if Ascii.eqb c "034" then String backslash dquote
  else if Ascii.eqb c backslash then String backslash (String backslash EmptyString)
  else if Ascii.eqb c "008" then String backslash "b"
  else if Ascii.eqb c "012" then String backslash "f"
  else if Ascii.eqb c "010" then String backslash "n"
  else if Ascii.eqb c "013" then String backslash "r"
  else if Ascii.eqb c "009" then String backslash "t"
  else if (n <? 32)%nat
       then String backslash
              (String "u" (String "0" (String "0"
                 (String (hex_digit (n / 16))
                    (String (hex_digit (n mod 16)) EmptyString)))))
       else String c EmptyString.

Fixpoint escape (s : string) : string :=
  match s with
  | EmptyString => EmptyString
  | String c s' => escape_char c ++ escape s'
  end.

Definition encode_basestring (s : string) : string :=
  dquote ++ escape s ++ dquote.

Fixpoint spaces (n : nat) : string :=
  match n with
  | O => EmptyString
  | S k => String " " (spaces k)
  end.

(** ['\n' + indent * level] with [indent = 4] *)
Definition newline_indent (level : nat) : string :=
  String newline (spaces (4 * level)).

(** What [_iterencode_list] and [_iterencode_dict] write after the first
    item: a comma, the new line and the next item, for each. *)
Section More.
Variable enc : pyval -> string.
Variable sep : string.

Fixpoint more_items (l : list pyval) : string :=
  match l with
  | [] => EmptyString
  | y :: l' => "," ++ sep ++ enc y ++ more_items l'
  end.

Fixpoint more_pairs (l : list (string * pyval)) : string :=
  match l with
  | [] => EmptyString
  | (k, y) :: l' =>
      "," ++ sep ++ encode_basestring k ++ ": " ++ enc y ++ more_pairs l'
  end.
End More.

(** [_iterencode] *)
Fixpoint iterencode (level : nat) (v : pyval) : string :=
  match v with
  | PNone => "null"
  | PStr s => encode_basestring s
  | PList [] => "[]"
  | PList (x :: xs) =>
      "[" ++ newline_indent (S level) ++ iterencode (S level) x
      ++ more_items (iterencode (S level)) (newline_indent (S level)) xs
      ++ newline_indent level ++ "]"
  | PDict [] => "{}"
  | PDict ((k, x) :: kvs) =>
      "{" ++ newline_indent (S level)
      ++ encode_basestring k ++ ": " ++ iterencode (S level) x
      ++ more_pairs (iterencode (S level)) (newline_indent (S level)) kvs
      ++ newline_indent level ++ "}"
  end.

Definition dumps (v : pyval) : string := iterencode 0 v.

(** *** Decoding *)

Definition is_ws (c : ascii) : bool :=
  Ascii.eqb c " " || Ascii.eqb c "009" || Ascii.eqb c "010" || Ascii.eqb c "013".

Fixpoint skip_ws (s : string) : string :=
  match s with
  | String c s' => if is_ws c then skip_ws s' else s
  | EmptyString => EmptyString
  end.

Definition hex_value (c : ascii) : option N :=
  let n := N_of_ascii c in
  (if (48 <=? n) && (n <=? 57) then Some (n - 48)
   else if (97 <=? n) && (n <=? 102) then Some (n - 87)
   else if (65 <=? n) && (n <=? 70) then Some (n - 55)
   else None)%N.

Definition hex4 (a b c d : ascii) : option N :=
  match hex_value a, hex_value b, hex_value c, hex_value d with
  | Some x, Some y, Some z, Some w => Some (((x * 16 + y) * 16 + z) * 16 + w)%N
  | _, _, _, _ => None
  end.

(** The character [chr(uni)] of a [\uXXXX] escape, as its UTF-8 bytes.
    Surrogates have none and are refused. *)
Definition chr_utf8 (uni : N) : option string :=
  (if uni <? 128 then Some (String (ascii_of_N uni) EmptyString)
   else if uni <? 2048 then
     Some (String (ascii_of_N (192 + uni / 64))
             (String (ascii_of_N (128 + uni mod 64)) EmptyString))
   else if (55296 <=? uni) && (uni <=? 57343) then None
   else
     Some (String (ascii_of_N (224 + uni / 4096))
             (String (ascii_of_N (128 + (uni / 64) mod 64))
                (String (ascii_of_N (128 + uni mod 64)) EmptyString))))%N.

(** The [BACKSLASH] table of the decoder. *)
Definition unescape (e : ascii) : option ascii :=
  if Ascii.eqb e "034" then Some "034"%char
  else if Ascii.eqb e backslash then Some backslash
  else if Ascii.eqb e "/" then Some "/"%char
  else if Ascii.eqb e "b" then Some "008"%char
  else if Ascii.eqb e "f" then Some "012"%char
  else if Ascii.eqb e "n" then Some "010"%char
  else if Ascii.eqb e "r" then Some "013"%char
  else if Ascii.eqb e "t" then Some "009"%char
  else None.

(** [scanstring], strict, from just after the opening quote: the string and
    what follows its closing quote. *)
Fixpoint scanstring (s : string) : option (string * string) :=
  match s with
  | EmptyString => None
  | String c s' =>
      if Ascii.eqb c "034" then Some (EmptyString, s')
      else if Ascii.eqb c backslash then
        match s' with
        | EmptyString => None
        | String e s'' =>
            if Ascii.eqb e "u" then
              match s'' with
              | String h1 (String h2 (String h3 (String h4 s3))) =>
                  match hex4 h1 h2 h3 h4 with
                  | Some uni =>
                      match chr_utf8 uni, scanstring s3 with
                      | Some ch, Some (r, rest) => Some (ch ++ r, rest)
                      | _, _ => None
                      end
                  | None => None
                  end
              | _ => None
              end
            else
              match unescape e, scanstring s'' with
              | Some ch, Some (r, rest) => Some (String ch r, rest)
              | _, _ => None
              end
        end
      else if (nat_of_ascii c <? 32)%nat then None
      else match scanstring s' with
           | Some (r, rest) => Some (String c r, rest)
           | None => None
           end
  end.

(** [dict(pairs)] *)
Definition dict_of_pairs (pairs : list (string * pyval)) : PyDict.dict pyval :=
  fold_left (fun d kv => PyDict.set (fst kv) (snd kv) d) pairs [].

(** [scan_once], [JSONArray] and [JSONObject]. [fuel] bounds the nesting
    depth plus the number of items; [loads] gives the length of the text.
    [parse_items] and [parse_pairs] start at an item, after the whitespace
    that follows the bracket or the comma. *)
Fixpoint parse_value (fuel : nat) (s : string) : option (pyval * string) :=
  match fuel with
  | O => None
  | S fuel' =>
      match s with
      | EmptyString => None
      | String c r =>
          if Ascii.eqb c "034" then
            match scanstring r with
            | Some (str, rest) => Some (PStr str, rest)
            | None => None
            end
          else if Ascii.eqb c "[" then
            match skip_ws r with
            | EmptyString => None
            | String c1 rest =>
                if Ascii.eqb c1 "]" then Some (PList [], rest)
                else match parse_items fuel' (String c1 rest) with
                     | Some (l, rest') => Some (PList l, rest')
                     | None => None
                     end
            end
          else if Ascii.eqb c "{" then
            match skip_ws r with
            | EmptyString => None
            | String c1 rest =>
                if Ascii.eqb c1 "}" then Some (PDict [], rest)
                else match parse_pairs fuel' (String c1 rest) with
                     | Some (pairs, rest') =>
                         Some (PDict (dict_of_pairs pairs), rest')
                     | None => None
                     end
            end
          else if prefix "null" s then Some (PNone, drop 4 s)
          else None
      end
  end
with parse_items (fuel : nat) (s : string) : option (list pyval * string) :=
  match fuel with
  | O => None
  | S fuel' =>
      match parse_value fuel' s with
      | Some (v, r) =>
          match skip_ws r with
          | EmptyString => None
          | String c rest =>
              if Ascii.eqb c "]" then Some ([v], rest)
              else if Ascii.eqb c "," then
                match parse_items fuel' (skip_ws rest) with
                | Some (l, rest') => Some (v :: l, rest')
                | None => None
                end
              else None
          end
      | None => None
      end
  end
with parse_pairs (fuel : nat) (s : string)
  : option (list (string * pyval) * string) :=
  match fuel with
  | O => None
  | S fuel' =>
      match s with
      | EmptyString => None
      | String q r =>
          if Ascii.eqb q "034" then
            match scanstring r with
            | Some (key, r0) =>
                match skip_ws r0 with
                | EmptyString => None
                | String c r1 =>
                    if Ascii.eqb c ":" then
                      match parse_value fuel' (skip_ws r1) with
                      | Some (v, r2) =>
                          match skip_ws r2 with
                          | EmptyString => None
                          | String c2 r3 =>
                              if Ascii.eqb c2 "}" then Some ([(key, v)], r3)
                              else if Ascii.eqb c2 "," then
                                match parse_pairs fuel' (skip_ws r3) with
                                | Some (l, rest) => Some ((key, v) :: l, rest)
                                | None => None
                                end
                              else None
                          end
                      | None => None
                      end
                    else None
                end
            | None => None
            end
          else None
      end
  end.

(** [json.loads]: one value, with whitespace around it and nothing else. *)
Definition loads (s : string) : option pyval :=
  match parse_value (String.length s) (skip_ws s) with
  | Some (v, rest) =>
      match skip_ws rest with
      | EmptyString => Some v
      | String _ _ => None
      end
  | None => None
  end.

End Json.

(** [self.results] as the Python value [json.dump] is given. *)
Definition results_value (results : PyDict.dict (list Event)) : pyval :=
  PDict (map (fun ue => (fst ue, PList (map (fun e => PDict (event_dict e)) (snd ue))))
             results).

(** The text [export_to_json] writes to its file. *)
Definition export_to_json (self : ScraperManager.t) : string :=
  Json.dumps (results_value (ScraperManager.results self)).

(** Every dictionary inside a value has each of its keys once. *)
Fixpoint wf_val (v : pyval) : Prop :=
  match v with
  | PNone => True
  | PStr _ => True
  | PList l => fold_right (fun x P => wf_val x /\ P) True l
  | PDict d =>
      NoDup (map fst d) /\ fold_right (fun kv P => wf_val (snd kv) /\ P) True d
  end.

(** The number of values in a value, items counted once more: fuel enough
    to parse it back. *)
Fixpoint size (v : pyval) : nat :=
  match v with
  | PNone => 1
  | PStr _ => 1
  | PList l => S (fold_right (fun x n => S (size x + n)) 0 l)
  | PDict d => S (fold_right (fun kv n => S (size (snd kv) + n)) 0 d)
  end.

(** The first character of an encoded value: it is no whitespace, and none
    of the characters that close a list or a dictionary. *)
Definition opens_value (c : ascii) : Prop :=
  Json.is_ws c = false /\ Ascii.eqb c "]" = false /\ Ascii.eqb c "}" = false.

(** A value is read back from its text, whatever the indentation, what
    follows the text and the fuel above its size. *)
Definition parses_back (v : pyval) : Prop :=
  wf_val v ->
  forall fuel level rest,
    size v <= fuel ->
    Json.parse_value fuel (Json.iterencode level v ++ rest) = Some (v, rest).



(** ** The managers a program can reach *)

Section Reachable.
Variable netloc : string -> result string.
Variable requests_get : string -> option (Z * string).
Variable BeautifulSoup : string -> option Bs4.node.
Variable read_file : string -> option string.

(** From a new manager, by the methods that change it. A call of
    [scrape_url] that raises leaves the manager as it was; after a call of
    [scrape_multiple_urls] the manager is reached whether the call returned
    or raised. *)
Inductive reachable : ScraperManager.t -> Prop :=
| reach_init : reachable ScraperManager.init
| reach_register (self : ScraperManager.t) (url_pattern : string)
    (cls : scraper_class) :
    reachable self ->
    reachable (ScraperManager.register_scraper self url_pattern cls)
| reach_scrape_url (self self' : ScraperManager.t) (u : string)
    (events : list Event) :
    reachable self ->
    ScraperManager.scrape_url netloc requests_get BeautifulSoup self u
    = Ok (self', events) ->
    reachable self'
| reach_scrape_file (self self' : ScraperManager.t) (filepath : string)
    (cls : scraper_class) (events : list Event) :
    reachable self ->
    ScraperManager.scrape_file BeautifulSoup read_file self filepath cls
    = Ok (self', events) ->
    reachable self'
| reach_scrape_multiple_urls (self : ScraperManager.t) (urls : list string) :
    reachable self ->
    reachable (fst (ScraperManager.scrape_multiple_urls netloc requests_get
                      BeautifulSoup self urls)).
End Reachable.

(** ** The registry, in the words of the specification *)

Module Registry.

(** A manager after a sequence of [register(pattern, factory)] calls. *)
Definition register_all (calls : list (string * scraper_class)) : ScraperManager.t :=
  fold_left (fun self pc => ScraperManager.register_scraper self (fst pc) (snd pc))
            calls ScraperManager.init.

(** The first registered pattern, in registration order, that is a
    substring of [host]. *)
Definition first_registered (host : string) (calls : list (string * scraper_class))
  : option string :=
  List.find (fun pattern => PyStr.contains pattern host) (map fst calls).

(** The factory of a pattern: the one it was registered with, the latest
    when it was registered more than once. *)
Fixpoint factory_of (pattern : string) (calls : list (string * scraper_class))
  : option scraper_class :=
  match calls with
  | [] => None
  | (p, f) :: rest =>
      match factory_of pattern rest with
      | Some f' => Some f'
      | None => if String.eqb pattern p then Some f else None
      end
  end.

Definition resolve (host : string) (calls : list (string * scraper_class))
  : option scraper_class :=
  match first_registered host calls with
  | Some pattern => factory_of pattern calls
  | None => None
  end.

End Registry.

(** The elements of a list, each at the place where it first stands. *)
Definition distinct (l : list string) : list string :=
  fold_left (fun acc u => if existsb (String.eqb u) acc then acc else (acc ++ [u])%list)
            l [].

(** The number of rows the specification gives the playlist, and the number
    of channels in a results map. *)
Definition rows_specified (results : PyDict.dict (list Event)) : nat :=
  list_sum (map (fun ue =>
                   list_sum (map (fun e => Nat.max 1 (List.length (channels e)))
                                 (snd ue)))
                results).

Definition channel_count (results : PyDict.dict (list Event)) : nat :=
  list_sum (map (fun ue =>
                   list_sum (map (fun e => List.length (channels e)) (snd ue)))
                results).

(** The row [export_to_m3u] builds for a channel of an event of a source
    whose network location is [domain], and the two lines it writes for the
    row. *)
Definition row_fields (domain source : string) (e : Event) (c : Channel)
  : ScraperManager.row :=
  [ ("source", PStr domain);
    ("url", PStr source);
    ("country_league", PStr (country_league e));
    ("title", PStr (title e));
    ("time", PStr (time e));
    ("channel_name", PStr (name c));
    ("channel_url", match url c with Some u => PStr u | None => PNone end) ].

Definition row_lines (domain : string) (e : Event) (c : Channel) : string :=
  Playlist.extinf domain (title e) (name c)
  ++ match url c with Some u => u | None => "None" end
  ++ String PyStr.newline EmptyString.

(** What the loops of [export_to_m3u] make of a source: nothing for a
    source without events, where [urlparse] is not called; else what each
    channel of each event gives, in order. *)
Definition source_items {A : Type} (netloc : string -> result string)
           (item : string -> Event -> Channel -> A)
           (ue : string * list Event) : result (list A) :=
  match snd ue with
  | [] => Ok []
  | _ :: _ =>
      domain <- netloc (fst ue) ;;
      Ok (flat_map (fun e => map (item domain e) (channels e)) (snd ue))
  end.

(** ** Worked documents *)

Module Examples.
Import Bs4.

(** A menu of two items: the time of the first is written with one digit
    on each side of the colon, the [span] of the second has a second class
    and holds a word. *)
Definition menu_odd_times : node :=
  Tag "[document]" []
    [ Tag "ul" [("class", "menu")]
        [ Tag "li" [("class", "es")]
            [ Tag "a" [("href", "#")]
                [ NavigableString "Final ";
                  Tag "span" [("class", "t")] [NavigableString "1:5"] ] ];
          Tag "li" [("class", "it")]
            [ Tag "a" [("href", "#")]
                [ NavigableString "Derbi ";
                  Tag "span" [("class", "t hora")] [NavigableString "pronto"] ] ] ] ].

(** A menu item whose title repeats the time and the name of its channel. *)
Definition menu_title_repeats : node :=
  Tag "[document]" []
    [ Tag "ul" [("class", "menu")]
        [ Tag "li" [("class", "es")]
            [ Tag "a" [("href", "#")]
                [ NavigableString "Resumen 20:00 ";
                  Tag "span" [("class", "t")] [NavigableString "20:00"] ];
              Tag "ul" []
                [ Tag "li" [("class", "subitem1")]
                    [ Tag "a" [("href", "u1")] [NavigableString "Resumen"] ] ] ] ] ].

(** Two blocks: the first repeats its time, the second names its second
    channel in the title. *)
Definition blocks_title_repeats : node :=
  Tag "[document]" []
    [ Tag "strong" []
        [ NavigableString "20:00 20:00 Resumen ";
          Tag "a" [("href", "u1")] [NavigableString "Canal1"] ];
      Tag "strong" []
        [ NavigableString "21:00 Canal2 en directo ";
          Tag "a" [("href", "u1")] [NavigableString "Canal1"];
          NavigableString " ";
          Tag "a" [("href", "u2")] [NavigableString "Canal2"] ] ].

(** A block whose link has no [href] and has blanks around its text. *)
Definition block_bare_link : node :=
  Tag "[document]" []
    [ Tag "strong" []
        [ NavigableString "20:00 Final ";
          Tag "a" [] [NavigableString " Canal1 "] ] ].

(** The menu of the specification's example, with an item that has no
    time and an item that has no anchor. *)
Definition menu_of_the_spec : node :=
  Tag "[document]" []
    [ Tag "ul" [("class", "menu")]
        [ Tag "li" [("class", "es liga")]
            [ Tag "a" [("href", "#")]
                [ NavigableString "Real Madrid vs Barcelona";
                  Tag "span" [("class", "t")] [NavigableString "20:00"] ];
              Tag "ul" []
                [ Tag "li" [("class", "subitem1")]
                    [ Tag "a" [("href", "http://c1")] [NavigableString " Canal 1 "] ];
                  Tag "li" [("class", "subitem1")]
                    [ Tag "a" [] [NavigableString "Canal 2"] ] ] ];
          Tag "li" [] [ Tag "a" [("href", "#")] [NavigableString " Amistoso "] ];
          Tag "li" [] [ NavigableString "sin enlace" ] ] ].

(** The block of the specification's example, a block without a time and a
    second event block. *)
Definition blocks_of_the_spec : node :=
  Tag "[document]" []
    [ Tag "strong" []
        [ NavigableString "20:00 Clásico ";
          Tag "a" [("href", "u1")] [NavigableString "Canal1"];
          NavigableString " ";
          Tag "a" [("href", "u2")] [NavigableString "Canal2"] ];
      Tag "strong" [] [ NavigableString "Hoy "; Tag "a" [("href", "u3")] [NavigableString "Canal3"] ];
      Tag "strong" []
        [ NavigableString "22:15 Copa ";
          Tag "a" [("href", "u4")] [NavigableString "Canal4"] ] ].

(** A world with three pages: the first does not answer, the second and
    the third serve one block each. *)
Definition url_down : string := "http://down.example/partidos".
Definition url_up : string := "http://up.example/partidos".
Definition url_alt : string := "http://alt.example/partidos".
Definition page_up : string := "<strong>20:00 Final</strong>".
Definition page_alt : string := "<strong>21:30 Copa</strong>".
Definition soup_up : node :=
  Tag "[document]" [] [ Tag "strong" [] [NavigableString "20:00 Final"] ].
Definition soup_alt : node :=
  Tag "[document]" [] [ Tag "strong" [] [NavigableString "21:30 Copa"] ].

Definition requests_get (url : string) : option (Z * string) :=
  if String.eqb url url_up then Some (200%Z, page_up)
  else if String.eqb url url_alt then Some (200%Z, page_alt)
  else None.

Definition BeautifulSoup (text : string) : option node :=
  if String.eqb text page_up then Some soup_up
  else if String.eqb text page_alt then Some soup_alt
  else None.

(** A URL that [urlparse] rejects (a bracket opens in the network location
    and none closes), and a URL with user information. *)
Definition url_bad : string := "http://[up.example/partidos".
Definition url_userinfo : string := "http://rojadirecta@evil.example/partidos".

Definition manager : ScraperManager.t :=
  ScraperManager.register_scraper ScraperManager.init "example" DaddyLive.

(** A directory with one file, which holds the page. *)
Definition file_up : string := "partidos.html".

Definition read_file (filepath : string) : option string :=
  if String.eqb filepath file_up then Some page_up else None.

(** The manager after [scrape_url(url_up)]. *)
Definition manager_after_scrape : ScraperManager.t :=
  {| ScraperManager.scraper_map := [("example", DaddyLive)];
     ScraperManager.results :=
       [ (url_up,
          [ {| country_league := EmptyString; title := "Final"; time := "20:00";
               channels := [] |} ]) ] |}.

(** An event without channels, and an event with two. *)
Definition event_without_channels : Event :=
  {| country_league := "es"; title := "Final"; time := "20:00"; channels := [] |}.

Definition event_with_two_channels : Event :=
  {| country_league := EmptyString; title := "Derbi"; time := "21:00";
     channels := [ {| name := "Canal1"; url := Some "u1" |};
                   {| name := "Canal2"; url := None |} ] |}.

(** A manager whose results hold an empty league, the sentinel, a title
    with characters outside ASCII and with a quote, a channel without url,
    an event without channels and a source without events. *)
Definition manager_with_results : ScraperManager.t :=
  {| ScraperManager.scraper_map := [("example", DaddyLive)];
     ScraperManager.results :=
       [ (url_up,
          [ {| country_league := EmptyString;
               title := "Clásico " ++ PyStr.dquote ++ "ida" ++ PyStr.dquote;
               time := "No especificado";
               channels := [ {| name := "Canal1"; url := Some "u1" |};
                             {| name := "Canal2"; url := None |} ] |};
            event_without_channels ]);
         (url_down, []) ] |}.

(** A block whose text has a letter outside ASCII just before its link,
    and a block whose time is written with Arabic-Indic digits and whose
    title stands between no-break spaces. *)
Definition nbsp : string := String "194" (String "160" EmptyString).

Definition block_accent : node :=
  Tag "[document]" []
    [ Tag "strong" []
        [ NavigableString "20:00 Café";
          Tag "a" [("href", "u1")] [NavigableString "Canal1"] ] ].

Definition block_arabic_digits : node :=
  Tag "[document]" []
    [ Tag "strong" [] [ NavigableString ("١٢:٣٠" ++ nbsp ++ "Final" ++ nbsp) ] ].

(** An item whose class has a no-break space between its tokens, and whose
    anchor holds a comment with the markup of a time. *)
Definition menu_comment : node :=
  Tag "[document]" []
    [ Tag "ul" [("class", "menu")]
        [ Tag "li" [("class", "es" ++ nbsp ++ "liga")]
            [ Tag "a" [("href", "#")]
                [ NavigableString "Final";
                  SpecialString Comment
                    ("<span class=" ++ PyStr.dquote ++ "t" ++ PyStr.dquote
                     ++ ">20:00</span>") ] ] ] ].

(** The anchor of an event: [<a href="#">text</a>], and with the time in a
    [span] after the text. *)
Definition anchor_plain (text : string) : node :=
  Tag "a" [("href", "#")] [NavigableString text].

Definition anchor_timed (text time : string) : node :=
  Tag "a" [("href", "#")]
    [ NavigableString text;
      Tag "span" [("class", "t")] [NavigableString time] ].

End Examples.

(** * Properties *)

(** ** Strings *)

Section StringFacts.
Import PyStr.

Lemma str_app_empty_r (s : string) : s ++ EmptyString = s.
Proof. induction s; simpl; congruence. Qed.

Lemma str_app_assoc (a b c : string) : (a ++ b) ++ c = a ++ b ++ c.
Proof. induction a; simpl; congruence. Qed.

Lemma str_length_app (a b : string) :
  String.length (a ++ b) = String.length a + String.length b.
Proof. induction a; simpl; congruence. Qed.

Lemma prefix_iff (p s : string) : prefix p s = true <-> exists r, s = p ++ r.
Proof.
  revert s; induction p as [|c p IH]; intros s; simpl.
  - split; [intros _; now exists s | now destruct s].
  - destruct s as [|d s]; simpl.
    + split; [discriminate | intros [r Hr]; discriminate].
    + destruct (ascii_dec c d) as [->|Hne].
      * rewrite IH. split; intros [r Hr]; exists r; congruence.
      * split; [discriminate | intros [r Hr]; congruence].
Qed.

Lemma prefix_app (p r : string) : prefix p (p ++ r) = true.
Proof. apply prefix_iff. now exists r. Qed.

Lemma substr_refl (s : string) : substr s s.
Proof. exists EmptyString, EmptyString. simpl. now rewrite str_app_empty_r. Qed.

Lemma substr_trans (a b c : string) : substr a b -> substr b c -> substr a c.
Proof.
  intros (x & y & ->) (u & v & ->).
  exists (u ++ x), (y ++ v). now rewrite !str_app_assoc.
Qed.

Lemma substr_cons (t s : string) (c : ascii) : substr t s -> substr t (String c s).
Proof. intros (a & b & ->). now exists (String c a), b. Qed.

Lemma substr_app_l (t a b : string) : substr t a -> substr t (a ++ b).
Proof.
  intros (x & y & ->). exists x, (y ++ b). now rewrite !str_app_assoc.
Qed.

Lemma substr_app_r (t a b : string) : substr t b -> substr t (a ++ b).
Proof.
  intros (x & y & ->). exists (a ++ x), y. now rewrite !str_app_assoc.
Qed.

Lemma contains_iff (t s : string) : contains t s = true <-> substr t s.
Proof.
  induction s as [|c s IH].
  - cbn [contains]. rewrite orb_false_r, prefix_iff. split.
    + intros [r Hr]. now exists EmptyString, r.
    + intros (a & b & H). destruct a; [now exists b | discriminate].
  - cbn [contains]. rewrite orb_true_iff, prefix_iff, IH. split.
    + intros [[r Hr] | H]; [now exists EmptyString, r | now apply substr_cons].
    + intros (a & b & H). destruct a as [|d a]; [left; now exists b |].
      right. exists a, b. simpl in H. congruence.
Qed.

Lemma contains_false_iff (t s : string) : contains t s = false <-> ~ substr t s.
Proof.
  rewrite <- contains_iff. destruct (contains t s); split; intros; congruence.
Qed.

(** A text that occurs in [s] has a first place there. *)
Lemma offset_of_contains (t s : string) :
  contains t s = true -> exists i, offset t s = Some i.
Proof.
  induction s as [|c s IH]; cbn [contains offset].
  - rewrite orb_false_r. intros ->. now exists 0.
  - destruct (prefix t (String c s)); [now exists 0 | simpl].
    intros H. destruct (IH H) as [i ->]. now exists (S i).
Qed.

(** [s.index(t)] returns exactly when [t] occurs in [s]. *)
Lemma index_of_substr (t s : string) :
  substr t s -> exists i, index t s = Ok i.
Proof.
  intros H. apply contains_iff, offset_of_contains in H as [i Hi].
  unfold index. rewrite Hi. eauto.
Qed.

Lemma take_drop (n : nat) (s : string) : take n s ++ drop n s = s.
Proof.
  revert s; induction n as [|n IH]; intros [|c s]; simpl; try reflexivity.
  now rewrite IH.
Qed.

Lemma substr_take (n : nat) (s : string) : substr (take n s) s.
Proof.
  exists EmptyString, (drop n s). simpl. now rewrite take_drop.
Qed.

Lemma substr_drop (n : nat) (s : string) : substr (drop n s) s.
Proof.
  exists (take n s), EmptyString. now rewrite str_app_empty_r, take_drop.
Qed.

(** *** Characters *)

Lemma join_app (a b : list string) : join (a ++ b) = join a ++ join b.
Proof.
  induction a as [|t a IH]; [reflexivity |].
  cbn [join app]. now rewrite IH, str_app_assoc.
Qed.

Lemma join_push (c : ascii) (l : list string) :
  join (push c l) = String c (join l).
Proof.
  destruct l as [|[|d t] ts]; cbn [push]; try reflexivity.
  now destruct (is_cont d).
Qed.

(** A text is its characters, joined. *)
Lemma join_chars (s : string) : join (chars s) = s.
Proof.
  induction s as [|c s IH]; [reflexivity |].
  cbn [chars]. now rewrite join_push, IH.
Qed.

Lemma substr_join (m l : list string) :
  segment m l -> substr (join m) (join l).
Proof.
  intros (a & b & ->). exists (join a), (join b). now rewrite !join_app.
Qed.

Lemma segment_refl {A : Type} (l : list A) : segment l l.
Proof. exists [], []. cbn. now rewrite app_nil_r. Qed.

Lemma segment_trans {A : Type} (a b c : list A) :
  segment a b -> segment b c -> segment a c.
Proof.
  intros (x & y & ->) (u & v & ->).
  exists (u ++ x)%list, (y ++ v)%list. now rewrite <- !app_assoc.
Qed.

Lemma dropwhile_suffix {A : Type} (p : A -> bool) (l : list A) :
  exists a, l = (a ++ dropwhile p l)%list /\ forallb p a = true.
Proof.
  induction l as [|x l (a & IH & Ha)]; [now exists [] |].
  cbn [dropwhile]. destruct (p x) eqn:E; [| now exists []].
  exists (x :: a). cbn [app forallb]. rewrite E, Ha. split; [congruence | reflexivity].
Qed.

Lemma rdropwhile_prefix {A : Type} (p : A -> bool) (l : list A) :
  exists b, l = (rdropwhile p l ++ b)%list /\ forallb p b = true.
Proof.
  unfold rdropwhile. destruct (dropwhile_suffix p (rev l)) as (a & H & Ha).
  exists (rev a). split.
  - rewrite <- (rev_involutive l), H at 1. now rewrite rev_app_distr.
  - rewrite forallb_forall in *. intros x Hx. apply Ha. now apply in_rev.
Qed.

Lemma segment_dropwhile {A : Type} (p : A -> bool) (l : list A) :
  segment (dropwhile p l) l.
Proof.
  destruct (dropwhile_suffix p l) as (a & H & _).
  exists a, []. now rewrite app_nil_r.
Qed.

Lemma segment_rdropwhile {A : Type} (p : A -> bool) (l : list A) :
  segment (rdropwhile p l) l.
Proof.
  destruct (rdropwhile_prefix p l) as (b & H & _). now exists [], b.
Qed.

Lemma segment_firstn {A : Type} (n : nat) (l : list A) : segment (firstn n l) l.
Proof. exists [], (skipn n l). cbn. now rewrite firstn_skipn. Qed.

Lemma segment_skipn {A : Type} (n : nat) (l : list A) : segment (skipn n l) l.
Proof. exists (firstn n l), []. now rewrite app_nil_r, firstn_skipn. Qed.

Lemma substr_lstrip (s : string) : substr (lstrip s) s.
Proof.
  rewrite <- (join_chars s) at 2. apply substr_join, segment_dropwhile.
Qed.

Lemma substr_rstrip (s : string) : substr (rstrip s) s.
Proof.
  rewrite <- (join_chars s) at 2. apply substr_join, segment_rdropwhile.
Qed.

Lemma segment_strip (l : list string) :
  segment (rdropwhile isspace (dropwhile isspace l)) l.
Proof.
  eapply segment_trans; [apply segment_rdropwhile | apply segment_dropwhile].
Qed.

Lemma substr_strip (s : string) : substr (strip s) s.
Proof.
  rewrite <- (join_chars s) at 2. apply substr_join, segment_strip.
Qed.

Lemma segment_slice {A : Type} (a k : nat) (l : list A) :
  segment (firstn k (skipn a l)) l.
Proof.
  eapply segment_trans; [apply segment_firstn | apply segment_skipn].
Qed.

Lemma substr_slice (s : string) (i j : Z) : substr (slice s i j) s.
Proof.
  rewrite <- (join_chars s) at 2. apply substr_join, segment_slice.
Qed.

(** *** What [chars] gives *)

Lemma hd_push (c : ascii) (l : list string) :
  exists t ts, push c l = String c t :: ts.
Proof.
  destruct l as [|[|d t] ts]; cbn [push]; eauto.
  destruct (is_cont d); eauto.
Qed.

Lemma hd_chars (c : ascii) (s : string) :
  exists t ts, chars (String c s) = String c t :: ts.
Proof. cbn [chars]. apply hd_push. Qed.

Lemma is_char_chunk (t : string) : is_char t = true -> is_chunk t = true.
Proof.
  destruct t as [|c r]; [discriminate |]. cbn. now rewrite andb_true_iff.
Qed.

Lemma chunked_chars (s : string) : chunked (chars s).
Proof.
  induction s as [|c s IH]; [exact I |].
  cbn [chars]. destruct (chars s) as [|[|d t] ts]; cbn [push chunked] in *.
  - split; [reflexivity | constructor].
  - destruct IH as [H _]. discriminate.
  - destruct IH as [Ht Hts]. cbn [is_chunk] in Ht.
    destruct (is_cont d) eqn:Ed; cbn [chunked is_chunk all_cont].
    + rewrite Ed, Ht. now split.
    + split; [reflexivity |]. constructor; [| exact Hts].
      cbn [is_char]. now rewrite Ed, Ht.
Qed.

Lemma chunked_app_l (a b : list string) : chunked (a ++ b) -> chunked a.
Proof.
  destruct a as [|t a]; [intros _; exact I |].
  cbn [app chunked]. intros [Ht H]. split; [exact Ht |].
  now apply Forall_app in H as [H _].
Qed.

Lemma chunked_app_r (a b : list string) : chunked (a ++ b) -> chunked b.
Proof.
  destruct a as [|t a]; [easy |].
  cbn [app chunked]. intros [_ H]. apply Forall_app in H as [_ H].
  destruct b as [|u b]; [exact I |]. inversion H; subst.
  split; [now apply is_char_chunk | assumption].
Qed.

Lemma chunked_segment (m l : list string) :
  segment m l -> chunked l -> chunked m.
Proof.
  intros (a & b & ->) H. now apply chunked_app_r, chunked_app_l in H.
Qed.

(** Continuation bytes before a text that starts a character are a
    character of their own. *)
Lemma chars_conts (r x : string) :
  all_cont r = true ->
  match x with String e _ => is_cont e = false | EmptyString => True end ->
  chars (r ++ x) = match r with
                   | EmptyString => chars x
                   | String _ _ => r :: chars x
                   end.
Proof.
  intros Hr Hx. induction r as [|d r IH]; [reflexivity |].
  cbn [all_cont] in Hr. apply andb_true_iff in Hr as [Hd Hr].
  cbn [append chars]. rewrite (IH Hr). destruct r as [|d' r].
  - destruct x as [|e x]; [reflexivity |].
    destruct (hd_chars e x) as (t & ts & ->). cbn [push]. now rewrite Hx.
  - cbn [push]. cbn [all_cont] in Hr. apply andb_true_iff in Hr as [-> _].
    reflexivity.
Qed.

Lemma join_starts_char (l : list string) :
  Forall (fun u => is_char u = true) l ->
  match join l with String e _ => is_cont e = false | EmptyString => True end.
Proof.
  intros H. destruct l as [|[|c r] l]; [exact I | |].
  - inversion H; subst. discriminate.
  - inversion H as [|? ? Hc _]; subst. cbn [is_char] in Hc.
    apply andb_true_iff in Hc as [Hc _]. cbn. now destruct (is_cont c).
Qed.

Lemma chars_chunk_join (c : ascii) (r : string) (l : list string) :
  all_cont r = true ->
  Forall (fun u => is_char u = true) l ->
  chars (join l) = l ->
  chars (String c r ++ join l) = String c r :: l.
Proof.
  intros Hr Hl IH. cbn [append chars].
  rewrite (chars_conts r (join l) Hr (join_starts_char l Hl)), IH.
  destruct r as [|d r].
  - destruct l as [|[|e t] l]; try reflexivity.
    inversion Hl as [|? ? He _]; subst. cbn [is_char] in He.
    apply andb_true_iff in He as [He _]. cbn [push].
    now destruct (is_cont e).
  - cbn [all_cont] in Hr. apply andb_true_iff in Hr as [Hd _].
    cbn [push]. now rewrite Hd.
Qed.

Lemma chars_join_chars (l : list string) :
  Forall (fun u => is_char u = true) l -> chars (join l) = l.
Proof.
  induction 1 as [|[|c r] l Hc Hl IH]; [reflexivity | discriminate |].
  cbn [is_char] in Hc. apply andb_true_iff in Hc as [_ Hr].
  cbn [join]. now apply chars_chunk_join.
Qed.

(** Characters that stand together in a text are the characters of their
    own text. *)
Lemma chars_join (l : list string) : chunked l -> chars (join l) = l.
Proof.
  destruct l as [|[|c r] l]; [reflexivity | intros [H _]; discriminate |].
  intros [Hr Hl]. cbn [join].
  apply chars_chunk_join; [exact Hr | exact Hl | now apply chars_join_chars].
Qed.

Lemma chars_segment (m : list string) (s : string) :
  segment m (chars s) -> chars (join m) = m.
Proof.
  intros H. eapply chars_join, chunked_segment; [exact H | apply chunked_chars].
Qed.

(** The characters of two texts put together, the second starting a
    character. *)
Lemma chars_app (a b : string) :
  match b with String e _ => is_cont e = false | EmptyString => True end ->
  chars (a ++ b) = (chars a ++ chars b)%list.
Proof.
  intros Hb. induction a as [|c a IH]; [reflexivity |].
  cbn [append chars]. rewrite IH. destruct a as [|d a].
  - cbn [chars app]. destruct b as [|e b]; [reflexivity |].
    destruct (hd_chars e b) as (t & ts & ->). cbn [push]. now rewrite Hb.
  - destruct (hd_chars d a) as (t & ts & ->). cbn [app push].
    now destruct (is_cont d).
Qed.

(** The characters of a text but the last are those of any text that starts
    with it. *)
Lemma firstn_chars_app (a r : string) (k : nat) :
  k < len a -> firstn k (chars (a ++ r)) = firstn k (chars a).
Proof.
  unfold len. revert k. induction a as [|c a IH]; intros k Hk; [cbn in Hk; lia |].
  destruct k as [|k]; [reflexivity |].
  cbn [append chars] in *. destruct a as [|d a].
  - cbn in Hk. lia.
  - destruct (hd_chars d a) as (t2 & ts2 & E2).
    destruct (hd_chars d (a ++ r)) as (t1 & ts1 & E1).
    cbn [append] in IH, E1 |- *. rewrite E1, E2 in *. cbn [push] in *.
    destruct (is_cont d).
    + cbn [List.length] in Hk. specialize (IH (S k) ltac:(cbn [List.length]; lia)).
      cbn [firstn] in *. injection IH as -> ->. reflexivity.
    + cbn [List.length] in Hk. cbn [firstn]. f_equal. apply IH.
      cbn [List.length]. lia.
Qed.

End StringFacts.

(** ** The document tree *)

Section TreeFacts.
Import PyStr Bs4.

(** Induction over a tree, with the hypothesis for every child. *)
Lemma node_ind_all (P : node -> Prop)
  (Htext : forall s, P (NavigableString s))
  (Hspecial : forall cls s, P (SpecialString cls s))
  (Htag : forall name attrs cs, Forall P cs -> P (Tag name attrs cs)) :
  forall n, P n.
Proof.
  fix IH 1. intros [s | cls s | name attrs cs];
    [apply Htext | apply Hspecial | apply Htag].
  induction cs as [|c cs IHcs]; constructor; [apply IH | exact IHcs].
Qed.

Lemma concat_empty_cons (x : string) (xs : list string) :
  String.concat EmptyString (x :: xs) = x ++ String.concat EmptyString xs.
Proof. destruct xs; simpl; [now rewrite str_app_empty_r | reflexivity]. Qed.

Lemma substr_concat (t x : string) (xs : list string) :
  In x xs -> substr t x -> substr t (String.concat EmptyString xs).
Proof.
  induction xs as [|y ys IH]; intros Hin Ht; [destruct Hin |].
  rewrite concat_empty_cons. destruct Hin as [-> | Hin].
  - now apply substr_app_l.
  - apply substr_app_r. now apply IH.
Qed.

(** The text of a node below [n] stands, in one piece, in the text of [n]. *)
Lemma get_text_descendant (n d : node) :
  In d (descendants n) -> substr (get_text d) (get_text n).
Proof.
  revert d. induction n as [s | cls s | name attrs cs IH] using node_ind_all;
    intros d Hd; [destruct Hd | destruct Hd |].
  cbn [descendants] in Hd. apply in_flat_map in Hd as (c & Hc & Hd).
  cbn [get_text]. apply substr_concat with (x := get_text c).
  - now apply in_map.
  - rewrite Forall_forall in IH. destruct Hd as [<- | Hd];
      [apply substr_refl | now apply IH].
Qed.

Lemma find_all_descendant (nm : string) (n d : node) :
  In d (find_all nm n) -> In d (descendants n) /\ is_tag nm d = true.
Proof. unfold find_all. now rewrite filter_In. Qed.

Lemma find_descendant (nm : string) (n d : node) :
  find nm n = Some d -> In d (descendants n) /\ is_tag nm d = true.
Proof.
  unfold find. intros H. apply find_all_descendant.
  destruct (find_all nm n); [discriminate | injection H as ->; now left].
Qed.

Lemma get_text_find_all (nm : string) (n d : node) :
  In d (find_all nm n) -> substr (get_text d) (get_text n).
Proof. intros H. now apply get_text_descendant, (find_all_descendant nm). Qed.

End TreeFacts.

(** ** The time pattern *)

Section ReFacts.
Import PyStr.

(** The characters of a match: two digits, a colon, two digits. *)
Lemma hhmm_firstn (l : list string) :
  Re.hhmm_prefix l = true ->
  exists a b d e,
    firstn 5 l = [a; b; ":"; d; e]
    /\ isdecimal a = true /\ isdecimal b = true
    /\ isdecimal d = true /\ isdecimal e = true.
Proof.
  destruct l as [|a [|b [|c [|d [|e l]]]]]; try discriminate. cbn [Re.hhmm_prefix].
  rewrite !andb_true_iff. intros [[[[Ha Hb] Hc] Hd] He].
  apply String.eqb_eq in Hc as ->. now exists a, b, d, e.
Qed.

Lemma search_hhmm_some (l : list string) (h : string) :
  Re.search_hhmm l = Some h ->
  exists m, segment m l /\ h = join m /\ Re.hhmm_prefix m = true
            /\ List.length m = 5.
Proof.
  induction l as [|c l IH]; cbn [Re.search_hhmm].
  - destruct (Re.hhmm_prefix []) eqn:E; [discriminate E | discriminate].
  - destruct (Re.hhmm_prefix (c :: l)) eqn:E.
    + intros [= <-]. exists (firstn 5 (c :: l)).
      split; [apply segment_firstn |]. split; [reflexivity |].
      destruct (hhmm_firstn _ E) as (a & b & d & e & -> & Ha & Hb & Hd & He).
      cbn [Re.hhmm_prefix List.length]. now rewrite Ha, Hb, Hd, He.
    + intros H. destruct (IH H) as (m & (x & y & ->) & Hm).
      exists m. split; [now exists (c :: x), y | exact Hm].
Qed.

(** The match stands in the text and has the exact form HH:MM. *)
Lemma time_pattern_search_some (s h : string) :
  Re.time_pattern_search s = Some h ->
  substr h s /\ Re.is_hhmm h = true /\ len h = 5.
Proof.
  unfold Re.time_pattern_search. intros H.
  apply search_hhmm_some in H as (m & Hseg & -> & Hm & Hlen).
  split; [| split].
  - rewrite <- (join_chars s). now apply substr_join.
  - unfold Re.is_hhmm, len. rewrite (chars_segment m s Hseg), Hm, Hlen.
    reflexivity.
  - unfold len. now rewrite (chars_segment m s Hseg).
Qed.

End ReFacts.

(** ** DaddyLiveScraper: the loop *)

Section DaddyLiveFacts.
Import PyStr Bs4 DaddyLiveScraper.

Lemma fold_link_step (links : list node) (cs : list string) (chans : list Channel) :
  fold_left link_step links (cs, chans)
  = ((cs ++ map get_text links)%list, (chans ++ map link_channel links)%list).
Proof.
  revert cs chans. induction links as [|l links IH]; intros cs chans.
  - simpl. now rewrite !app_nil_r.
  - cbn [fold_left].
    change (link_step (cs, chans) l)
      with ((cs ++ [get_text l])%list, (chans ++ [link_channel l])%list).
    rewrite IH. cbn [map]. now rewrite <- !List.app_assoc.
Qed.

(** One turn of the loop: a block without a time token leaves the state as
    it is; any other block appends one event, made of its own text and of
    the channels accumulated so far followed by its own links, and empties
    the accumulator. The turn never raises. *)
Lemma step_spec (events : list Event) (chans : list Channel) (strong : node) :
  match Re.time_pattern_search (get_text strong) with
  | None => step (events, chans) strong = Ok (events, chans)
  | Some hora =>
      exists i fin,
        index hora (get_text strong) = Ok i
        /\ title_end strong fin
        /\ step (events, chans) strong
           = Ok ((events ++
                    [ {| country_league := EmptyString;
                         title := strip (slice (get_text strong)
                                           (Z.of_nat (i + len hora)) fin);
                         time := hora;
                         channels :=
                           (chans ++ map link_channel (find_all "a" strong))%list |} ])%list,
                 [])
  end.
Proof.
  unfold step. destruct (Re.time_pattern_search (get_text strong)) as [hora|] eqn:Et;
    [| reflexivity].
  destruct (time_pattern_search_some _ _ Et) as [Hsub _].
  apply index_of_substr in Hsub as [i Hi].
  rewrite Hi. cbn [bind].
  rewrite fold_link_step. cbn [app].
  unfold title_end.
  destruct (find_all "a" strong) as [|link links] eqn:El; cbn [map].
  - exists i, (Z.of_nat (len (get_text strong))).
    repeat split.
  - assert (Hl : substr (get_text link) (get_text strong)).
    { apply (get_text_find_all "a"). rewrite El. now left. }
    apply index_of_substr in Hl as [j Hj].
    exists i, (Z.of_nat j - 1)%Z. split; [reflexivity |]. split; [now exists j |].
    rewrite Hj. reflexivity.
Qed.

Lemma block_events_spec (strong : node) :
  match Re.time_pattern_search (get_text strong) with
  | None => block_events strong = []
  | Some hora =>
      exists i fin,
        index hora (get_text strong) = Ok i
        /\ title_end strong fin
        /\ block_events strong
           = [ {| country_league := EmptyString;
                  title := strip (slice (get_text strong)
                                    (Z.of_nat (i + len hora)) fin);
                  time := hora;
                  channels := map link_channel (find_all "a" strong) |} ]
  end.
Proof.
  unfold block_events. pose proof (step_spec [] [] strong) as H.
  destruct (Re.time_pattern_search (get_text strong)) as [hora|].
  - destruct H as (i & fin & Hi & Hfin & ->). now exists i, fin.
  - now rewrite H.
Qed.

Lemma step_block (events : list Event) (strong : node) :
  step (events, []) strong = Ok ((events ++ block_events strong)%list, []).
Proof.
  pose proof (step_spec events [] strong) as H.
  pose proof (block_events_spec strong) as B.
  destruct (Re.time_pattern_search (get_text strong)) as [hora|].
  - destruct H as (i & fin & Hi & Hfin & ->).
    destruct B as (i' & fin' & Hi' & Hfin' & ->).
    assert (i' = i) by congruence. subst i'.
    assert (fin' = fin) as ->.
    { unfold title_end in *. destruct (find_all "a" strong); [congruence |].
      destruct Hfin as (j & Hj & ->), Hfin' as (j' & Hj' & ->). congruence. }
    reflexivity.
  - rewrite H, B. now rewrite app_nil_r.
Qed.

Lemma loop_blocks (strongs : list node) (events : list Event) :
  loop (events, []) strongs
  = Ok ((events ++ flat_map block_events strongs)%list, []).
Proof.
  revert events. induction strongs as [|strong strongs IH]; intros events.
  - simpl. now rewrite app_nil_r.
  - cbn [loop flat_map]. rewrite step_block. cbn [bind].
    rewrite IH. now rewrite <- List.app_assoc.
Qed.

Lemma scrape_blocks (doc : node) :
  scrape (Some doc) = Ok (flat_map block_events (find_all "strong" doc)).
Proof. unfold scrape. now rewrite loop_blocks. Qed.

End DaddyLiveFacts.

(** A loop that gives one result for each element it keeps, and none for
    the others. *)
Lemma flat_map_Forall2 {A B : Type} (f : A -> list B) (keep : A -> bool)
  (R : A -> B -> Prop) (l : list A) :
  (forall x, In x l ->
             if keep x then exists y, f x = [y] /\ R x y else f x = []) ->
  Forall2 R (filter keep l) (flat_map f l).
Proof.
  induction l as [|x l IH]; intros H; [constructor |].
  cbn [filter flat_map]. pose proof (H x (or_introl eq_refl)) as Hx.
  assert (IH' : Forall2 R (filter keep l) (flat_map f l)).
  { apply IH. intros y Hy. apply H. now right. }
  destruct (keep x).
  - destruct Hx as (y & -> & Hy). now constructor.
  - now rewrite Hx.
Qed.

(** ** The second pattern *)

Section SpanFacts.
Import PyStr.

Lemma digits_spec (l d r : list string) :
  Re.digits l = (d, r) -> forallb isdecimal d = true /\ l = (d ++ r)%list.
Proof.
  revert d r. induction l as [|c l IH]; intros d r; cbn [Re.digits].
  - intros [= <- <-]. now split.
  - destruct (isdecimal c) eqn:Ec.
    + destruct (Re.digits l) as [d' r'] eqn:E. intros [= <- <-].
      destruct (IH _ _ eq_refl) as [Hd ->]. cbn [forallb]. rewrite Ec, Hd.
      now split.
    + intros [= <- <-]. now split.
Qed.

(** A run of digits read from a text is a group of digits. *)
Lemma digit_run (m : list string) (s : string) :
  segment m (chars s) -> m <> [] -> forallb isdecimal m = true ->
  join m <> EmptyString /\ Re.all_digits (join m) = true.
Proof.
  intros Hseg Hne Hd. split.
  - pose proof (chunked_segment _ _ Hseg (chunked_chars s)) as Hc.
    destruct m as [|[|c t] m]; [congruence | destruct Hc; discriminate |].
    discriminate.
  - unfold Re.all_digits. now rewrite (chars_segment m s Hseg).
Qed.

Lemma match_time_span_group (s g : string) :
  Re.match_time_span s = Some g -> Re.time_group g.
Proof.
  unfold Re.match_time_span. destruct (prefix Re.span_open s); [| discriminate].
  set (r := drop (String.length Re.span_open) s).
  destruct (Re.digits (chars r)) as [h r1] eqn:Eh.
  destruct h as [|c h]; [discriminate |].
  destruct r1 as [|c1 r2]; [discriminate |].
  destruct (String.eqb_spec c1 ":") as [-> |]; [| discriminate].
  destruct (Re.digits r2) as [m r3] eqn:Em.
  destruct m as [|c2 m]; [discriminate |].
  destruct (prefix Re.span_close (join r3)); [| discriminate].
  intros [= <-].
  apply digits_spec in Eh as [Hh Er]. apply digits_spec in Em as [Hm ->].
  assert (Sh : segment (c :: h) (chars r)) by (rewrite Er; now exists [], (":" :: (c2 :: m) ++ r3)%list).
  assert (Sm : segment (c2 :: m) (chars r)).
  { rewrite Er. exists ((c :: h) ++ [":"])%list, r3.
    now rewrite <- !app_assoc. }
  destruct (digit_run _ _ Sh ltac:(discriminate) Hh) as [Nh Dh].
  destruct (digit_run _ _ Sm ltac:(discriminate) Hm) as [Nm Dm].
  exists (join (c :: h)), (join (c2 :: m)). repeat split; assumption.
Qed.

Lemma match_lead_group (s g1 g2 : string) :
  Re.match_lead s = Some (g1, g2) -> Re.time_group g2.
Proof.
  revert g1. induction s as [|c s IH]; intros g1; cbn [Re.match_lead];
    [discriminate |].
  destruct (Ascii.eqb c newline); [discriminate |].
  destruct (Re.match_time_span s) as [t|] eqn:Et.
  - intros [= <- <-]. now apply match_time_span_group in Et.
  - destruct (Re.match_lead s) as [[g t]|]; [| discriminate].
    intros [= <- <-]. now apply (IH g).
Qed.

Lemma time_span_search_group (s g1 g2 : string) :
  Re.time_span_search s = Some (g1, g2) -> Re.time_group g2.
Proof.
  induction s as [|c s IH]; cbn [Re.time_span_search].
  - destruct (Re.match_lead EmptyString) as [[a b]|] eqn:E; [| discriminate].
    intros [= <- <-]. now apply match_lead_group in E.
  - destruct (Re.match_lead (String c s)) as [[a b]|] eqn:E.
    + intros [= <- <-]. now apply match_lead_group in E.
    + exact IH.
Qed.

End SpanFacts.

(** ** RojadirectaScraper: the loop *)

Section RojadirectaFacts.
Import PyStr Bs4 RojadirectaScraper.

Lemma fold_step (items : list node) (events : list Event) :
  fold_left step items events = (events ++ flat_map item_events items)%list.
Proof.
  revert events. induction items as [|item items IH]; intros events.
  - simpl. now rewrite app_nil_r.
  - cbn [fold_left flat_map]. rewrite IH. unfold step, item_events.
    destruct (item_event item); [now rewrite <- List.app_assoc | reflexivity].
Qed.

Lemma scrape_items (doc : node) :
  scrape (Some doc) = Ok (flat_map item_events (select_ul_menu_li doc)).
Proof. unfold scrape. now rewrite fold_step. Qed.

Lemma fold_channel_step (lis : list node) (chans : list Channel) :
  fold_left channel_step lis chans
  = (chans ++ flat_map (fun li => match find "a" li with
                                  | Some a => [anchor_channel a]
                                  | None => []
                                  end) lis)%list.
Proof.
  revert chans. induction lis as [|li lis IH]; intros chans.
  - simpl. now rewrite app_nil_r.
  - cbn [fold_left flat_map]. rewrite IH. unfold channel_step.
    destruct (find "a" li); [now rewrite <- List.app_assoc | reflexivity].
Qed.

Lemma item_channels_subitems (item : node) :
  item_channels item
  = flat_map (fun li => match find "a" li with
                        | Some a => [anchor_channel a]
                        | None => []
                        end) (subitems item).
Proof.
  unfold item_channels, subitems. destruct (find "ul" item); [| reflexivity].
  now rewrite fold_channel_step.
Qed.

(** What the loop makes of an item: nothing when the item has no anchor,
    else one event read from the item alone. *)
Lemma item_events_spec (item : node) :
  if has_anchor item
  then exists event_link,
      find "a" item = Some event_link
      /\ item_events item
         = [ {| country_league := country_class item;
                title := fst (title_and_time event_link);
                time := snd (title_and_time event_link);
                channels := item_channels item |} ]
  else item_events item = [].
Proof.
  unfold has_anchor, item_events, item_event.
  destruct (find "a" item) as [event_link|]; [| reflexivity].
  exists event_link. split; [reflexivity |].
  now destruct (title_and_time event_link).
Qed.

End RojadirectaFacts.

(** ** The scrapers *)

Section ScraperTheorems.
Import PyStr Bs4.

(** C8. [scrape] of both scrapers returns and never raises: without a loaded
    document it returns the empty list, and on a document it returns, in
    document order, what each node gives on its own. A node gives one event
    or none (an item without an anchor, a block without a time token), so a
    node that gives none leaves the events of the other nodes in place. *)
Theorem scrape_never_raises :
  RojadirectaScraper.scrape None = Ok []
  /\ DaddyLiveScraper.scrape None = Ok []
  /\ (forall doc,
        RojadirectaScraper.scrape (Some doc)
        = Ok (flat_map RojadirectaScraper.item_events (select_ul_menu_li doc)))
  /\ (forall doc,
        DaddyLiveScraper.scrape (Some doc)
        = Ok (flat_map DaddyLiveScraper.block_events (find_all "strong" doc)))
  /\ (forall item,
        List.length (RojadirectaScraper.item_events item)
        = if RojadirectaScraper.has_anchor item then 1 else 0)
  /\ (forall strong,
        List.length (DaddyLiveScraper.block_events strong)
        = if DaddyLiveScraper.is_event_block strong then 1 else 0)
  /\ (forall st strong, exists st', DaddyLiveScraper.step st strong = Ok st').
Proof.
  split; [reflexivity |]. split; [reflexivity |].
  split; [exact scrape_items |]. split; [exact scrape_blocks |].
  split; [| split].
  - intros item. pose proof (item_events_spec item) as H.
    destruct (RojadirectaScraper.has_anchor item).
    + destruct H as (l & _ & ->). reflexivity.
    + now rewrite H.
  - intros strong. pose proof (block_events_spec strong) as H.
    unfold DaddyLiveScraper.is_event_block.
    destruct (Re.time_pattern_search (get_text strong)).
    + destruct H as (i & fin & _ & _ & ->). reflexivity.
    + now rewrite H.
  - intros [events chans] strong. pose proof (step_spec events chans strong) as H.
    destruct (Re.time_pattern_search (get_text strong)).
    + destruct H as (i & fin & _ & _ & ->). eauto.
    + rewrite H. eauto.
Qed.

(** What [scrape] of DaddyLiveScraper returns: one event for each block that
    holds a time token, in document order, each in the relation [R] to its
    block as soon as the event the block gives on its own is. *)
Lemma daddylive_events (doc : node) (R : node -> Event -> Prop) :
  (forall strong e,
      DaddyLiveScraper.block_events strong = [e] -> R strong e) ->
  exists events,
    DaddyLiveScraper.scrape (Some doc) = Ok events
    /\ Forall2 R (filter DaddyLiveScraper.is_event_block (find_all "strong" doc))
               events.
Proof.
  intros HR. eexists. split; [apply scrape_blocks |].
  apply flat_map_Forall2. intros strong _.
  pose proof (block_events_spec strong) as H.
  unfold DaddyLiveScraper.is_event_block.
  destruct (Re.time_pattern_search (get_text strong)); [| exact H].
  destruct H as (i & fin & _ & _ & H). eexists. split; [exact H |].
  now apply HR.
Qed.

(** The same for RojadirectaScraper and the items that have an anchor. *)
Lemma rojadirecta_events (doc : node) (R : node -> Event -> Prop) :
  (forall item e,
      RojadirectaScraper.item_events item = [e] -> R item e) ->
  exists events,
    RojadirectaScraper.scrape (Some doc) = Ok events
    /\ Forall2 R (filter RojadirectaScraper.has_anchor (select_ul_menu_li doc))
               events.
Proof.
  intros HR. eexists. split; [apply scrape_items |].
  apply flat_map_Forall2. intros item _.
  pose proof (item_events_spec item) as H.
  destruct (RojadirectaScraper.has_anchor item); [| exact H].
  destruct H as (l & _ & H). eexists. split; [exact H |]. now apply HR.
Qed.

(** An event read from a block, and an event read from an item. *)
Lemma block_event_inv (strong : node) (e : Event) :
  DaddyLiveScraper.block_events strong = [e] ->
  exists hora i fin,
    Re.time_pattern_search (get_text strong) = Some hora
    /\ index hora (get_text strong) = Ok i
    /\ DaddyLiveScraper.title_end strong fin
    /\ e = {| country_league := EmptyString;
              title := strip (slice (get_text strong)
                                (Z.of_nat (i + len hora)) fin);
              time := hora;
              channels := map DaddyLiveScraper.link_channel (find_all "a" strong) |}.
Proof.
  intros He. pose proof (block_events_spec strong) as H.
  destruct (Re.time_pattern_search (get_text strong)) as [hora|];
    [| rewrite H in He; discriminate].
  destruct H as (i & fin & Hi & Hfin & H). rewrite H in He.
  injection He as <-. now exists hora, i, fin.
Qed.

Lemma item_event_inv (item : node) (e : Event) :
  RojadirectaScraper.item_events item = [e] ->
  exists event_link,
    find "a" item = Some event_link
    /\ e = {| country_league := RojadirectaScraper.country_class item;
              title := fst (RojadirectaScraper.title_and_time event_link);
              time := snd (RojadirectaScraper.title_and_time event_link);
              channels := RojadirectaScraper.item_channels item |}.
Proof.
  intros He. pose proof (item_events_spec item) as H.
  destruct (RojadirectaScraper.has_anchor item);
    [| rewrite H in He; discriminate].
  destruct H as (event_link & Hl & H). rewrite H in He.
  injection He as <-. now exists event_link.
Qed.

(** C3. DaddyLiveScraper emits one event for each block that holds a time
    token, in document order, and the channels of an event are exactly the
    links of its own block, in document order: what was accumulated for a
    block is in no event of a later block. *)
Theorem daddylive_channels_of_own_block (doc : node) :
  exists events,
    DaddyLiveScraper.scrape (Some doc) = Ok events
    /\ Forall2 (fun strong e =>
                  channels e
                  = map DaddyLiveScraper.link_channel (find_all "a" strong))
               (filter DaddyLiveScraper.is_event_block (find_all "strong" doc))
               events.
Proof.
  apply daddylive_events. intros strong e He.
  apply block_event_inv in He as (hora & i & fin & _ & _ & _ & ->).
  reflexivity.
Qed.

End ScraperTheorems.


(** ** Positions, slices and trimming *)

Section SliceFacts.
Import PyStr.

(** [offset] gives the first place: nothing of [s] that holds [t] starts
    before it. *)
Lemma offset_first (t s : string) (j : nat) :
  offset t s = Some j -> forall a b, s = a ++ t ++ b -> j <= String.length a.
Proof.
  revert j. induction s as [|c s IH]; intros j; cbn [offset].
  - destruct (prefix t EmptyString); [intros [= <-]; lia | discriminate].
  - destruct (prefix t (String c s)) eqn:Ep; [intros [= <-]; lia |].
    destruct (offset t s) as [j'|]; [| discriminate]. intros [= <-] a b Hs.
    destruct a as [|d a].
    + simpl in Hs. rewrite Hs, prefix_app in Ep. discriminate.
    + simpl in Hs. injection Hs as _ Hs. specialize (IH j' eq_refl a b Hs).
      simpl. lia.
Qed.

Lemma length_take (n : nat) (s : string) : String.length (take n s) <= n.
Proof.
  revert s. induction n as [|n IH]; intros [|c s]; simpl; try lia.
  specialize (IH s). lia.
Qed.

Lemma bound_range (len k : Z) : (0 <= len -> 0 <= bound len k <= len)%Z.
Proof. unfold bound. destruct (k <? 0)%Z eqn:E; lia. Qed.

Lemma bound_nat (len n : nat) :
  Z.to_nat (bound (Z.of_nat len) (Z.of_nat n)) = Nat.min n len.
Proof. unfold bound. destruct (Z.ltb_spec (Z.of_nat n) 0); lia. Qed.

Lemma skipn_min {A : Type} (n : nat) (l : list A) :
  skipn (Nat.min n (List.length l)) l = skipn n l.
Proof.
  destruct (Nat.le_gt_cases n (List.length l)) as [H | H].
  - now rewrite Nat.min_l.
  - rewrite Nat.min_r by lia. now rewrite !skipn_all2 by lia.
Qed.

Lemma firstn_min {A : Type} (n : nat) (l : list A) :
  firstn (Nat.min n (List.length l)) l = firstn n l.
Proof.
  destruct (Nat.le_gt_cases n (List.length l)) as [H | H].
  - now rewrite Nat.min_l.
  - rewrite Nat.min_r by lia. now rewrite !firstn_all2 by lia.
Qed.

(** [s[n:]] and [s[:m]] *)
Lemma slice_from (s : string) (n : nat) :
  slice s (Z.of_nat n) (Z.of_nat (len s)) = join (skipn n (chars s)).
Proof.
  unfold slice, len. rewrite bound_nat, skipn_min. f_equal.
  apply firstn_all2. rewrite length_skipn.
  pose proof (bound_nat (List.length (chars s)) (List.length (chars s))) as Hb.
  pose proof (bound_nat (List.length (chars s)) n) as Hn.
  pose proof (bound_range (Z.of_nat (List.length (chars s)))
                (Z.of_nat (List.length (chars s))) ltac:(lia)).
  pose proof (bound_range (Z.of_nat (List.length (chars s)))
                (Z.of_nat n) ltac:(lia)).
  lia.
Qed.

Lemma slice_upto (s : string) (m : nat) :
  slice s 0 (Z.of_nat m) = join (firstn m (chars s)).
Proof.
  unfold slice.
  pose proof (bound_nat (List.length (chars s)) 0) as H0.
  pose proof (bound_nat (List.length (chars s)) m) as Hm.
  pose proof (bound_range (Z.of_nat (List.length (chars s))) 0 ltac:(lia)).
  pose proof (bound_range (Z.of_nat (List.length (chars s)))
                (Z.of_nat m) ltac:(lia)).
  change (Z.of_nat 0) with 0%Z in H0.
  replace (Z.to_nat (bound (Z.of_nat (List.length (chars s))) 0)) with 0 by lia.
  cbn [skipn].
  replace (Z.to_nat (bound (Z.of_nat (List.length (chars s))) (Z.of_nat m)
                     - bound (Z.of_nat (List.length (chars s))) 0))
    with (Nat.min m (List.length (chars s))) by lia.
  now rewrite firstn_min.
Qed.

(** A slice that starts at [n] lies in what stands from [n] on. *)
Lemma slice_after (s : string) (n : nat) (fin : Z) :
  substr (slice s (Z.of_nat n) fin) (slice s (Z.of_nat n) (Z.of_nat (len s))).
Proof.
  rewrite slice_from. unfold slice at 1. apply substr_join.
  rewrite bound_nat, skipn_min. apply segment_firstn.
Qed.

(** A slice that ends at [m] lies in the first [m] characters. *)
Lemma slice_before (s : string) (i : Z) (m : nat) :
  substr (slice s i (Z.of_nat m)) (slice s 0 (Z.of_nat m)).
Proof.
  rewrite slice_upto. unfold slice. apply substr_join.
  set (l := chars s).
  pose proof (bound_range (Z.of_nat (List.length l)) i ltac:(lia)) as Hi.
  set (a := bound (Z.of_nat (List.length l)) i) in *.
  unfold bound. destruct (Z.ltb_spec (Z.of_nat m) 0); [lia |].
  set (b := Z.min (Z.of_nat m) (Z.of_nat (List.length l))).
  destruct (Z.le_gt_cases b a) as [Hle | Hgt].
  - replace (Z.to_nat (b - a)) with 0 by lia. cbn [firstn].
    now exists [], (firstn m l).
  - rewrite <- (firstn_min m l).
    replace (Nat.min m (List.length l)) with (Z.to_nat a + Z.to_nat (b - a))
      by (unfold b; lia).
    rewrite firstn_skipn_comm. apply segment_skipn.
Qed.

(** What stands before the character at which [t] first stands, but for
    the last character before it, does not hold [t]. *)
Lemma before_index (t s : string) (j : nat) :
  index t s = Ok j -> 1 <= j -> ~ substr t (slice s 0 (Z.of_nat (j - 1))).
Proof.
  unfold index. destruct (offset t s) as [jb|] eqn:Ej; [| discriminate].
  intros [= <-] Hpos. rewrite slice_upto.
  set (a := take jb s) in *.
  assert (Hs : s = a ++ drop jb s) by (symmetry; apply take_drop).
  rewrite Hs at 1. rewrite firstn_chars_app by lia.
  set (k := len a - 1).
  assert (Ha : a = join (firstn k (chars a)) ++ join (skipn k (chars a))).
  { now rewrite <- join_app, firstn_skipn, join_chars. }
  assert (Hq : join (skipn k (chars a)) <> EmptyString).
  { pose proof (chunked_segment _ _ (segment_skipn k (chars a)) (chunked_chars a))
      as Hc.
    pose proof (length_skipn k (chars a)) as Hl. unfold len in *.
    destruct (skipn k (chars a)) as [|[|c q] l];
      [cbn in Hl; lia | destruct Hc; discriminate | discriminate]. }
  intros (x & y & Hp).
  assert (Hocc : s = x ++ t ++ (y ++ join (skipn k (chars a)) ++ drop jb s)).
  { rewrite Hs at 1. rewrite Ha at 1. rewrite Hp. now rewrite !str_app_assoc. }
  pose proof (offset_first _ _ _ Ej _ _ Hocc) as Hle.
  pose proof (length_take jb s) as Hlt. fold a in Hlt.
  rewrite Ha, Hp, !str_length_app in Hlt.
  destruct (join (skipn k (chars a))); [congruence | cbn in Hlt; lia].
Qed.

(** *** Trimming *)

Lemma dropwhile_head {A : Type} (p : A -> bool) (l : list A) (x : A) (l' : list A) :
  dropwhile p l = x :: l' -> p x = false.
Proof.
  induction l as [|y l IH]; [discriminate |]. cbn [dropwhile].
  destruct (p y) eqn:E; [exact IH | now intros [= <- _]].
Qed.

Lemma dropwhile_fixed {A : Type} (p : A -> bool) (x : A) (l : list A) :
  p x = false -> dropwhile p (x :: l) = x :: l.
Proof. intros H. cbn [dropwhile]. now rewrite H. Qed.

Lemma rdropwhile_last {A : Type} (p : A -> bool) (l : list A) (d : A) :
  rdropwhile p l <> [] -> p (last (rdropwhile p l) d) = false.
Proof.
  unfold rdropwhile. destruct (dropwhile p (rev l)) as [|x l'] eqn:E;
    [cbn [rev]; congruence |].
  intros _. cbn [rev]. rewrite last_last. now apply dropwhile_head in E.
Qed.

Lemma rdropwhile_fixed {A : Type} (p : A -> bool) (l : list A) (d : A) :
  l <> [] -> p (last l d) = false -> rdropwhile p l = l.
Proof.
  intros Hne Hp. unfold rdropwhile.
  destruct (exists_last Hne) as (l' & x & ->). rewrite last_last in Hp.
  rewrite rev_app_distr. cbn [rev app]. rewrite dropwhile_fixed by exact Hp.
  cbn [rev]. now rewrite rev_involutive.
Qed.

(** What [strip] leaves of the characters of a text neither starts nor ends
    with whitespace. *)
Lemma strip_chars_ends (l : list string) :
  match rdropwhile isspace (dropwhile isspace l) with
  | [] => True
  | t :: m => isspace t = false /\ isspace (last m t) = false
  end.
Proof.
  destruct (rdropwhile_prefix isspace (dropwhile isspace l)) as (b & Hb & _).
  pose proof (rdropwhile_last isspace (dropwhile isspace l)) as Hl.
  destruct (rdropwhile isspace (dropwhile isspace l)) as [|t m]; [exact I |].
  split.
  - cbn [app] in Hb. now apply dropwhile_head in Hb.
  - specialize (Hl t ltac:(discriminate)). now destruct m.
Qed.

Lemma chars_strip (s : string) :
  chars (strip s) = rdropwhile isspace (dropwhile isspace (chars s)).
Proof. apply (chars_segment _ s), segment_strip. Qed.

Lemma trimmed_strip (s : string) : trimmed (strip s) = true.
Proof.
  unfold trimmed. rewrite chars_strip.
  pose proof (strip_chars_ends (chars s)) as H.
  destruct (rdropwhile isspace (dropwhile isspace (chars s))) as [|t m];
    [reflexivity |].
  destruct H as [-> ->]. reflexivity.
Qed.

(** A trimmed text is left as it is. *)
Lemma strip_trimmed (s : string) : trimmed s = true -> strip s = s.
Proof.
  unfold trimmed, strip. destruct (chars s) as [|t m] eqn:E.
  - intros _. rewrite <- (join_chars s), E. reflexivity.
  - rewrite andb_true_iff, !negb_true_iff. intros [Ht Hl].
    rewrite dropwhile_fixed by exact Ht.
    rewrite (rdropwhile_fixed isspace (t :: m) t); [| discriminate |].
    + rewrite <- E. apply join_chars.
    + now destruct m.
Qed.

Lemma strip_idem (s : string) : strip (strip s) = strip s.
Proof. apply strip_trimmed, trimmed_strip. Qed.

End SliceFacts.

(** ** Titles, times and channels *)

Section FieldTheorems.
Import PyStr Bs4.

(** C4, as stated, fails for both scrapers. In the first block of
    [blocks_title_repeats] the title holds the time of the event, in the
    second it holds the text of the anchor of the second channel; the title
    of the item of [menu_title_repeats] holds both the time and the text of
    the anchor of its channel. *)
Lemma title_holds_time_and_channel_text :
  DaddyLiveScraper.scrape (Some Examples.blocks_title_repeats)
  = Ok [ {| country_league := EmptyString;
            title := "20:00 Resumen";
            time := "20:00";
            channels := [ {| name := "Canal1"; url := Some "u1" |} ] |};
         {| country_league := EmptyString;
            title := "Canal2 en directo";
            time := "21:00";
            channels := [ {| name := "Canal1"; url := Some "u1" |};
                          {| name := "Canal2"; url := Some "u2" |} ] |} ]
  /\ contains "20:00" "20:00 Resumen" = true
  /\ contains "Canal2" "Canal2 en directo" = true
  /\ RojadirectaScraper.scrape (Some Examples.menu_title_repeats)
     = Ok [ {| country_league := "es";
               title := "Resumen 20:00";
               time := "20:00";
               channels := [ {| name := "Resumen"; url := Some "u1" |} ] |} ]
  /\ contains "20:00" "Resumen 20:00" = true
  /\ contains "Resumen" "Resumen 20:00" = true.
Proof. repeat split; vm_compute; reflexivity. Qed.

(** C4, amended. For every event of DaddyLiveScraper the title is
    trimmed, and it is a piece of the text of its block that lies after the
    first time token: it holds the time only when the token stands again
    further on. When the text of the first link of the block first stands
    at a place other than the very start of the text of the block, the
    title lies before that place and does not hold the text of that
    link. *)
Theorem daddylive_title_bounds (doc : node) :
  exists events,
    DaddyLiveScraper.scrape (Some doc) = Ok events
    /\ Forall2
         (fun strong e =>
            trimmed (title e) = true
            /\ (exists i,
                   index (time e) (get_text strong) = Ok i
                   /\ substr (title e)
                             (slice (get_text strong)
                                    (Z.of_nat (i + len (time e)))
                                    (Z.of_nat (len (get_text strong))))
                   /\ (contains (time e)
                                (slice (get_text strong)
                                       (Z.of_nat (i + len (time e)))
                                       (Z.of_nat (len (get_text strong))))
                       = false ->
                       contains (time e) (title e) = false))
            /\ (forall link links j,
                   find_all "a" strong = link :: links ->
                   index (get_text link) (get_text strong) = Ok j ->
                   1 <= j ->
                   substr (title e)
                          (slice (get_text strong) 0 (Z.of_nat (j - 1)))
                   /\ contains (get_text link) (title e) = false))
         (filter DaddyLiveScraper.is_event_block (find_all "strong" doc))
         events.
Proof.
  apply daddylive_events. intros strong e He.
  apply block_event_inv in He as (hora & i & fin & _ & Hi & Hfin & ->).
  cbn [title time]. split; [apply trimmed_strip |]. split.
  - exists i. split; [exact Hi |].
    assert (Hsub : substr (strip (slice (get_text strong)
                                    (Z.of_nat (i + len hora)) fin))
                          (slice (get_text strong) (Z.of_nat (i + len hora))
                                 (Z.of_nat (len (get_text strong))))).
    { eapply substr_trans; [apply substr_strip | apply slice_after]. }
    split; [exact Hsub |].
    rewrite !contains_false_iff. intros Hno Hin. apply Hno.
    now apply (substr_trans _ _ _ Hin).
  - intros link links j El Hj Hpos. unfold DaddyLiveScraper.title_end in Hfin.
    rewrite El in Hfin. destruct Hfin as (j' & Hj' & ->).
    assert (j' = j) by congruence. subst j'.
    assert (Hsub : substr (strip (slice (get_text strong)
                                    (Z.of_nat (i + len hora)) (Z.of_nat j - 1)))
                          (slice (get_text strong) 0 (Z.of_nat (j - 1)))).
    { eapply substr_trans; [apply substr_strip |].
      replace (Z.of_nat j - 1)%Z with (Z.of_nat (j - 1)) by lia.
      apply slice_before. }
    split; [exact Hsub |].
    apply contains_false_iff. intros Hin.
    apply (before_index _ _ _ Hj Hpos).
    now apply (substr_trans _ _ _ Hin).
Qed.

(** C5, as stated, fails for RojadirectaScraper: the times of the two
    events of [menu_odd_times] are neither of the form HH:MM nor the
    sentinel. *)
Lemma rojadirecta_time_neither_hhmm_nor_sentinel :
  RojadirectaScraper.scrape (Some Examples.menu_odd_times)
  = Ok [ {| country_league := "es"; title := "Final"; time := "1:5";
            channels := [] |};
         {| country_league := "it"; title := "Derbi"; time := "pronto";
            channels := [] |} ]
  /\ Re.is_hhmm "1:5" = false
  /\ String.eqb "1:5" RojadirectaScraper.no_especificado = false
  /\ Re.is_hhmm "pronto" = false
  /\ String.eqb "pronto" RojadirectaScraper.no_especificado = false.
Proof. repeat split; vm_compute; reflexivity. Qed.

(** A match of the second pattern: the markup holds the [span] with the
    group. *)
Lemma match_time_span_occurs (s g : string) :
  Re.match_time_span s = Some g ->
  exists rest, s = Re.span_open ++ g ++ Re.span_close ++ rest.
Proof.
  unfold Re.match_time_span. destruct (prefix Re.span_open s) eqn:Ep;
    [| discriminate].
  apply prefix_iff in Ep as [r ->].
  replace (drop (String.length Re.span_open) (Re.span_open ++ r)) with r
    by reflexivity.
  destruct (Re.digits (chars r)) as [h r1] eqn:Eh.
  destruct h as [|c h]; [discriminate |].
  destruct r1 as [|c1 r2]; [discriminate |].
  destruct (String.eqb_spec c1 ":") as [-> |]; [| discriminate].
  destruct (Re.digits r2) as [m r3] eqn:Em.
  destruct m as [|c2 m]; [discriminate |].
  destruct (prefix Re.span_close (join r3)) eqn:Ec; [| discriminate].
  intros [= <-]. apply prefix_iff in Ec as [rest Ec]. exists rest.
  apply digits_spec in Eh as [_ Er]. apply digits_spec in Em as [_ ->].
  f_equal. rewrite <- (join_chars r), Er, !join_app. cbn [join].
  rewrite join_app, Ec. now rewrite !str_app_assoc.
Qed.

Lemma match_lead_occurs (s g1 g2 : string) :
  Re.match_lead s = Some (g1, g2) ->
  substr (Re.span_open ++ g2 ++ Re.span_close) s.
Proof.
  revert g1. induction s as [|c s IH]; intros g1; cbn [Re.match_lead];
    [discriminate |].
  destruct (Ascii.eqb c newline); [discriminate |].
  destruct (Re.match_time_span s) as [t|] eqn:Et.
  - intros [= <- <-]. apply match_time_span_occurs in Et as [rest ->].
    exists (String c EmptyString), rest. cbn. now rewrite !str_app_assoc.
  - destruct (Re.match_lead s) as [[g t]|]; [| discriminate].
    intros [= <- <-]. apply substr_cons. now apply (IH g).
Qed.

Lemma time_span_search_occurs (s g1 g2 : string) :
  Re.time_span_search s = Some (g1, g2) ->
  substr (Re.span_open ++ g2 ++ Re.span_close) s.
Proof.
  induction s as [|c s IH]; cbn [Re.time_span_search].
  - destruct (Re.match_lead EmptyString) as [[a b]|] eqn:E; [| discriminate].
    intros [= <- <-]. now apply match_lead_occurs in E.
  - destruct (Re.match_lead (String c s)) as [[a b]|] eqn:E.
    + intros [= <- <-]. now apply match_lead_occurs in E.
    + intros H. apply substr_cons. now apply IH.
Qed.

(** C5, amended. Every event of DaddyLiveScraper has the first time token
    of its block as its time, of the exact form HH:MM (two decimal digits,
    a colon, two decimal digits), and never the sentinel: a block without a
    token gives no event. Every event of RojadirectaScraper has as its time
    group 2 of the pattern when the markup of the anchor matches, and then
    the time is one digit or more, a colon, one digit or more, and stands
    in the markup in a [span] of class [t]; else the text of the first
    [span] of class [t] of the anchor, whatever it is; else the
    sentinel. *)
Theorem time_field_sources (doc : node) :
  (exists events,
      DaddyLiveScraper.scrape (Some doc) = Ok events
      /\ Forall2 (fun strong e =>
                    Re.time_pattern_search (get_text strong) = Some (time e)
                    /\ Re.is_hhmm (time e) = true
                    /\ String.eqb (time e) RojadirectaScraper.no_especificado
                       = false)
                 (filter DaddyLiveScraper.is_event_block (find_all "strong" doc))
                 events)
  /\ (exists events,
         RojadirectaScraper.scrape (Some doc) = Ok events
         /\ Forall2 (fun item e =>
                       exists event_link,
                         find "a" item = Some event_link
                         /\ match Re.time_span_search (str event_link) with
                            | Some (_, g2) =>
                                time e = g2
                                /\ Re.time_group g2
                                /\ substr (Re.span_open ++ g2 ++ Re.span_close)
                                          (str event_link)
                            | None =>
                                match find_class "span" "t" event_link with
                                | Some time_span => time e = get_text time_span
                                | None =>
                                    time e = RojadirectaScraper.no_especificado
                                end
                            end)
                    (filter RojadirectaScraper.has_anchor (select_ul_menu_li doc))
                    events).
Proof.
  split.
  - apply daddylive_events. intros strong e He.
    apply block_event_inv in He as (hora & i & fin & Et & _ & _ & ->).
    cbn [time]. split; [exact Et |].
    apply time_pattern_search_some in Et as (_ & Hh & Hl).
    split; [exact Hh |].
    destruct (String.eqb_spec hora RojadirectaScraper.no_especificado) as [-> |];
      [discriminate Hl | reflexivity].
  - apply rojadirecta_events. intros item e He.
    apply item_event_inv in He as (event_link & Hl & ->).
    exists event_link. split; [exact Hl |].
    cbn [time]. unfold RojadirectaScraper.title_and_time.
    destruct (Re.time_span_search (str event_link)) as [[g1 g2]|] eqn:E.
    + cbn [snd]. split; [reflexivity |].
      split; [now apply time_span_search_group in E
             | now apply time_span_search_occurs in E].
    + destruct (find_class "span" "t" event_link); reflexivity.
Qed.

(** C6, as stated, fails for DaddyLiveScraper: the channel of the event of
    [block_bare_link] keeps the blanks around the text of its anchor, and
    its url is [None], not the empty string. *)
Lemma daddylive_channel_untrimmed_without_url :
  DaddyLiveScraper.scrape (Some Examples.block_bare_link)
  = Ok [ {| country_league := EmptyString; title := "Final"; time := "20:00";
            channels := [ {| name := " Canal1 "; url := None |} ] |} ]
  /\ strip " Canal1 " = "Canal1"
  /\ String.eqb " Canal1 " (strip " Canal1 ") = false.
Proof. repeat split; vm_compute; reflexivity. Qed.

(** C6, amended. Every channel of an event of RojadirectaScraper comes
    from the first anchor of a nested item of its item: its name is the
    text of the anchor with the blanks around it removed, its url the
    [href] of the anchor, the empty string when the anchor has none. Every
    channel of an event of DaddyLiveScraper comes from a link of its block:
    its name is the text of the link as it stands, its url the [href] of the
    link, [None] when the link has none. *)
Theorem channel_fields (doc : node) :
  (exists events,
      RojadirectaScraper.scrape (Some doc) = Ok events
      /\ Forall2 (fun item e =>
                    Forall (fun c =>
                              exists li a,
                                In li (RojadirectaScraper.subitems item)
                                /\ find "a" li = Some a
                                /\ name c = strip (get_text a)
                                /\ url c = Some (match get "href" a with
                                                 | Some h => h
                                                 | None => EmptyString
                                                 end))
                           (channels e))
                 (filter RojadirectaScraper.has_anchor (select_ul_menu_li doc))
                 events)
  /\ (exists events,
         DaddyLiveScraper.scrape (Some doc) = Ok events
         /\ Forall2 (fun strong e =>
                       Forall (fun c =>
                                 exists link,
                                   In link (find_all "a" strong)
                                   /\ name c = get_text link
                                   /\ url c = get "href" link)
                              (channels e))
                    (filter DaddyLiveScraper.is_event_block (find_all "strong" doc))
                    events).
Proof.
  split.
  - apply rojadirecta_events. intros item e He.
    apply item_event_inv in He as (event_link & _ & ->).
    cbn [channels]. rewrite item_channels_subitems.
    apply Forall_forall. intros c Hc.
    apply in_flat_map in Hc as (li & Hli & Hc).
    destruct (find "a" li) as [a|] eqn:Ea; [| destruct Hc].
    destruct Hc as [<- | []]. now exists li, a.
  - apply daddylive_events. intros strong e He.
    apply block_event_inv in He as (hora & i & fin & _ & _ & _ & ->).
    cbn [channels]. apply Forall_forall. intros c Hc.
    apply in_map_iff in Hc as (link & <- & Hl). now exists link.
Qed.

End FieldTheorems.

(** ** Dictionaries *)

Section DictFacts.
Context {V : Type}.
Implicit Types (d : PyDict.dict V) (k : string) (v : V).

Lemma get_set_eq k v d : PyDict.get k (PyDict.set k v d) = Some v.
Proof.
  induction d as [|[k' v'] d IH]; simpl.
  - now rewrite String.eqb_refl.
  - destruct (String.eqb k k') eqn:E; simpl; rewrite ?String.eqb_refl, ?E; auto.
Qed.

Lemma get_set_neq k k' v d :
  k <> k' -> PyDict.get k (PyDict.set k' v d) = PyDict.get k d.
Proof.
  intros Hne. apply String.eqb_neq in Hne.
  induction d as [|[k2 v2] d IH]; simpl.
  - now rewrite Hne.
  - destruct (String.eqb k' k2) eqn:E; simpl.
    + apply String.eqb_eq in E as ->. now rewrite Hne.
    + now rewrite IH.
Qed.

Lemma get_none_keys k d : PyDict.get k d = None <-> ~ In k (PyDict.keys d).
Proof.
  induction d as [|[k' v'] d IH]; simpl; [tauto |].
  destruct (String.eqb_spec k k') as [-> | Hne].
  - split; [discriminate | intros H; exfalso; apply H; now left].
  - rewrite IH. split; [intros H [E | Hin]; congruence | tauto].
Qed.

Lemma keys_set k v d :
  PyDict.keys (PyDict.set k v d)
  = if existsb (String.eqb k) (PyDict.keys d) then PyDict.keys d
    else (PyDict.keys d ++ [k])%list.
Proof.
  induction d as [|[k' v'] d IH]; simpl; [reflexivity |].
  destruct (String.eqb k k') eqn:E; simpl.
  - apply String.eqb_eq in E as ->. reflexivity.
  - rewrite IH. now destruct (existsb (String.eqb k) (PyDict.keys d)).
Qed.

Lemma existsb_eqb_In k (l : list string) :
  existsb (String.eqb k) l = true <-> In k l.
Proof.
  rewrite existsb_exists. split.
  - intros (x & Hx & E). apply String.eqb_eq in E as ->. exact Hx.
  - intros H. exists k. now rewrite String.eqb_refl.
Qed.

Lemma in_keys_set k k' v d :
  In k (PyDict.keys (PyDict.set k' v d)) <-> k = k' \/ In k (PyDict.keys d).
Proof.
  rewrite keys_set. destruct (existsb (String.eqb k') (PyDict.keys d)) eqn:E.
  - apply existsb_eqb_In in E. split; [tauto | intros [-> | H]; assumption].
  - rewrite in_app_iff. simpl. split; intros H; intuition congruence.
Qed.

Lemma wf_set k v d : PyDict.wf d -> PyDict.wf (PyDict.set k v d).
Proof.
  unfold PyDict.wf. rewrite keys_set. intros H.
  destruct (existsb (String.eqb k) (PyDict.keys d)) eqn:E; [exact H |].
  apply NoDup_app; [exact H | repeat constructor; intros [] | ].
  intros x Hx [<- | []].
  apply existsb_eqb_In in Hx. congruence.
Qed.

(** After [d.update(other)] a key of [other] has the value of [other], any
    other key the value it had. *)
Lemma get_update k d (other : PyDict.dict V) :
  PyDict.wf other ->
  PyDict.get k (PyDict.update d other)
  = match PyDict.get k other with
    | Some v => Some v
    | None => PyDict.get k d
    end.
Proof.
  unfold PyDict.update. revert d.
  induction other as [|[k' v'] other IH]; intros d Hwf; [reflexivity |].
  inversion Hwf as [|? ? Hnotin Hwf']; subst. cbn [fold_left fst snd].
  rewrite IH by exact Hwf'. cbn [PyDict.get].
  destruct (String.eqb_spec k k') as [-> | Hne].
  - apply get_none_keys in Hnotin. now rewrite Hnotin, get_set_eq.
  - now rewrite get_set_neq.
Qed.


Lemma keys_set_extend k v d :
  PyDict.keys (PyDict.set k v d) = PyDict.extend (PyDict.keys d) [k].
Proof. apply keys_set. Qed.

Lemma keys_update d (other : PyDict.dict V) :
  PyDict.keys (PyDict.update d other)
  = PyDict.extend (PyDict.keys d) (PyDict.keys other).
Proof.
  revert d. induction other as [|[k v] other IH]; intros d; [reflexivity |].
  change (PyDict.update d ((k, v) :: other))
    with (PyDict.update (PyDict.set k v d) other).
  rewrite IH, keys_set. reflexivity.
Qed.

End DictFacts.

Lemma in_extend (k : string) (us ks : list string) :
  In k (PyDict.extend ks us) <-> In k ks \/ In k us.
Proof.
  unfold PyDict.extend. revert ks. induction us as [|u us IH]; intros ks.
  - cbn. tauto.
  - cbn [fold_left]. rewrite IH.
    destruct (existsb (String.eqb u) ks) eqn:E.
    + apply existsb_eqb_In in E. cbn [In]. split; [tauto |].
      intros [H | [<- | H]]; tauto.
    + rewrite in_app_iff. cbn [In]. tauto.
Qed.

Lemma extend_app (ks us vs : list string) :
  PyDict.extend ks (us ++ vs) = PyDict.extend (PyDict.extend ks us) vs.
Proof. unfold PyDict.extend. apply fold_left_app. Qed.

(** Assigning to keys that were assigned to before changes no place. *)
Lemma extend_extend_nil (us ks : list string) :
  PyDict.extend ks (PyDict.extend [] us) = PyDict.extend ks us.
Proof.
  induction us as [|u us IH] using rev_ind; [reflexivity |].
  rewrite !extend_app. unfold PyDict.extend at 2 4. cbn [fold_left].
  destruct (existsb (String.eqb u) (PyDict.extend [] us)) eqn:E.
  - rewrite IH. apply existsb_eqb_In, in_extend in E as [[] | E].
    assert (E' : existsb (String.eqb u) (PyDict.extend ks us) = true).
    { apply existsb_eqb_In, in_extend. now right. }
    now rewrite E'.
  - rewrite extend_app, IH. reflexivity.
Qed.

Lemma extend_wf (us ks : list string) : NoDup ks -> NoDup (PyDict.extend ks us).
Proof.
  unfold PyDict.extend. revert ks. induction us as [|u us IH]; intros ks H;
    [exact H |].
  cbn [fold_left]. apply IH.
  destruct (existsb (String.eqb u) ks) eqn:E; [exact H |].
  apply NoDup_app; [exact H | repeat constructor; intros [] |].
  intros x Hx [<- | []]. apply existsb_eqb_In in Hx. congruence.
Qed.

(** ** The registry *)

Section RegistryFacts.
Import PyStr.

Lemma scraper_map_register_all (calls : list (string * scraper_class)) :
  ScraperManager.scraper_map (Registry.register_all calls)
  = fold_left (fun d pc => PyDict.set (fst pc) (snd pc) d) calls [].
Proof.
  unfold Registry.register_all.
  change (@nil (string * scraper_class))
    with (ScraperManager.scraper_map ScraperManager.init) at 1.
  generalize ScraperManager.init.
  induction calls as [|pc calls IH]; intros self; [reflexivity |].
  cbn [fold_left]. now rewrite IH.
Qed.

(** The loop returns the value of the first key that matches. *)
Lemma first_match_find (host : string) (d : PyDict.dict scraper_class) :
  ScraperManager.first_match host d
  = match List.find (fun p => contains p host) (PyDict.keys d) with
    | Some p => PyDict.get p d
    | None => None
    end.
Proof.
  induction d as [|[k v] d IH]; [reflexivity |].
  cbn [ScraperManager.first_match PyDict.keys map fst List.find].
  destruct (contains k host) eqn:Ek.
  - cbn [PyDict.get]. now rewrite String.eqb_refl.
  - rewrite IH. fold (PyDict.keys d).
    destruct (List.find (fun p => contains p host) (PyDict.keys d)) as [p|] eqn:Ef;
      [| reflexivity].
    apply find_some in Ef as [_ Hp]. cbn [PyDict.get].
    destruct (String.eqb_spec p k) as [-> | _]; [congruence | reflexivity].
Qed.

Lemma find_app_last {A : Type} (P : A -> bool) (l : list A) (x : A) :
  List.find P (l ++ [x])
  = match List.find P l with
    | Some y => Some y
    | None => if P x then Some x else None
    end.
Proof.
  induction l as [|y l IH]; simpl; [reflexivity |].
  destruct (P y); [reflexivity | exact IH].
Qed.

(** Registering again leaves a pattern at its place: the keys of the map
    are met in the order of the first registrations. *)
Lemma find_registered (P : string -> bool) (calls : list (string * scraper_class)) :
  List.find P (PyDict.keys (fold_left (fun d pc => PyDict.set (fst pc) (snd pc) d)
                                      calls []))
  = List.find P (map fst calls).
Proof.
  induction calls as [|[p f] calls IH] using rev_ind; [reflexivity |].
  rewrite fold_left_app, map_app. cbn [fold_left map fst snd].
  rewrite keys_set, find_app_last, <- IH.
  destruct (existsb (String.eqb p) _) eqn:E; [| now rewrite find_app_last].
  apply existsb_eqb_In in E.
  destruct (List.find P _) eqn:Ef; [reflexivity |].
  now rewrite (find_none _ _ Ef _ E).
Qed.

Lemma factory_of_app (k p : string) (f : scraper_class)
  (calls : list (string * scraper_class)) :
  Registry.factory_of k (calls ++ [(p, f)])
  = if String.eqb k p then Some f else Registry.factory_of k calls.
Proof.
  induction calls as [|[p' f'] calls IH]; simpl.
  - reflexivity.
  - rewrite IH. destruct (String.eqb k p); [reflexivity |].
    reflexivity.
Qed.

Lemma get_registered (k : string) (calls : list (string * scraper_class)) :
  PyDict.get k (fold_left (fun d pc => PyDict.set (fst pc) (snd pc) d) calls [])
  = Registry.factory_of k calls.
Proof.
  induction calls as [|[p f] calls IH] using rev_ind; [reflexivity |].
  rewrite fold_left_app, factory_of_app. cbn [fold_left fst snd].
  destruct (String.eqb_spec k p) as [-> | Hne].
  - apply get_set_eq.
  - now rewrite get_set_neq.
Qed.

Lemma factory_of_registered (k : string) (calls : list (string * scraper_class)) :
  In k (map fst calls) -> exists f, Registry.factory_of k calls = Some f.
Proof.
  induction calls as [|[p f] calls IH]; intros Hin; [destruct Hin |].
  cbn [Registry.factory_of]. destruct (Registry.factory_of k calls) eqn:E; [eauto |].
  destruct Hin as [<- | Hin]; [| destruct (IH Hin); discriminate].
  cbn [fst]. rewrite String.eqb_refl. eauto.
Qed.

(** C2, as stated, fails: for a URL that [urlparse] rejects the method
    raises where the claim has it return, also when nothing is registered;
    and the pattern is looked for in the network location, not in the
    hostname, so that a pattern that stands in the user information of the
    URL alone matches. *)
Lemma resolve_raises_and_reads_netloc :
  (forall bracketed_host_ok nfkc_ok,
      ScraperManager.get_scraper_for_url
        (Urllib.netloc bracketed_host_ok nfkc_ok)
        (Registry.register_all []) Examples.url_bad
      = Raise ValueError)
  /\ (forall bracketed_host_ok nfkc_ok,
         Urllib.netloc bracketed_host_ok nfkc_ok Examples.url_userinfo
         = Ok "rojadirecta@evil.example"
         /\ ScraperManager.get_scraper_for_url
              (Urllib.netloc bracketed_host_ok nfkc_ok)
              (Registry.register_all [("rojadirecta", Rojadirecta)])
              Examples.url_userinfo
            = Ok (Some Rojadirecta))
  /\ Urllib.hostname "rojadirecta@evil.example" = Some "evil.example"
  /\ contains "rojadirecta" "evil.example" = false.
Proof. repeat split. Qed.

(** C2, amended. After any sequence of [register_scraper] calls, and for
    any URL that [urlparse] accepts, [get_scraper_for_url] returns the
    factory of the first registered pattern, in registration order, that is
    a substring of the network location of the URL, and [None] exactly when
    no registered pattern is one. (A pattern registered again keeps its
    place and takes the new factory.) For a URL that [urlparse] rejects it
    raises the exception of [urlparse]. *)
Theorem resolve_first_registered (netloc : string -> result string)
  (calls : list (string * scraper_class)) (url : string) :
  ScraperManager.get_scraper_for_url netloc (Registry.register_all calls) url
  = (domain <- netloc url ;; Ok (Registry.resolve domain calls))
  /\ (forall domain,
        netloc url = Ok domain ->
        ScraperManager.get_scraper_for_url netloc (Registry.register_all calls) url
        = Ok (Registry.resolve domain calls)
        /\ (Registry.resolve domain calls = None
            <-> forall pattern factory,
                In (pattern, factory) calls -> contains pattern domain = false))
  /\ (forall e,
        netloc url = Raise e ->
        ScraperManager.get_scraper_for_url netloc (Registry.register_all calls) url
        = Raise e).
Proof.
  assert (Heq : forall domain,
             ScraperManager.first_match domain
               (ScraperManager.scraper_map (Registry.register_all calls))
             = Registry.resolve domain calls).
  { intros domain. unfold Registry.resolve, Registry.first_registered.
    rewrite scraper_map_register_all, first_match_find, find_registered.
    destruct (List.find _ _); [apply get_registered | reflexivity]. }
  unfold ScraperManager.get_scraper_for_url.
  split; [| split].
  - destruct (netloc url) as [domain|e]; cbn [bind]; [| reflexivity].
    now rewrite Heq.
  - intros domain ->. cbn [bind]. rewrite Heq. split; [reflexivity |].
    unfold Registry.resolve, Registry.first_registered. split.
    + intros H pattern factory Hin.
      destruct (List.find _ _) as [p|] eqn:Ef.
      * apply find_some in Ef as [Hp _].
        destruct (factory_of_registered _ _ Hp) as [f Hf]. congruence.
      * apply (find_none _ _ Ef). now apply (in_map fst) in Hin.
    + intros H. destruct (List.find _ _) as [p|] eqn:Ef; [| reflexivity].
      apply find_some in Ef as [Hp Hc].
      apply in_map_iff in Hp as ([p' f] & <- & Hin).
      cbn [fst] in Hc. rewrite (H _ _ Hin) in Hc. discriminate.
  - intros e ->. reflexivity.
Qed.

End RegistryFacts.

(** ** The manager *)

Section ManagerFacts.
Import PyStr.
Variable netloc : string -> result string.
Variable requests_get : string -> option (Z * string).
Variable BeautifulSoup : string -> option Bs4.node.

Local Abbreviation get_scraper_for_url := (ScraperManager.get_scraper_for_url netloc).
Local Abbreviation scrape_url := (ScraperManager.scrape_url netloc requests_get BeautifulSoup).
Local Abbreviation url_outcome := (ScraperManager.url_outcome netloc requests_get BeautifulSoup).
Local Abbreviation fails := (ScraperManager.fails netloc requests_get BeautifulSoup).
Local Abbreviation succeeds := (ScraperManager.succeeds netloc requests_get BeautifulSoup).
Local Abbreviation accepted := (ScraperManager.accepted netloc).
Local Abbreviation load_from_url := (BaseScraper.load_from_url requests_get BeautifulSoup).
Local Abbreviation scrape_loop := (ScraperManager.scrape_loop netloc requests_get BeautifulSoup).
Local Abbreviation scrape_multiple_urls :=
  (ScraperManager.scrape_multiple_urls netloc requests_get BeautifulSoup).

Lemma scrape_of_total (cls : scraper_class) (soup : option Bs4.node) :
  exists events, scrape_of cls soup = Ok events.
Proof.
  destruct cls, soup as [doc|]; cbn [scrape_of]; eexists;
    first [reflexivity | apply scrape_items | apply scrape_blocks].
Qed.

(** [scrape_url] through [url_outcome]: the exception of [urlparse] is
    raised; else the events are stored under the URL and returned, or
    nothing is stored and the empty list is returned. *)
Lemma scrape_url_outcome (self : ScraperManager.t) (url : string) :
  scrape_url self url
  = match url_outcome self url with
    | Raise e => Raise e
    | Ok (Some events) =>
        Ok ({| ScraperManager.scraper_map := ScraperManager.scraper_map self;
               ScraperManager.results :=
                 PyDict.set url events (ScraperManager.results self) |},
            events)
    | Ok None => Ok (self, [])
    end.
Proof.
  unfold ScraperManager.scrape_url, ScraperManager.url_outcome.
  destruct (get_scraper_for_url self url) as [[cls|]|e]; cbn [bind];
    [| reflexivity | reflexivity].
  destruct (load_from_url (BaseScraper.init url)) as [scraper loaded].
  destruct loaded; [| reflexivity].
  destruct (scrape_of_total cls (BaseScraper.soup scraper)) as [events ->].
  reflexivity.
Qed.

Lemma url_outcome_raise (self : ScraperManager.t) (url : string) (e : exn) :
  netloc url = Raise e -> url_outcome self url = Raise e.
Proof.
  intros H. unfold ScraperManager.url_outcome, ScraperManager.get_scraper_for_url.
  now rewrite H.
Qed.

Lemma url_outcome_accepted (self : ScraperManager.t) (url : string) :
  accepted url = true -> exists o, url_outcome self url = Ok o.
Proof.
  unfold ScraperManager.accepted, ScraperManager.url_outcome,
    ScraperManager.get_scraper_for_url.
  destruct (netloc url); [cbn [bind]; eauto | discriminate].
Qed.

Lemma url_outcome_none (self : ScraperManager.t) (url : string) :
  url_outcome self url = Ok None <-> fails self url = true.
Proof.
  unfold ScraperManager.url_outcome, ScraperManager.fails.
  destruct (get_scraper_for_url self url) as [[cls|]|e]; cbn [bind];
    [| tauto | split; discriminate].
  destruct (load_from_url (BaseScraper.init url)) as [scraper loaded].
  cbn [snd]. destruct loaded; cbn [negb]; [| tauto].
  destruct (scrape_of_total cls (BaseScraper.soup scraper)) as [events ->].
  split; discriminate.
Qed.

Lemma url_outcome_some (self : ScraperManager.t) (url : string) :
  succeeds self url
  = match url_outcome self url with Ok (Some _) => true | _ => false end.
Proof.
  unfold ScraperManager.url_outcome, ScraperManager.succeeds.
  destruct (get_scraper_for_url self url) as [[cls|]|e]; cbn [bind];
    [| reflexivity | reflexivity].
  destruct (load_from_url (BaseScraper.init url)) as [scraper loaded].
  cbn [snd]. destruct loaded; [| reflexivity].
  now destruct (scrape_of_total cls (BaseScraper.soup scraper)) as [events ->].
Qed.

Lemma url_outcome_ext (a b : ScraperManager.t) (url : string) :
  ScraperManager.scraper_map a = ScraperManager.scraper_map b ->
  url_outcome a url = url_outcome b url.
Proof.
  intros H. unfold ScraperManager.url_outcome, ScraperManager.get_scraper_for_url.
  now rewrite H.
Qed.

(** C7, as stated, fails: with nothing registered, so that no pattern
    matches, and for a URL whose page does not answer, [scrape_url] does
    not return the empty list when [urlparse] rejects the URL; it raises. *)
Lemma scrape_url_raises_on_rejected_url :
  (forall bracketed_host_ok nfkc_ok,
      ScraperManager.scrape_url (Urllib.netloc bracketed_host_ok nfkc_ok)
        Examples.requests_get Examples.BeautifulSoup
        ScraperManager.init Examples.url_bad
      = Raise ValueError)
  /\ ScraperManager.scraper_map ScraperManager.init = []
  /\ Examples.requests_get Examples.url_bad = None.
Proof. repeat split. Qed.

(** C7, amended. For a URL that [urlparse] accepts: when [scrape_url]
    fails (no pattern matches the URL, or its page does not load) it
    returns the empty list and leaves the manager as it was, so nothing is
    stored under the URL; when a pattern matches and the page loads, it
    returns what the scraper reads from the page and stores exactly that
    under the URL, leaving the other entries and the registry as they
    were. For a URL that [urlparse] rejects it raises the exception of
    [urlparse]. *)
Theorem scrape_url_stores_on_success (self : ScraperManager.t) (url : string) :
  let loaded := load_from_url (BaseScraper.init url) in
  ((get_scraper_for_url self url = Ok None
    \/ (accepted url = true /\ snd loaded = false)) ->
   scrape_url self url = Ok (self, []))
  /\ (forall cls,
        get_scraper_for_url self url = Ok (Some cls) ->
        snd loaded = true ->
        exists doc events self',
          BaseScraper.soup (fst loaded) = Some doc
          /\ scrape_of cls (Some doc) = Ok events
          /\ scrape_url self url = Ok (self', events)
          /\ ScraperManager.scraper_map self' = ScraperManager.scraper_map self
          /\ ScraperManager.results self'
             = PyDict.set url events (ScraperManager.results self)
          /\ PyDict.get url (ScraperManager.results self') = Some events
          /\ (forall k, k <> url ->
                        PyDict.get k (ScraperManager.results self')
                        = PyDict.get k (ScraperManager.results self)))
  /\ (forall e, netloc url = Raise e -> scrape_url self url = Raise e).
Proof.
  intros loaded. split; [| split].
  - intros H. unfold ScraperManager.scrape_url.
    destruct H as [-> | [Ha H]]; [reflexivity |].
    unfold ScraperManager.get_scraper_for_url, ScraperManager.accepted in *.
    destruct (netloc url) as [domain|]; [| discriminate]. cbn [bind].
    destruct (ScraperManager.first_match domain _); [| reflexivity].
    subst loaded. destruct (load_from_url (BaseScraper.init url)) as [scraper ok].
    cbn [snd] in H. now rewrite H.
  - intros cls Hcls Hok. unfold ScraperManager.scrape_url. rewrite Hcls.
    cbn [bind]. subst loaded. unfold BaseScraper.load_from_url in *.
    cbn [BaseScraper.url BaseScraper.init] in *.
    destruct (requests_get url) as [[status text]|]; [| discriminate].
    destruct (status =? 200)%Z; [| discriminate].
    destruct (BeautifulSoup text) as [doc|]; [| discriminate].
    cbn [fst BaseScraper.soup].
    destruct (scrape_of_total cls (Some doc)) as [events He].
    exists doc, events. eexists. rewrite He. cbn [bind].
    repeat split; cbn [ScraperManager.results ScraperManager.scraper_map].
    + apply get_set_eq.
    + intros k Hk. now apply get_set_neq.
  - intros e He. unfold ScraperManager.scrape_url,
      ScraperManager.get_scraper_for_url. now rewrite He.
Qed.

(** *** [scrape_multiple_urls] *)

Lemma get_fold_set {V : Type} (f : string -> V) (urls : list string)
  (acc : PyDict.dict V) (k : string) :
  PyDict.get k (fold_left (fun a u => PyDict.set u (f u) a) urls acc)
  = if existsb (String.eqb k) urls then Some (f k) else PyDict.get k acc.
Proof.
  revert acc. induction urls as [|u urls IH]; intros acc; [reflexivity |].
  cbn [fold_left existsb]. rewrite IH.
  destruct (existsb (String.eqb k) urls); [now rewrite orb_true_r |].
  rewrite orb_false_r. destruct (String.eqb_spec k u) as [-> | Hne].
  - apply get_set_eq.
  - now apply get_set_neq.
Qed.

Lemma keys_fold_set {V : Type} (f : string -> V) (urls : list string)
  (acc : PyDict.dict V) :
  PyDict.keys (fold_left (fun a u => PyDict.set u (f u) a) urls acc)
  = fold_left (fun ks u => if existsb (String.eqb u) ks then ks
                           else (ks ++ [u])%list)
              urls (PyDict.keys acc).
Proof.
  revert acc. induction urls as [|u urls IH]; intros acc; [reflexivity |].
  cbn [fold_left]. now rewrite IH, keys_set.
Qed.

Lemma wf_fold_set {V : Type} (f : string -> V) (urls : list string)
  (acc : PyDict.dict V) :
  PyDict.wf acc -> PyDict.wf (fold_left (fun a u => PyDict.set u (f u) a) urls acc).
Proof.
  revert acc. induction urls as [|u urls IH]; intros acc H; [exact H |].
  cbn [fold_left]. now apply IH, wf_set.
Qed.

Lemma get_fold_store {V : Type} (o : string -> option V) (urls : list string)
  (r : PyDict.dict V) (k : string) :
  ~ In k urls ->
  PyDict.get k (fold_left (fun r u => match o u with
                                      | Some v => PyDict.set u v r
                                      | None => r
                                      end) urls r)
  = PyDict.get k r.
Proof.
  revert r. induction urls as [|u urls IH]; intros r Hk; [reflexivity |].
  cbn [fold_left]. rewrite IH by (intros H; apply Hk; now right).
  destruct (o u); [| reflexivity].
  apply get_set_neq. intros ->. apply Hk. now left.
Qed.

Lemma keys_fold_store {V : Type} (o : string -> option V) (urls : list string)
  (r : PyDict.dict V) :
  PyDict.keys (fold_left (fun r u => match o u with
                                     | Some v => PyDict.set u v r
                                     | None => r
                                     end) urls r)
  = PyDict.extend (PyDict.keys r)
      (filter (fun u => match o u with Some _ => true | None => false end) urls).
Proof.
  revert r. induction urls as [|u urls IH]; intros r; [reflexivity |].
  cbn [fold_left filter]. rewrite IH. destruct (o u); [| reflexivity].
  now rewrite keys_set.
Qed.

Lemma get_fold_store_in {V : Type} (o : string -> option V) (urls : list string)
  (r : PyDict.dict V) (k : string) (v : V) :
  In k urls -> o k = Some v ->
  PyDict.get k (fold_left (fun r u => match o u with
                                      | Some v => PyDict.set u v r
                                      | None => r
                                      end) urls r)
  = Some v.
Proof.
  revert r. induction urls as [|u urls IH]; intros r Hin Hk; [destruct Hin |].
  cbn [fold_left].
  destruct (in_dec string_dec k urls) as [H | H]; [now apply IH |].
  destruct Hin as [-> | Hin]; [| contradiction].
  rewrite get_fold_store by exact H. rewrite Hk. apply get_set_eq.
Qed.

Lemma get_fold_store_out {V : Type} (o : string -> option V) (urls : list string)
  (r : PyDict.dict V) (k : string) :
  ~ In k (filter (fun u => match o u with Some _ => true | None => false end) urls) ->
  PyDict.get k (fold_left (fun r u => match o u with
                                      | Some v => PyDict.set u v r
                                      | None => r
                                      end) urls r)
  = PyDict.get k r.
Proof.
  revert r. induction urls as [|u urls IH]; intros r Hk; [reflexivity |].
  cbn [fold_left filter] in *. destruct (o u) as [v|] eqn:Eu.
  - rewrite IH by (intros H; apply Hk; now right).
    apply get_set_neq. intros ->. apply Hk. now left.
  - now apply IH.
Qed.

(** The loop over URLs that [urlparse] accepts: the local map gets every
    URL with what its scrape returned, the map of the manager gets the URLs
    that did not fail, the registry stays. *)
Lemma scrape_loop_spec (o : string -> option (list Event)) (urls : list string) :
  forall (self : ScraperManager.t) (acc : PyDict.dict (list Event)),
    (forall u, In u urls -> url_outcome self u = Ok (o u)) ->
    exists self',
      scrape_loop self acc urls
      = (self',
         Ok (fold_left (fun a u => PyDict.set u (match o u with
                                                 | Some events => events
                                                 | None => []
                                                 end) a) urls acc))
      /\ ScraperManager.scraper_map self' = ScraperManager.scraper_map self
      /\ ScraperManager.results self'
         = fold_left (fun r u => match o u with
                                 | Some events => PyDict.set u events r
                                 | None => r
                                 end) urls (ScraperManager.results self).
Proof.
  induction urls as [|u urls IH]; intros self acc Ho.
  - exists self. repeat split.
  - cbn [ScraperManager.scrape_loop fold_left].
    rewrite scrape_url_outcome, (Ho u (or_introl eq_refl)).
    destruct (o u) as [events|] eqn:Eu.
    + edestruct IH as (self' & -> & Hmap & Hres).
      { intros u' Hu'. rewrite <- (Ho u' (or_intror Hu')).
        now apply url_outcome_ext. }
      exists self'. repeat split; assumption.
    + destruct (IH self (PyDict.set u [] acc)
                  (fun u' Hu' => Ho u' (or_intror Hu')))
        as (self' & -> & Hmap & Hres).
      exists self'. repeat split; assumption.
Qed.

Lemma scrape_loop_app (pre rest : list string) :
  forall (self : ScraperManager.t) (acc : PyDict.dict (list Event)),
    scrape_loop self acc (pre ++ rest)
    = match scrape_loop self acc pre with
      | (s, Ok a) => scrape_loop s a rest
      | (s, Raise e) => (s, Raise e)
      end.
Proof.
  induction pre as [|u pre IH]; intros self acc; [reflexivity |].
  cbn [app ScraperManager.scrape_loop].
  destruct (scrape_url self u) as [[s r]|e]; [apply IH | reflexivity].
Qed.

(** What the outcomes of a manager are, as a function. *)
Lemma outcomes (self : ScraperManager.t) (urls : list string) :
  forallb accepted urls = true ->
  forall u, In u urls ->
    url_outcome self u
    = Ok (match url_outcome self u with Ok x => x | Raise _ => None end).
Proof.
  intros H u Hu. rewrite forallb_forall in H.
  now destruct (url_outcome_accepted self u (H u Hu)) as [x ->].
Qed.

Lemma succeeds_filter (self : ScraperManager.t) (urls : list string) :
  filter (fun u => match match url_outcome self u with
                         | Ok x => x
                         | Raise _ => None
                         end with
                   | Some _ => true
                   | None => false
                   end) urls
  = filter (succeeds self) urls.
Proof.
  apply filter_ext. intros u. rewrite url_outcome_some.
  now destruct (url_outcome self u) as [[x|]|e].
Qed.

End ManagerFacts.

(** C10, as stated, fails in two ways. With a first URL that does not load
    and a second that does, the returned map has the URLs in the order of
    submission, but the map of the manager has the second before the
    first. With a URL that [urlparse] rejects after a URL that loads, the
    call raises: nothing is returned, the rejected URL is in no map, and
    the manager holds what the URL before gave. *)
Lemma scrape_multiple_urls_manager_order :
  (forall bracketed_host_ok nfkc_ok,
      ScraperManager.scrape_multiple_urls
        (Urllib.netloc bracketed_host_ok nfkc_ok)
        Examples.requests_get Examples.BeautifulSoup Examples.manager
        [Examples.url_down; Examples.url_up]
      = ({| ScraperManager.scraper_map := [("example", DaddyLive)];
            ScraperManager.results :=
              [ (Examples.url_up,
                 [ {| country_league := EmptyString; title := "Final";
                      time := "20:00"; channels := [] |} ]);
                (Examples.url_down, []) ] |},
         Ok [ (Examples.url_down, []);
              (Examples.url_up,
               [ {| country_league := EmptyString; title := "Final";
                    time := "20:00"; channels := [] |} ]) ]))
  /\ (forall bracketed_host_ok nfkc_ok,
         ScraperManager.scrape_multiple_urls
           (Urllib.netloc bracketed_host_ok nfkc_ok)
           Examples.requests_get Examples.BeautifulSoup Examples.manager
           [Examples.url_up; Examples.url_bad]
         = (Examples.manager_after_scrape, Raise ValueError)).
Proof. split; intros; vm_compute; reflexivity. Qed.

(** C10, amended. When [urlparse] accepts every submitted URL,
    [scrape_multiple_urls] returns a map whose keys are the submitted URLs
    in the order of submission (a URL submitted twice stands where it first
    was). For every submitted URL both the returned map and the map of the
    manager hold what [scrape_url] returns for it, which is the empty list
    when the URL fails (no pattern matches, or the page does not load). In
    the map of the manager the other entries are as they were, and the keys
    stand in this order: those it had, at their places; then the URLs that
    did not fail, which the loop stores; then the other submitted URLs,
    which the final update adds. When [urlparse] rejects a submitted URL,
    the call raises at the first such URL: the manager then holds what the
    URLs before it that did not fail gave, stored by the loop, and nothing
    else is changed. *)
Theorem scrape_multiple_urls_entries (netloc : string -> result string)
  (requests_get : string -> option (Z * string))
  (BeautifulSoup : string -> option Bs4.node)
  (self : ScraperManager.t) (urls : list string) :
  (forallb (ScraperManager.accepted netloc) urls = true ->
   exists self' returned,
     ScraperManager.scrape_multiple_urls netloc requests_get BeautifulSoup self urls
     = (self', Ok returned)
     /\ ScraperManager.scraper_map self' = ScraperManager.scraper_map self
     /\ PyDict.keys returned = distinct urls
     /\ (forall url, In url urls ->
           exists s events,
             ScraperManager.scrape_url netloc requests_get BeautifulSoup self url
             = Ok (s, events)
             /\ PyDict.get url returned = Some events
             /\ PyDict.get url (ScraperManager.results self') = Some events)
     /\ (forall url, In url urls ->
           ScraperManager.fails netloc requests_get BeautifulSoup self url = true ->
           PyDict.get url returned = Some []
           /\ PyDict.get url (ScraperManager.results self') = Some [])
     /\ (forall k, ~ In k urls ->
           PyDict.get k (ScraperManager.results self')
           = PyDict.get k (ScraperManager.results self))
     /\ PyDict.keys (ScraperManager.results self')
        = PyDict.extend
            (PyDict.extend (PyDict.keys (ScraperManager.results self))
               (filter (ScraperManager.succeeds netloc requests_get
                          BeautifulSoup self) urls))
            urls)
  /\ (forall pre url post e,
        urls = (pre ++ url :: post)%list ->
        forallb (ScraperManager.accepted netloc) pre = true ->
        netloc url = Raise e ->
        exists self',
          ScraperManager.scrape_multiple_urls netloc requests_get BeautifulSoup
            self urls
          = (self', Raise e)
          /\ ScraperManager.scraper_map self' = ScraperManager.scraper_map self
          /\ PyDict.keys (ScraperManager.results self')
             = PyDict.extend (PyDict.keys (ScraperManager.results self))
                 (filter (ScraperManager.succeeds netloc requests_get
                            BeautifulSoup self) pre)
          /\ (forall u, In u pre ->
                ScraperManager.succeeds netloc requests_get BeautifulSoup self u
                = true ->
                exists s events,
                  ScraperManager.scrape_url netloc requests_get BeautifulSoup
                    self u
                  = Ok (s, events)
                  /\ PyDict.get u (ScraperManager.results self') = Some events)
          /\ (forall k,
                ~ In k (filter (ScraperManager.succeeds netloc requests_get
                                  BeautifulSoup self) pre) ->
                PyDict.get k (ScraperManager.results self')
                = PyDict.get k (ScraperManager.results self))).
Proof.
  set (o := fun u =>
              match ScraperManager.url_outcome netloc requests_get
                      BeautifulSoup self u with
              | Ok x => x
              | Raise _ => None
              end).
  split.
  - intros Hacc.
    destruct (scrape_loop_spec netloc requests_get BeautifulSoup o urls self []
                (outcomes netloc requests_get BeautifulSoup self urls Hacc))
      as (self1 & Hloop & Hmap & Hres).
    set (out := fun u => match o u with Some events => events | None => [] end).
    set (returned := fold_left (fun a u => PyDict.set u (out u) a) urls []) in *.
    assert (Hwf : PyDict.wf returned) by (apply wf_fold_set; constructor).
    assert (Hin : forall url, In url urls ->
                              PyDict.get url returned = Some (out url)).
    { intros url H. unfold returned. rewrite get_fold_set.
      apply existsb_eqb_In in H. now rewrite H. }
    assert (Hout : forall k, ~ In k urls -> PyDict.get k returned = None).
    { intros k H. unfold returned. rewrite get_fold_set.
      destruct (existsb (String.eqb k) urls) eqn:E; [| reflexivity].
      apply existsb_eqb_In in E. contradiction. }
    assert (Hkeys : PyDict.keys returned = distinct urls)
      by apply keys_fold_set.
    unfold ScraperManager.scrape_multiple_urls. rewrite Hloop.
    eexists. exists returned. split; [reflexivity |].
    cbn [ScraperManager.scraper_map ScraperManager.results].
    split; [exact Hmap |]. split; [exact Hkeys |].
    split; [| split; [| split]].
    + intros url H. rewrite scrape_url_outcome.
      rewrite (outcomes netloc requests_get BeautifulSoup self urls Hacc url H).
      fold (o url).
      rewrite (get_update url _ returned Hwf), (Hin url H).
      unfold out. destruct (o url); eauto.
    + intros url H Hf. apply url_outcome_none in Hf.
      rewrite (get_update url _ returned Hwf), (Hin url H).
      unfold out, o. now rewrite Hf.
    + intros k H. rewrite (get_update k _ returned Hwf), (Hout k H), Hres.
      now apply get_fold_store.
    + rewrite keys_update, Hres, (keys_fold_store o).
      change (fold_left _ urls []) with returned. rewrite Hkeys.
      unfold o. rewrite succeeds_filter. apply extend_extend_nil.
  - intros pre url post e -> Hacc He.
    destruct (scrape_loop_spec netloc requests_get BeautifulSoup o pre self []
                (outcomes netloc requests_get BeautifulSoup self pre Hacc))
      as (self1 & Hloop & Hmap & Hres).
    unfold ScraperManager.scrape_multiple_urls.
    rewrite scrape_loop_app, Hloop. cbn [ScraperManager.scrape_loop].
    rewrite scrape_url_outcome.
    rewrite (url_outcome_raise netloc requests_get BeautifulSoup self1 url e He).
    exists self1. split; [reflexivity |]. split; [exact Hmap |].
    rewrite Hres. split; [| split].
    + rewrite (keys_fold_store o). unfold o. now rewrite succeeds_filter.
    + intros u Hu Hs. rewrite url_outcome_some in Hs.
      rewrite scrape_url_outcome.
      destruct (ScraperManager.url_outcome netloc requests_get BeautifulSoup
                  self u) as [[events|]|] eqn:Eo; try discriminate.
      do 2 eexists. split; [reflexivity |].
      apply (get_fold_store_in o); [exact Hu |]. unfold o. now rewrite Eo.
    + intros k Hk. apply (get_fold_store_out o). unfold o.
      now rewrite succeeds_filter.
Qed.

(** ** The playlist exporter *)

Section PlaylistFacts.
Variable netloc : string -> result string.

Lemma mapM_ext {A B : Type} (f g : A -> result B) (l : list A) :
  (forall x, In x l -> f x = g x) -> mapM f l = mapM g l.
Proof.
  induction l as [|x l IH]; intros H; [reflexivity |].
  cbn [mapM]. rewrite (H x (or_introl eq_refl)).
  now rewrite IH by (intros y Hy; apply H; now right).
Qed.

Lemma mapM_map_ok {A B C : Type} (g : A -> B) (f : B -> result C) (h : A -> C)
  (l : list A) :
  (forall a, f (g a) = Ok (h a)) -> mapM f (map g l) = Ok (map h l).
Proof.
  intros H. induction l as [|a l IH]; [reflexivity |].
  cbn [map mapM]. now rewrite H, IH.
Qed.

Lemma mapM_concat_ok {A B : Type} (f : A -> result (list B)) (h : A -> list B)
  (l : list A) :
  (forall a, f a = Ok (h a)) ->
  (rs <- mapM f l ;; Ok (List.concat rs)) = Ok (flat_map h l).
Proof.
  intros H. induction l as [|a l IH]; [reflexivity |].
  cbn [mapM flat_map]. rewrite H. cbn [bind].
  destruct (mapM f l) as [rs|]; [| discriminate]. cbn [bind] in *.
  injection IH as <-. reflexivity.
Qed.

(** The row of a channel of an event: the fields of the event but its
    channels, then the name and the url of the channel. *)
Lemma channel_row_fields (domain source : string) (e : Event) (c : Channel) :
  ScraperManager.channel_row domain source (event_dict e) (PDict (channel_dict c))
  = Ok (row_fields domain source e c).
Proof. reflexivity. Qed.

(** An event gives one row for each of its channels, and no other row:
    the key [channels] is in the dictionary of every event, so the branch
    for an event without the key is never taken. [urlparse] is called
    first. *)
Lemma event_rows_fields (source : string) (e : Event) :
  ScraperManager.event_rows netloc source (event_dict e)
  = (domain <- netloc source ;;
     Ok (map (row_fields domain source e) (channels e))).
Proof.
  unfold ScraperManager.event_rows.
  destruct (netloc source) as [domain|]; cbn [bind]; [| reflexivity].
  change (PyDict.mem "channels" (event_dict e)) with true. cbv iota.
  change (PyDict.get "channels" (event_dict e))
    with (Some (PList (map (fun c => PDict (channel_dict c)) (channels e)))).
  cbn [py_iter bind].
  apply mapM_map_ok. intros c. apply channel_row_fields.
Qed.

Lemma source_rows_fields (ue : string * list Event) :
  (rs <- mapM (fun e => ScraperManager.event_rows netloc (fst ue) (event_dict e))
              (snd ue) ;;
   Ok (List.concat rs))
  = source_items netloc (fun domain => row_fields domain (fst ue)) ue.
Proof.
  unfold source_items. destruct ue as [source events]. cbn [fst snd].
  destruct events as [|e events]; [reflexivity |].
  destruct (netloc source) as [domain|err] eqn:En; cbn [bind].
  - apply (mapM_concat_ok
             (fun e => ScraperManager.event_rows netloc source (event_dict e))
             (fun e => map (row_fields domain source e) (channels e))).
    intros e'. now rewrite event_rows_fields, En.
  - cbn [mapM]. now rewrite event_rows_fields, En.
Qed.

(** The rows of a results map, written out. *)
Lemma all_rows_fields (self : ScraperManager.t) :
  ScraperManager.all_rows netloc self
  = (rows <- mapM (fun ue => source_items netloc
                               (fun domain => row_fields domain (fst ue)) ue)
                  (ScraperManager.results self) ;;
     Ok (List.concat rows)).
Proof.
  unfold ScraperManager.all_rows. f_equal.
  apply mapM_ext. intros ue _. apply source_rows_fields.
Qed.

Lemma length_concat_sum {A : Type} (ls : list (list A)) :
  List.length (List.concat ls) = list_sum (map (@List.length A) ls).
Proof.
  induction ls as [|l ls IH]; [reflexivity |].
  cbn [List.concat map list_sum]. now rewrite length_app, IH.
Qed.

Lemma length_flat_map_sum {A B : Type} (f : A -> list B) (l : list A) :
  List.length (flat_map f l) = list_sum (map (fun x => List.length (f x)) l).
Proof.
  induction l as [|x l IH]; [reflexivity |].
  cbn [flat_map map list_sum]. now rewrite length_app, IH.
Qed.

Lemma source_items_length {A : Type} (item : string -> Event -> Channel -> A)
  (ue : string * list Event) (rows : list A) :
  source_items netloc item ue = Ok rows ->
  List.length rows
  = list_sum (map (fun e => List.length (channels e)) (snd ue)).
Proof.
  unfold source_items. destruct (snd ue) as [|e events]; [now intros [= <-] |].
  destruct (netloc (fst ue)) as [domain|]; [| discriminate]. cbn [bind].
  intros H.
  assert (E : rows = flat_map (fun e => map (item domain e) (channels e))
                              (e :: events)) by congruence.
  rewrite E, length_flat_map_sum. f_equal. apply map_ext. intros e'.
  apply length_map.
Qed.

(** The rows of a results map, when they are built: as many as it has
    channels. *)
Lemma all_rows_count (self : ScraperManager.t) (rows : list ScraperManager.row) :
  ScraperManager.all_rows netloc self = Ok rows ->
  List.length rows = channel_count (ScraperManager.results self).
Proof.
  rewrite all_rows_fields. unfold channel_count.
  revert rows. induction (ScraperManager.results self) as [|ue results IH];
    intros rows.
  - now intros [= <-].
  - cbn [mapM].
    destruct (source_items netloc _ ue) as [r|] eqn:Er; [| discriminate].
    cbn [bind]. destruct (mapM _ results) as [rs|]; [| discriminate].
    cbn [bind] in *. intros [= <-]. cbn [List.concat map list_sum].
    rewrite length_app, (IH _ eq_refl).
    apply source_items_length in Er. rewrite Er. reflexivity.
Qed.

End PlaylistFacts.

(** C1. The rows of the playlist are as many as the channels of the
    results map: an event with channels gives one row for each, but an
    event whose list of channels is empty gives no row, where the
    specification, and the comment at the branch for events without
    channels, give it one. Here the event without channels of the results
    map gives none of the rows. *)
Theorem playlist_drops_event_without_channels
  (bracketed_host_ok nfkc_ok : string -> bool) :
  let results := [ (Examples.url_up,
                    [Examples.event_without_channels;
                     Examples.event_with_two_channels]) ] in
  ScraperManager.all_rows (Urllib.netloc bracketed_host_ok nfkc_ok)
    {| ScraperManager.scraper_map := []; ScraperManager.results := results |}
  = Ok [ [ ("source", PStr "up.example");
           ("url", PStr Examples.url_up);
           ("country_league", PStr EmptyString);
           ("title", PStr "Derbi");
           ("time", PStr "21:00");
           ("channel_name", PStr "Canal1");
           ("channel_url", PStr "u1") ];
         [ ("source", PStr "up.example");
           ("url", PStr Examples.url_up);
           ("country_league", PStr EmptyString);
           ("title", PStr "Derbi");
           ("time", PStr "21:00");
           ("channel_name", PStr "Canal2");
           ("channel_url", PNone) ] ]
  /\ rows_specified results = 3
  /\ channel_count results = 2.
Proof. repeat split. Qed.

(** The number of rows for every results map whose rows are built. *)
Theorem playlist_row_count (netloc : string -> result string)
  (self : ScraperManager.t) (rows : list ScraperManager.row) :
  ScraperManager.all_rows netloc self = Ok rows ->
  List.length rows = channel_count (ScraperManager.results self).
Proof. apply all_rows_count. Qed.

(** ** The JSON exporter *)

Section JsonFacts.
Import PyStr.

(** Induction over a value, with the hypothesis for every item. *)
Lemma pyval_ind_all (P : pyval -> Prop)
  (Hnone : P PNone)
  (Hstr : forall s, P (PStr s))
  (Hlist : forall l, Forall P l -> P (PList l))
  (Hdict : forall d, Forall (fun kv => P (snd kv)) d -> P (PDict d)) :
  forall v, P v.
Proof.
  fix IH 1. intros [| s | l | d]; [exact Hnone | apply Hstr | apply Hlist | apply Hdict].
  - induction l as [|x l IHl]; constructor; [apply IH | exact IHl].
  - induction d as [|[k x] d IHd]; constructor; [apply IH | exact IHd].
Qed.

(** The decoder reads back one escaped character. *)
Lemma scanstring_escape_char (c : ascii) (s : string) :
  Json.scanstring (Json.escape_char c ++ s)
  = match Json.scanstring s with
    | Some (r, rest) => Some (String c r, rest)
    | None => None
    end.
Proof.
  destruct c as [[] [] [] [] [] [] [] []]; reflexivity.
Qed.

Lemma scanstring_escape (s rest : string) :
  Json.scanstring (Json.escape s ++ dquote ++ rest) = Some (s, rest).
Proof.
  induction s as [|c s IH]; [reflexivity |].
  cbn [Json.escape]. rewrite str_app_assoc, scanstring_escape_char, IH.
  reflexivity.
Qed.

Lemma scanstring_basestring (s rest : string) :
  Json.scanstring (drop 1 (Json.encode_basestring s ++ rest)) = Some (s, rest).
Proof.
  unfold Json.encode_basestring. cbn [dquote append drop].
  rewrite str_app_assoc. apply scanstring_escape.
Qed.

Lemma skip_ws_spaces (n : nat) (s : string) :
  Json.skip_ws (Json.spaces n ++ s) = Json.skip_ws s.
Proof. induction n as [|n IH]; [reflexivity | exact IH]. Qed.

Lemma skip_ws_newline_indent (level : nat) (s : string) :
  Json.skip_ws (Json.newline_indent level ++ s) = Json.skip_ws s.
Proof.
  unfold Json.newline_indent. cbn [append Json.skip_ws].
  change (Json.is_ws newline) with true. cbv iota. apply skip_ws_spaces.
Qed.

Lemma iterencode_head (level : nat) (v : pyval) :
  exists c r, Json.iterencode level v = String c r /\ opens_value c.
Proof.
  destruct v as [| s | [|x xs] | [|[k x] kvs]]; cbn [Json.iterencode];
    eexists; eexists; (split; [reflexivity | repeat split]).
Qed.

Lemma skip_ws_head (c : ascii) (r : string) :
  Json.is_ws c = false -> Json.skip_ws (String c r) = String c r.
Proof. intros H. cbn [Json.skip_ws]. now rewrite H. Qed.

Lemma skip_ws_iterencode (level : nat) (v : pyval) (k : string) :
  Json.skip_ws (Json.iterencode level v ++ k) = Json.iterencode level v ++ k.
Proof.
  destruct (iterencode_head level v) as (c & r & -> & Hws & _).
  now apply skip_ws_head.
Qed.

Lemma parse_items_back (inner outer : nat) (rest : string) (xs : list pyval) :
  forall (x : pyval) (fuel : nat),
    Forall parses_back (x :: xs) ->
    wf_val (PList (x :: xs)) ->
    size (PList (x :: xs)) <= S fuel ->
    Json.parse_items fuel
      (Json.iterencode inner x
       ++ Json.more_items (Json.iterencode inner) (Json.newline_indent inner) xs
       ++ Json.newline_indent outer ++ String "]" rest)
    = Some (x :: xs, rest).
Proof.
  induction xs as [|y ys IH]; intros x fuel Hall Hwf Hsize;
    inversion Hall as [|? ? Hx Hrest]; subst;
    destruct Hwf as [Hwx Hwrest]; cbn [size fold_right] in Hsize;
    (destruct fuel as [|fuel]; [lia |]); cbn [Json.parse_items];
    rewrite (Hx Hwx) by lia.
  - cbn [Json.more_items append]. rewrite skip_ws_newline_indent.
    reflexivity.
  - cbn [Json.more_items]. rewrite !str_app_assoc.
    cbn [append Json.skip_ws]. change (Json.is_ws ",") with false. cbv iota.
    change (Ascii.eqb "," "]") with false.
    change (Ascii.eqb "," ",") with true. cbv iota.
    rewrite skip_ws_newline_indent, skip_ws_iterencode.
    rewrite (IH y fuel Hrest Hwrest); [reflexivity |].
    cbn [size fold_right]. lia.
Qed.

Lemma parse_pairs_back (inner outer : nat) (rest : string)
  (kvs : list (string * pyval)) :
  forall (k : string) (x : pyval) (fuel : nat),
    Forall (fun kv => parses_back (snd kv)) ((k, x) :: kvs) ->
    fold_right (fun kv P => wf_val (snd kv) /\ P) True ((k, x) :: kvs) ->
    size (PDict ((k, x) :: kvs)) <= S fuel ->
    Json.parse_pairs fuel
      (Json.encode_basestring k ++ ": " ++ Json.iterencode inner x
       ++ Json.more_pairs (Json.iterencode inner) (Json.newline_indent inner) kvs
       ++ Json.newline_indent outer ++ String "}" rest)
    = Some ((k, x) :: kvs, rest).
Proof.
  induction kvs as [|[k' y] kvs IH]; intros k x fuel Hall Hwf Hsize;
    inversion Hall as [|? ? Hx Hrest]; subst; cbn [snd] in Hx;
    destruct Hwf as [Hwx Hwrest]; cbn [size fold_right snd] in Hsize;
    (destruct fuel as [|fuel]; [lia |]); cbn [Json.parse_pairs];
    unfold Json.encode_basestring at 1; cbn [dquote append];
    change (Ascii.eqb "034" "034") with true; cbv iota;
    rewrite !str_app_assoc, scanstring_escape;
    cbn [append Json.skip_ws]; change (Json.is_ws ":") with false; cbv iota;
    change (Ascii.eqb ":" ":") with true; cbv iota;
    cbn [Json.skip_ws]; change (Json.is_ws " ") with true; cbv iota.
  - rewrite skip_ws_iterencode, (Hx Hwx) by lia.
    cbn [Json.more_pairs append]. rewrite skip_ws_newline_indent.
    reflexivity.
  - rewrite skip_ws_iterencode, (Hx Hwx) by lia.
    cbn [Json.more_pairs]. rewrite !str_app_assoc.
    cbn [append Json.skip_ws]. change (Json.is_ws ",") with false. cbv iota.
    change (Ascii.eqb "," "}") with false.
    change (Ascii.eqb "," ",") with true. cbv iota.
    rewrite skip_ws_newline_indent.
    unfold Json.encode_basestring at 1. cbn [dquote append].
    rewrite skip_ws_head by reflexivity.
    assert (IH' := IH k' y fuel Hrest Hwrest
                      ltac:(cbn [size fold_right snd]; lia)).
    match goal with
    | |- match ?t with _ => _ end = _ =>
        replace t with (Some ((k', y) :: kvs, rest))
          by (symmetry; exact IH')
    end.
    reflexivity.
Qed.

(** [dict(pairs)] of pairs whose keys differ is the pairs themselves. *)
Lemma set_fresh {V : Type} (k : string) (v : V) (d : PyDict.dict V) :
  ~ In k (PyDict.keys d) -> PyDict.set k v d = (d ++ [(k, v)])%list.
Proof.
  induction d as [|[k' v'] d IH]; intros H; [reflexivity |].
  cbn [PyDict.set app]. destruct (String.eqb_spec k k') as [-> | Hne].
  - exfalso. apply H. now left.
  - rewrite IH; [reflexivity |]. intros Hin. apply H. now right.
Qed.

Lemma dict_of_pairs_wf (d : list (string * pyval)) :
  NoDup (map fst d) -> Json.dict_of_pairs d = d.
Proof.
  unfold Json.dict_of_pairs.
  enough (H : forall acc,
             NoDup (map fst (acc ++ d)) ->
             fold_left (fun a kv => PyDict.set (fst kv) (snd kv) a) d acc
             = (acc ++ d)%list) by (intros Hd; now apply (H [])).
  induction d as [|[k v] d IH]; intros acc Hnd.
  - now rewrite app_nil_r.
  - cbn [fold_left fst snd]. rewrite set_fresh.
    + rewrite IH; rewrite <- List.app_assoc; [reflexivity | exact Hnd].
    + rewrite map_app in Hnd. cbn [map fst] in Hnd.
      apply NoDup_remove_2 in Hnd. intros Hin. apply Hnd.
      apply in_or_app. now left.
Qed.

(** Decoding what was encoded gives the value back, with what follows. *)
Lemma parse_value_iterencode (v : pyval) : parses_back v.
Proof.
  induction v as [| s | l IHl | d IHd] using pyval_ind_all;
    intros Hwf fuel level rest Hsize;
    (destruct fuel as [|fuel]; [cbn [size] in Hsize; lia |]).
  - cbn. now destruct rest.
  - cbn [Json.iterencode]. unfold Json.encode_basestring.
    cbn [dquote append Json.parse_value].
    change (Ascii.eqb "034" "034") with true. cbv iota.
    now rewrite str_app_assoc, scanstring_escape.
  - destruct l as [|x xs]; [reflexivity |].
    cbn [Json.iterencode]. rewrite !str_app_assoc.
    cbn [append Json.parse_value].
    change (Ascii.eqb "[" "034") with false. cbv iota.
    change (Ascii.eqb "[" "[") with true. cbv iota.
    rewrite skip_ws_newline_indent, skip_ws_iterencode.
    pose proof (parse_items_back (S level) level rest xs x fuel IHl Hwf Hsize)
      as Hitems.
    destruct (iterencode_head (S level) x) as (c & r & E & _ & Hc & _).
    rewrite E in *. cbn [append] in *. rewrite Hc, Hitems. reflexivity.
  - destruct d as [|[k x] kvs]; [reflexivity |].
    destruct Hwf as [Hnd Hwf].
    cbn [Json.iterencode]. rewrite !str_app_assoc.
    cbn [append Json.parse_value].
    change (Ascii.eqb "{" "034") with false. cbv iota.
    change (Ascii.eqb "{" "[") with false. cbv iota.
    change (Ascii.eqb "{" "{") with true. cbv iota.
    rewrite skip_ws_newline_indent.
    pose proof (parse_pairs_back (S level) level rest kvs k x fuel IHd Hwf Hsize)
      as Hpairs.
    unfold Json.encode_basestring. cbn [dquote append].
    rewrite skip_ws_head by reflexivity.
    change (Ascii.eqb "034" "}") with false. cbv iota.
    match goal with
    | |- match ?t with _ => _ end = _ =>
        replace t with (Some ((k, x) :: kvs, rest))
          by (symmetry; rewrite <- Hpairs; unfold Json.encode_basestring;
              cbn [dquote append]; now rewrite !str_app_assoc)
    end.
    now rewrite dict_of_pairs_wf.
Qed.

(** The text of a value is long enough to be the fuel of its decoding. *)
Lemma more_items_length (inner : nat) (sep : string) (xs : list pyval) :
  Forall (fun y => forall level, size y <= String.length (Json.iterencode level y)) xs ->
  fold_right (fun x n => S (size x + n)) 0 xs
  <= String.length (Json.more_items (Json.iterencode inner) sep xs).
Proof.
  induction 1 as [|y ys Hy _ IH]; [apply Nat.le_refl |].
  cbn [fold_right Json.more_items]. rewrite !str_length_app.
  specialize (Hy inner). cbn [String.length]. lia.
Qed.

Lemma more_pairs_length (inner : nat) (sep : string) (kvs : list (string * pyval)) :
  Forall (fun kv => forall level,
              size (snd kv) <= String.length (Json.iterencode level (snd kv))) kvs ->
  fold_right (fun kv n => S (size (snd kv) + n)) 0 kvs
  <= String.length (Json.more_pairs (Json.iterencode inner) sep kvs).
Proof.
  induction 1 as [|[k y] kvs Hy _ IH]; [apply Nat.le_refl |].
  cbn [fold_right Json.more_pairs snd] in *. rewrite !str_length_app.
  specialize (Hy inner). cbn [String.length]. lia.
Qed.

Lemma size_le_length (v : pyval) :
  forall level, size v <= String.length (Json.iterencode level v).
Proof.
  induction v as [| s | l IHl | d IHd] using pyval_ind_all; intros level.
  - cbn. lia.
  - cbn [size Json.iterencode]. unfold Json.encode_basestring.
    rewrite !str_length_app. cbn. lia.
  - destruct l as [|x xs]; [cbn; lia |].
    inversion IHl as [|? ? Hx Hxs]; subst.
    pose proof (more_items_length (S level) (Json.newline_indent (S level)) xs Hxs).
    specialize (Hx (S level)).
    cbn [size fold_right Json.iterencode]. rewrite !str_length_app.
    cbn [String.length]. lia.
  - destruct d as [|[k x] kvs]; [cbn; lia |].
    inversion IHd as [|? ? Hx Hxs]; subst. cbn [snd] in Hx.
    pose proof (more_pairs_length (S level) (Json.newline_indent (S level)) kvs Hxs).
    specialize (Hx (S level)).
    cbn [size fold_right Json.iterencode snd]. rewrite !str_length_app.
    cbn [String.length]. lia.
Qed.

(** [json.loads(json.dumps(v, ensure_ascii=False, indent=4))] is [v]. *)
Lemma loads_dumps (v : pyval) : wf_val v -> Json.loads (Json.dumps v) = Some v.
Proof.
  intros Hwf. unfold Json.loads, Json.dumps.
  rewrite <- (str_app_empty_r (Json.iterencode 0 v)) at 2.
  rewrite skip_ws_iterencode.
  rewrite (parse_value_iterencode v Hwf); [reflexivity |].
  apply size_le_length.
Qed.

Lemma wf_results_value (results : PyDict.dict (list Event)) :
  PyDict.wf results -> wf_val (results_value results).
Proof.
  unfold PyDict.wf, PyDict.keys, results_value. intros Hwf. cbn [wf_val]. split.
  - rewrite map_map. exact Hwf.
  - clear Hwf. induction results as [|[source events] results IH]; [exact I |].
    cbn [map fold_right fst snd]. split; [| exact IH].
    cbn [wf_val]. clear IH. induction events as [|e events IH]; [exact I |].
    cbn [map fold_right]. split; [| exact IH].
    unfold event_dict. cbn [wf_val map fst snd fold_right].
    split; [repeat constructor; cbn; intuition discriminate |].
    repeat split. clear IH.
    induction (channels e) as [|c cs IHc]; [exact I |].
    cbn [map fold_right]. split; [| exact IHc].
    unfold channel_dict. cbn [wf_val map fst snd fold_right].
    repeat split; try (destruct (url c); exact I).
    repeat constructor; cbn; intuition discriminate.
Qed.

(** Two results maps with the same Python value are the same. *)
Lemma results_value_inj (r r' : PyDict.dict (list Event)) :
  results_value r = results_value r' -> r = r'.
Proof.
  unfold results_value. intros [= H]. revert r' H.
  induction r as [|[source events] r IH]; intros [|[source' events'] r'] H;
    try discriminate; [reflexivity |].
  cbn [map fst snd] in H. injection H as -> Hev Hr.
  f_equal; [| now apply IH]. f_equal. clear IH Hr. revert events' Hev.
  induction events as [|e events IH]; intros [|e' events'] H;
    try discriminate; [reflexivity |].
  cbn [map] in H. injection H as Hl Ht Htm Hch Hrest.
  f_equal; [| now apply IH].
  destruct e as [l t tm ch], e' as [l' t' tm' ch']. cbn in *. subst.
  f_equal. clear IH Hrest. revert ch' Hch.
  induction ch as [|c ch IH]; intros [|c' ch'] H; try discriminate;
    [reflexivity |].
  cbn [map] in H. injection H as Hn Hu Hrest.
  f_equal; [| now apply IH].
  destruct c as [n u], c' as [n' u']. cbn in *. subst. f_equal.
  destruct u, u'; congruence.
Qed.

End JsonFacts.

(** C9. The text [export_to_json] writes, parsed again, is the results map
    it was written from: the same sources in the same order, each with the
    same events in the same order, every field with the same characters,
    be it an empty league, the sentinel or text outside ASCII. (The
    hypothesis is what holds of every Python dictionary: a key stands
    once.) *)
Theorem json_round_trip (self : ScraperManager.t) :
  PyDict.wf (ScraperManager.results self) ->
  Json.loads (export_to_json self)
  = Some (results_value (ScraperManager.results self))
  /\ (forall results',
        results_value results' = results_value (ScraperManager.results self) ->
        results' = ScraperManager.results self).
Proof.
  intros Hwf. split.
  - apply loads_dumps, wf_results_value, Hwf.
  - intros results'. apply results_value_inj.
Qed.

(** C9, at [manager_with_results]: its keys differ, and its text is read
    back. *)
Lemma json_round_trip_example :
  PyDict.wf (ScraperManager.results Examples.manager_with_results)
  /\ Json.loads (export_to_json Examples.manager_with_results)
     = Some (results_value (ScraperManager.results Examples.manager_with_results)).
Proof.
  assert (H : PyDict.wf (ScraperManager.results Examples.manager_with_results)).
  { repeat constructor; cbn; intuition discriminate. }
  split; [exact H | exact (proj1 (json_round_trip _ H))].
Defined.

(** ** The examples of the specification *)

Example menu_of_the_spec_events :
  RojadirectaScraper.scrape (Some Examples.menu_of_the_spec)
  = Ok [ {| country_league := "es";
            title := "Real Madrid vs Barcelona";
            time := "20:00";
            channels := [ {| name := "Canal 1"; url := Some "http://c1" |};
                          {| name := "Canal 2"; url := Some EmptyString |} ] |};
         {| country_league := EmptyString;
            title := "Amistoso";
            time := "No especificado";
            channels := [] |} ].
Proof. vm_compute. reflexivity. Qed.

Example blocks_of_the_spec_events :
  DaddyLiveScraper.scrape (Some Examples.blocks_of_the_spec)
  = Ok [ {| country_league := EmptyString;
            title := "Clásico";
            time := "20:00";
            channels := [ {| name := "Canal1"; url := Some "u1" |};
                          {| name := "Canal2"; url := Some "u2" |} ] |};
         {| country_league := EmptyString;
            title := "Copa";
            time := "22:15";
            channels := [ {| name := "Canal4"; url := Some "u4" |} ] |} ].
Proof. vm_compute. reflexivity. Qed.

(** Characters outside ASCII: a character counts once, whatever the number
    of its bytes; the no-break space is whitespace; the digits of any
    script are digits. *)
Example characters_examples :
  PyStr.len "Clásico" = 7
  /\ PyStr.index "Canal1" "20:00 CaféCanal1" = Ok 10
  /\ PyStr.strip (Examples.nbsp ++ " Final" ++ Examples.nbsp) = "Final"
  /\ Bs4.split_ws ("es" ++ Examples.nbsp ++ "liga") = ["es"; "liga"]
  /\ Re.time_pattern_search ("a las ١٢:٣٠ h") = Some "١٢:٣٠"
  /\ Re.time_pattern_search "12h30" = None.
Proof. repeat split; vm_compute; reflexivity. Qed.

(** The title ends one character before the text of the first link, also
    after a letter of two bytes; a time in Arabic-Indic digits is a time,
    and no-break spaces are trimmed. *)
Example blocks_outside_ascii :
  DaddyLiveScraper.scrape (Some Examples.block_accent)
  = Ok [ {| country_league := EmptyString; title := "Caf"; time := "20:00";
            channels := [ {| name := "Canal1"; url := Some "u1" |} ] |} ]
  /\ DaddyLiveScraper.scrape (Some Examples.block_arabic_digits)
     = Ok [ {| country_league := EmptyString; title := "Final";
               time := "١٢:٣٠"; channels := [] |} ].
Proof. split; vm_compute; reflexivity. Qed.

(** The league is the first token of the class, cut at any whitespace; a
    comment in the anchor is no part of its text, but it is written in the
    markup, where the pattern finds it. *)
Example menu_comment_event :
  Bs4.str (Examples.anchor_plain "x")
  = "<a href=" ++ PyStr.dquote ++ "#" ++ PyStr.dquote ++ ">x</a>"
  /\ RojadirectaScraper.scrape (Some Examples.menu_comment)
     = Ok [ {| country_league := "es";
               title := "Final<!--";
               time := "20:00";
               channels := [] |} ].
Proof. split; vm_compute; reflexivity. Qed.

Section UrlExamples.
Variable bracketed_host_ok nfkc_ok : string -> bool.
Local Abbreviation netloc := (Urllib.netloc bracketed_host_ok nfkc_ok).

Example netloc_examples :
  netloc "http://www.rojadirecta.me:80/a/b?x#y" = Ok "www.rojadirecta.me:80"
  /\ netloc "https://daddylive.sx" = Ok "daddylive.sx"
  /\ netloc "partidos.html" = Ok EmptyString
  /\ netloc " http://Example.org/a" = Ok "Example.org"
  /\ netloc "http://[up.example/partidos" = Raise ValueError
  /\ netloc "//[x/partidos.html" = Raise ValueError
  /\ netloc "http://a]b/" = Raise ValueError
  /\ Urllib.hostname "www.rojadirecta.me:80" = Some "www.rojadirecta.me"
  /\ Urllib.hostname "user@Example.org:8080" = Some "example.org".
Proof. repeat split. Qed.

(** Two patterns match the host: the one registered first wins, also after
    it has been registered again with another factory; a host that holds no
    pattern gets none. *)
Example registry_examples :
  let calls := [ ("roja", Rojadirecta); ("directa", DaddyLive) ] in
  let again := (calls ++ [ ("roja", DaddyLive) ])%list in
  ScraperManager.get_scraper_for_url netloc (Registry.register_all calls)
    "http://www.rojadirecta.me/hoy"
  = Ok (Some Rojadirecta)
  /\ ScraperManager.scraper_map (Registry.register_all again)
     = [ ("roja", DaddyLive); ("directa", DaddyLive) ]
  /\ ScraperManager.get_scraper_for_url netloc (Registry.register_all calls)
       "http://example.org/roja"
     = Ok None.
Proof. repeat split. Qed.

(** [scrape_url] in the world of the examples: the page that does not
    answer leaves the manager as it was, the other is stored. *)
Example scrape_url_examples :
  ScraperManager.scrape_url netloc Examples.requests_get
    Examples.BeautifulSoup Examples.manager Examples.url_down
  = Ok (Examples.manager, [])
  /\ ScraperManager.scrape_url netloc Examples.requests_get
       Examples.BeautifulSoup Examples.manager Examples.url_up
     = Ok (Examples.manager_after_scrape,
           [ {| country_league := EmptyString; title := "Final";
                time := "20:00"; channels := [] |} ]).
Proof. split; vm_compute; reflexivity. Qed.

End UrlExamples.

(** The last block of [blocks_of_the_spec] meets the conditions under
    which its title holds neither its time nor the text of its first
    link. *)
Example last_block_of_the_spec :
  let text := "22:15 Copa Canal4" in
  PyStr.index "22:15" text = Ok 0
  /\ PyStr.contains "22:15" (PyStr.slice text 5 17) = false
  /\ PyStr.index "Canal4" text = Ok 11
  /\ PyStr.contains "22:15" "Copa" = false
  /\ PyStr.contains "Canal4" "Copa" = false.
Proof. repeat split. Qed.

(** * Further properties *)

(** ** The league of an event of RojadirectaScraper *)

Section FieldShapes.
Import PyStr Bs4.

Lemma no_space_join (l : list string) :
  chunked l -> forallb (fun t => negb (isspace t)) l = true ->
  no_space (join l) = true.
Proof. intros Hc Hl. unfold no_space. now rewrite chars_join. Qed.

(** A class token holds no whitespace. *)
Lemma tokens_from_no_space (l cur : list string) :
  chunked (cur ++ l) ->
  forallb (fun t => negb (isspace t)) cur = true ->
  Forall (fun t => no_space t = true) (tokens_from cur l).
Proof.
  revert cur. induction l as [|t l IH]; intros cur Hc Hcur; cbn [tokens_from].
  - rewrite app_nil_r in Hc. destruct cur; repeat constructor.
    now apply no_space_join.
  - destruct (isspace t) eqn:Et.
    + assert (Hl : chunked ([] ++ l)).
      { apply (chunked_app_r (cur ++ [t])). now rewrite <- app_assoc. }
      destruct cur as [|c cur]; [now apply IH |].
      constructor; [| now apply IH].
      apply no_space_join; [now apply chunked_app_l in Hc | exact Hcur].
    + apply IH; [now rewrite <- app_assoc |].
      rewrite forallb_app, Hcur. cbn [forallb]. now rewrite Et.
Qed.

(** The league of every event of RojadirectaScraper is the first token of
    the class of its item, which holds no whitespace, and the empty string
    for an item without class tokens. *)
Theorem rojadirecta_league_is_class_token (doc : node) :
  exists events,
    RojadirectaScraper.scrape (Some doc) = Ok events
    /\ Forall2 (fun item e =>
                  no_space (country_league e) = true
                  /\ match get "class" item with
                     | Some cls => country_league e = hd EmptyString (split_ws cls)
                     | None => country_league e = EmptyString
                     end)
               (filter RojadirectaScraper.has_anchor (select_ul_menu_li doc))
               events.
Proof.
  apply rojadirecta_events. intros item e He.
  apply item_event_inv in He as (event_link & _ & ->). cbn [country_league].
  unfold RojadirectaScraper.country_class, get_class.
  destruct (get "class" item) as [cls|]; cbn [option_map]; [| now split].
  pose proof (tokens_from_no_space (chars cls) [] (chunked_chars cls) eq_refl)
    as Htok.
  fold (split_ws cls) in Htok.
  destruct (split_ws cls) as [|tok toks]; [now split |].
  inversion Htok; subst. now split.
Qed.

End FieldShapes.

(** ** The anchor of an event of RojadirectaScraper *)

Section AnchorFacts.
Import PyStr Bs4.

Lemma lacks_app (c : ascii) (a b : string) :
  lacks c (a ++ b) = lacks c a && lacks c b.
Proof.
  induction a as [|d a IH]; [reflexivity |]. cbn [append lacks].
  now rewrite IH, andb_assoc.
Qed.

(** [escape_xml] writes no [<], and no character that was not there but
    those of the entities. *)
Lemma escape_xml_lacks_lt (s : string) : lacks "<" (escape_xml s) = true.
Proof.
  induction s as [|c s IH]; [reflexivity |]. cbn [escape_xml].
  rewrite lacks_app, IH, andb_true_r.
  destruct (Ascii.eqb c "&"); [reflexivity |].
  destruct (Ascii.eqb c "<") eqn:E; [reflexivity |].
  destruct (Ascii.eqb c ">"); [reflexivity |].
  cbn [lacks]. now rewrite E.
Qed.

Lemma escape_xml_lacks_newline (s : string) :
  lacks newline s = true -> lacks newline (escape_xml s) = true.
Proof.
  induction s as [|c s IH]; [reflexivity |]. cbn [lacks escape_xml].
  rewrite andb_true_iff, negb_true_iff. intros [Hc Hs].
  rewrite lacks_app, (IH Hs), andb_true_r.
  destruct (Ascii.eqb c "&"); [reflexivity |].
  destruct (Ascii.eqb c "<"); [reflexivity |].
  destruct (Ascii.eqb c ">"); [reflexivity |].
  cbn [lacks]. now rewrite Hc.
Qed.


(** *** The bytes of digits and of whitespace *)

Lemma lacks_join (c : ascii) (l : list string) :
  lacks c (join l) = forallb (lacks c) l.
Proof.
  induction l as [|t l IH]; [reflexivity |].
  cbn [join forallb]. now rewrite lacks_app, IH.
Qed.

Lemma cont_high (d : ascii) : is_cont d = true -> (128 <=? N_of_ascii d)%N = true.
Proof. destruct d as [[] [] [] [] [] [] [] []]; intros H; try discriminate H; reflexivity. Qed.

Lemma all_cont_lacks (c : ascii) (r : string) :
  (N_of_ascii c <? 128)%N = true -> all_cont r = true -> lacks c r = true.
Proof.
  intros Hc. induction r as [|d r IH]; [reflexivity |]. cbn [all_cont lacks].
  rewrite andb_true_iff. intros [Hd Hr]. rewrite (IH Hr), andb_true_r.
  apply negb_true_iff, Ascii.eqb_neq. intros ->. apply cont_high in Hd.
  apply N.ltb_lt in Hc. apply N.leb_le in Hd. lia.
Qed.

(** A digit of one byte is one of [0] to [9]. *)
Lemma decimal_byte (a : ascii) :
  isdecimal (String a EmptyString) = true -> Urllib.is_digit a = true.
Proof.
  destruct a as [[] [] [] [] [] [] [] []]; intros H;
    first [reflexivity | vm_compute in H; discriminate H].
Qed.

(** A digit holds no byte of ASCII but a digit. *)
Lemma decimal_lacks (c : ascii) (t : string) :
  (N_of_ascii c <? 128)%N = true -> Urllib.is_digit c = false ->
  is_chunk t = true -> isdecimal t = true -> lacks c t = true.
Proof.
  intros Hc Hd Ht Hdec. destruct t as [|a r]; [reflexivity |].
  cbn [is_chunk] in Ht. cbn [lacks]. rewrite (all_cont_lacks c r Hc Ht), andb_true_r.
  apply negb_true_iff, Ascii.eqb_neq. intros ->.
  destruct r as [|a1 r].
  - apply decimal_byte in Hdec. congruence.
  - unfold isdecimal, ord in Hdec. apply N.ltb_lt in Hc.
    destruct r as [|a2 [|a3 [|a4 r]]];
      try discriminate Hdec;
      match type of Hdec with
      | context [(?lo <=? N_of_ascii c)%N] =>
          destruct (N.leb_spec lo (N_of_ascii c)); [lia | discriminate Hdec]
      end.
Qed.

Lemma chunked_Forall (l : list string) :
  chunked l -> Forall (fun t => is_chunk t = true) l.
Proof.
  destruct l as [|t l]; [constructor |]. intros [Ht Hl]. constructor; [exact Ht |].
  eapply Forall_impl; [| exact Hl]. apply is_char_chunk.
Qed.

Lemma digits_lack (c : ascii) (s : string) :
  (N_of_ascii c <? 128)%N = true -> Urllib.is_digit c = false ->
  Re.all_digits s = true -> lacks c s = true.
Proof.
  intros Hc Hd Hs. rewrite <- (join_chars s), lacks_join.
  unfold Re.all_digits in Hs. rewrite forallb_forall in *.
  pose proof (chunked_Forall _ (chunked_chars s)) as Hch.
  rewrite Forall_forall in Hch. intros t Ht.
  apply decimal_lacks; auto.
Qed.

(** [escape_xml] leaves a text without [&], [<] and [>] as it is. *)
Lemma escape_xml_plain (s r : string) :
  lacks "&" s = true -> lacks "<" s = true -> lacks ">" s = true ->
  escape_xml (s ++ r) = s ++ escape_xml r.
Proof.
  induction s as [|c s IH]; [reflexivity |]. cbn [lacks].
  rewrite !andb_true_iff, !negb_true_iff. intros [H1 Ha] [H2 Hl] [H3 Hg].
  cbn [append escape_xml]. rewrite H1, H2, H3, (IH Ha Hl Hg). reflexivity.
Qed.

Lemma escape_xml_time (h m : string) :
  Re.all_digits h = true -> Re.all_digits m = true ->
  escape_xml (h ++ ":" ++ m) = h ++ ":" ++ m.
Proof.
  intros Hh Hm.
  rewrite (escape_xml_plain h) by (apply digits_lack; auto).
  change (escape_xml (":" ++ m)) with (":" ++ escape_xml m).
  rewrite <- (str_app_empty_r m) at 1.
  rewrite (escape_xml_plain m) by (apply digits_lack; auto).
  cbn [escape_xml]. now rewrite str_app_empty_r.
Qed.

Lemma cont_range (d : ascii) :
  is_cont d = true -> (128 <= N_of_ascii d < 192)%N.
Proof.
  destruct d as [[] [] [] [] [] [] [] []]; intros H; try discriminate H;
    (split; [apply N.leb_le | apply N.ltb_lt]; reflexivity).
Qed.

(** A character that starts with a continuation byte has no code. *)
Lemma ord_cont (d : ascii) (t : string) :
  is_cont d = true -> ord (String d t) = None.
Proof.
  intros Hd. apply cont_range in Hd. unfold ord. cbv zeta.
  assert (H1 : (N_of_ascii d <? 128)%N = false) by (apply N.ltb_ge; lia).
  assert (H2 : (192 <=? N_of_ascii d)%N = false) by (apply N.leb_gt; lia).
  assert (H3 : (224 <=? N_of_ascii d)%N = false) by (apply N.leb_gt; lia).
  assert (H4 : (240 <=? N_of_ascii d)%N = false) by (apply N.leb_gt; lia).
  destruct t as [|a1 [|a2 [|a3 [|a4 r]]]];
    rewrite ?H1, ?H2, ?H3, ?H4; reflexivity.
Qed.

(** A text of digits that is not empty starts a character. *)
Lemma digits_start (s : string) :
  Re.all_digits s = true ->
  match s with String e _ => is_cont e = false | EmptyString => True end.
Proof.
  destruct s as [|e s]; [easy |]. unfold Re.all_digits.
  destruct (hd_chars e s) as (t & ts & ->). cbn [forallb].
  rewrite andb_true_iff. intros [Ht _].
  destruct (is_cont e) eqn:Ee; [| reflexivity].
  unfold isdecimal in Ht. now rewrite (ord_cont e t Ee) in Ht.
Qed.

(** [\d+] takes a run of digits whole when what follows is no digit. *)
Lemma digits_app (d r : list string) :
  forallb isdecimal d = true ->
  match r with t :: _ => isdecimal t = false | [] => True end ->
  Re.digits (d ++ r) = (d, r).
Proof.
  intros Hd Hr. induction d as [|c d IH].
  - destruct r as [|t r]; [reflexivity |]. cbn [app Re.digits]. now rewrite Hr.
  - cbn [forallb] in Hd. apply andb_true_iff in Hd as [Hc Hd].
    cbn [app Re.digits]. now rewrite Hc, (IH Hd).
Qed.

Lemma chars_cons_plain (c d : ascii) (y : string) :
  is_cont d = false ->
  chars (String c (String d y)) = String c EmptyString :: chars (String d y).
Proof.
  intros Hd. change (chars (String c (String d y)))
    with (push c (chars (String d y))).
  destruct (hd_chars d y) as (t & ts & ->). cbn [push]. now rewrite Hd.
Qed.

Lemma digits_run (h : string) (c d : ascii) (y : string) :
  Re.all_digits h = true ->
  is_cont c = false -> is_cont d = false ->
  isdecimal (String c EmptyString) = false ->
  Re.digits (chars (h ++ String c (String d y)))
  = (chars h, String c EmptyString :: chars (String d y)).
Proof.
  intros Hh Hc Hd Hn. rewrite chars_app by exact Hc.
  rewrite (chars_cons_plain c d y Hd). now apply digits_app.
Qed.

Lemma match_time_span_found (h m post : string) :
  h <> EmptyString -> m <> EmptyString ->
  Re.all_digits h = true -> Re.all_digits m = true ->
  Re.match_time_span (Re.span_open ++ (h ++ ":" ++ m) ++ Re.span_close ++ post)
  = Some (h ++ ":" ++ m).
Proof.
  intros Hh Hm Dh Dm. unfold Re.match_time_span.
  rewrite prefix_app.
  replace (drop (String.length Re.span_open)
             (Re.span_open ++ (h ++ ":" ++ m) ++ Re.span_close ++ post))
    with (h ++ String ":" (m ++ String "<" (String "/" ("span>" ++ post))))
    by (cbn; now rewrite !str_app_assoc).
  pose proof (digits_start m Dm) as Sm.
  destruct m as [|e m]; [congruence |]. cbn [append].
  rewrite (digits_run h ":" e _ Dh eq_refl Sm eq_refl).
  destruct (hd_chars e (m ++ String "<" (String "/" ("span>" ++ post))))
    as (t & ts & Et).
  destruct h as [|c h]; [congruence |].
  destruct (hd_chars c h) as (t' & ts' & Eh). rewrite Eh. cbv beta iota.
  change (String.eqb ":" ":") with true. cbv iota.
  pose proof (digits_run (String e m) "<" "/" ("span>" ++ post) Dm
                eq_refl eq_refl eq_refl) as Rm.
  cbn [append] in Rm. rewrite Rm.
  destruct (hd_chars e m) as (t2 & ts2 & Em). rewrite Em. cbv beta iota.
  rewrite <- Eh, <- Em, !join_chars. cbn [join]. rewrite join_chars.
  change ("<" ++ String "/" (String "s" (String "p" (String "a"
            (String "n" (String ">" post))))))
    with (Re.span_close ++ post).
  now rewrite prefix_app.
Qed.

Lemma match_time_span_needs_lt (c : ascii) (s : string) :
  Ascii.eqb c "<" = false -> Re.match_time_span (String c s) = None.
Proof.
  intros Hc. unfold Re.match_time_span. cbn [Re.span_open append prefix].
  destruct (ascii_dec "<" c) as [<- | _]; [discriminate Hc | reflexivity].
Qed.

(** The lazy [.+?] stops at the first place where the rest of the pattern
    matches: after a lead without [<] and without newline, at the [span]. *)
Lemma match_lead_skip (pre rest t : string) :
  lacks "<" pre = true -> lacks newline pre = true ->
  Re.match_time_span rest = Some t ->
  forall c, Ascii.eqb c newline = false ->
            Re.match_lead (String c (pre ++ rest)) = Some (String c pre, t).
Proof.
  intros Hlt Hnl Hrest. induction pre as [|d pre IH]; intros c Hc.
  - cbn [append Re.match_lead]. now rewrite Hc, Hrest.
  - cbn [lacks] in Hlt, Hnl.
    apply andb_true_iff in Hlt as [Hd Hlt]. apply andb_true_iff in Hnl as [Hn Hnl].
    apply negb_true_iff in Hd, Hn.
    cbn [append]. change (Re.match_lead (String c (String d (pre ++ rest))))
      with (if Ascii.eqb c newline then None
            else match Re.match_time_span (String d (pre ++ rest)) with
                 | Some t0 => Some (String c EmptyString, t0)
                 | None =>
                     match Re.match_lead (String d (pre ++ rest)) with
                     | Some (g, t0) => Some (String c g, t0)
                     | None => None
                     end
                 end).
    rewrite Hc, (match_time_span_needs_lt d _ Hd), (IH Hlt Hnl d Hn).
    reflexivity.
Qed.

Lemma time_span_search_lead (s : string) (r : string * string) :
  Re.match_lead s = Some r -> Re.time_span_search s = Some r.
Proof. intros H. destruct s; cbn [Re.time_span_search]; now rewrite H. Qed.

(** Where no [<s] stands, the pattern matches nowhere. *)
Lemma span_open_not_free (s : string) :
  prefix Re.span_open s = true -> Re.lt_s_free s = false.
Proof.
  intros H. apply prefix_iff in H as [r ->]. reflexivity.
Qed.

Lemma lt_s_free_tail (c : ascii) (s : string) :
  Re.lt_s_free (String c s) = true -> Re.lt_s_free s = true.
Proof. cbn [Re.lt_s_free]. now intros [_ H]%andb_true_iff. Qed.

Lemma match_time_span_free (s : string) :
  Re.lt_s_free s = true -> Re.match_time_span s = None.
Proof.
  intros H. unfold Re.match_time_span.
  destruct (prefix Re.span_open s) eqn:E; [| reflexivity].
  apply span_open_not_free in E. congruence.
Qed.

Lemma match_lead_free (s : string) :
  Re.lt_s_free s = true -> Re.match_lead s = None.
Proof.
  induction s as [|c s IH]; [reflexivity |]. intros H.
  apply lt_s_free_tail in H. cbn [Re.match_lead].
  rewrite (match_time_span_free s H), (IH H).
  now destruct (Ascii.eqb c newline).
Qed.

Lemma time_span_search_free (s : string) :
  Re.lt_s_free s = true -> Re.time_span_search s = None.
Proof.
  induction s as [|c s IH]; intros H; cbn [Re.time_span_search];
    rewrite (match_lead_free _ H); [reflexivity |].
  apply IH. now apply lt_s_free_tail in H.
Qed.

Lemma lt_s_free_lacks (a b : string) :
  lacks "<" a = true -> Re.lt_s_free (a ++ b) = Re.lt_s_free b.
Proof.
  induction a as [|c a IH]; [reflexivity |]. cbn [lacks].
  rewrite andb_true_iff, negb_true_iff. intros [Hc Ha].
  cbn [append Re.lt_s_free]. now rewrite Hc, (IH Ha).
Qed.

(** *** Trimming after a lead *)

Lemma isspace_cont (d : ascii) (t : string) :
  is_cont d = true -> isspace (String d t) = false.
Proof. intros H. unfold isspace. now rewrite ord_cont. Qed.

(** A character that starts with a byte of ASCII that is no whitespace is
    no whitespace. *)
Lemma isspace_ascii (c : ascii) (t : string) :
  (N_of_ascii c <? 128)%N = true ->
  isspace (String c EmptyString) = false ->
  isspace (String c t) = false.
Proof.
  intros Hc Hs. destruct t as [|a1 t]; [exact Hs |].
  apply N.ltb_lt in Hc. unfold isspace, ord. cbv zeta.
  assert (H2 : (192 <=? N_of_ascii c)%N = false) by (apply N.leb_gt; lia).
  assert (H3 : (224 <=? N_of_ascii c)%N = false) by (apply N.leb_gt; lia).
  assert (H4 : (240 <=? N_of_ascii c)%N = false) by (apply N.leb_gt; lia).
  destruct t as [|a2 [|a3 [|a4 r]]]; rewrite ?H2, ?H3, ?H4; reflexivity.
Qed.

Lemma dropwhile_app_keep {A : Type} (p : A -> bool) (l r : list A) (g : A) :
  p g = false ->
  dropwhile p (l ++ g :: r) = (dropwhile p l ++ g :: r)%list.
Proof.
  intros Hg. induction l as [|x l IH]; cbn [app dropwhile].
  - now rewrite Hg.
  - destruct (p x); [exact IH | reflexivity].
Qed.

Lemma rdropwhile_app_keep {A : Type} (p : A -> bool) (a l : list A) (g : A) :
  p g = false ->
  rdropwhile p (a ++ g :: l) = (a ++ g :: rdropwhile p l)%list.
Proof.
  intros Hg. unfold rdropwhile. rewrite rev_app_distr. cbn [rev].
  rewrite <- app_assoc. cbn [app]. rewrite dropwhile_app_keep by exact Hg.
  rewrite rev_app_distr. cbn [rev]. rewrite rev_involutive, <- app_assoc.
  reflexivity.
Qed.

Lemma rdropwhile_cons_keep {A : Type} (p : A -> bool) (l : list A) (g : A) :
  p g = false -> rdropwhile p (g :: l) = g :: rdropwhile p l.
Proof. intros Hg. exact (rdropwhile_app_keep p [] l g Hg). Qed.

Lemma rstrip_cons_plain (c : ascii) (x : string) :
  (N_of_ascii c <? 128)%N = true ->
  isspace (String c EmptyString) = false ->
  rstrip (String c x) = String c (rstrip x).
Proof.
  intros Hc Hs. unfold rstrip. cbn [chars].
  destruct (chars x) as [|[|d t] ts] eqn:Ex; cbn [push].
  - rewrite (rdropwhile_cons_keep isspace [] _ Hs). reflexivity.
  - rewrite (rdropwhile_cons_keep isspace _ _ Hs). reflexivity.
  - destruct (is_cont d) eqn:Ed.
    + rewrite (rdropwhile_cons_keep isspace ts (String c (String d t))
                 (isspace_ascii c _ Hc Hs)).
      rewrite (rdropwhile_cons_keep isspace ts (String d t)
                 (isspace_cont d t Ed)).
      reflexivity.
    + rewrite (rdropwhile_cons_keep isspace _ _ Hs). reflexivity.
Qed.

(** [strip] after a lead that does not start with whitespace and ends with
    a byte of ASCII that is no whitespace: the lead stays, what follows is
    trimmed on the right. *)
Lemma strip_app_plain (a : string) (c : ascii) (x : string) :
  (N_of_ascii c <? 128)%N = true ->
  isspace (String c EmptyString) = false ->
  match chars a with t :: _ => isspace t = false | [] => True end ->
  strip (a ++ String c x) = a ++ String c (rstrip x).
Proof.
  intros Hc Hs Ha.
  assert (Hn : is_cont c = false).
  { destruct (is_cont c) eqn:E; [| reflexivity]. apply cont_range in E.
    apply N.ltb_lt in Hc. lia. }
  rewrite <- (rstrip_cons_plain c x Hc Hs).
  unfold strip, rstrip. rewrite (chars_app a (String c x) Hn).
  destruct (hd_chars c x) as (t & ts & Ex). rewrite Ex.
  assert (Hg : isspace (String c t) = false) by now apply isspace_ascii.
  assert (Hd : dropwhile isspace (chars a ++ String c t :: ts)
               = (chars a ++ String c t :: ts)%list).
  { destruct (chars a) as [|u l]; cbn [app dropwhile]; [now rewrite Hg |].
    now rewrite Ha. }
  rewrite Hd, (rdropwhile_app_keep isspace (chars a) ts _ Hg).
  rewrite (rdropwhile_cons_keep isspace ts _ Hg).
  rewrite join_app, join_chars. reflexivity.
Qed.

(** [replace] leaves a string that does not hold [old] as it is, and
    removes [old] at its start. *)
Lemma replace_from_absent (old new s : string) :
  contains old s = false -> replace_from old new 0 s = s.
Proof.
  induction s as [|c s IH]; [reflexivity |]. cbn [contains replace_from].
  rewrite orb_false_iff. intros [Hp Hs]. now rewrite Hp, (IH Hs).
Qed.

Lemma replace_absent (old new s : string) :
  contains old s = false -> replace old new s = s.
Proof.
  intros H. destruct old as [|c old].
  - destruct s; discriminate H.
  - now apply replace_from_absent.
Qed.

Lemma replace_from_skip (old new a s : string) :
  replace_from old new (String.length a) (a ++ s) = replace_from old new 0 s.
Proof.
  induction a as [|c a IH]; [reflexivity |].
  cbn [String.length append replace_from]. exact IH.
Qed.

Lemma replace_at_start (old s : string) :
  old <> EmptyString -> contains old s = false ->
  replace old EmptyString (old ++ s) = s.
Proof.
  intros Hold Hs. destruct old as [|c old]; [congruence |].
  pose proof (prefix_app (String c old) s) as Hp. cbn [append] in Hp.
  cbn [replace append replace_from]. rewrite Hp.
  cbn [String.length Nat.sub append]. rewrite Nat.sub_0_r, replace_from_skip.
  now apply replace_from_absent.
Qed.

Lemma lacks_contains (c : ascii) (p s : string) :
  lacks c s = true -> contains (String c p) s = false.
Proof.
  induction s as [|d s IH]; [reflexivity |]. cbn [lacks contains prefix].
  rewrite andb_true_iff, negb_true_iff. intros [Hd Hs]. rewrite (IH Hs), orb_false_r.
  destruct (ascii_dec c d) as [-> |]; [| reflexivity].
  now rewrite Ascii.eqb_refl in Hd.
Qed.

Lemma lacks_substr (c : ascii) (t s : string) :
  substr t s -> lacks c s = true -> lacks c t = true.
Proof.
  intros (a & b & ->). rewrite !lacks_app, !andb_true_iff. tauto.
Qed.

Lemma contains_substr_false (p t s : string) :
  substr t s -> contains p s = false -> contains p t = false.
Proof.
  rewrite !contains_false_iff. intros Hts Hs Hp. apply Hs.
  now apply (substr_trans _ _ _ Hp).
Qed.

(** The markup of the two anchors. *)
Lemma str_anchor_plain (text : string) :
  str (Examples.anchor_plain text)
  = RojadirectaScraper.placeholder ++ escape_xml text ++ "</a>".
Proof. reflexivity. Qed.

Lemma str_anchor_timed (text time : string) :
  str (Examples.anchor_timed text time)
  = String "<" ("a href=" ++ dquote ++ "#" ++ dquote ++ ">" ++ escape_xml text
                ++ Re.span_open ++ escape_xml time ++ Re.span_close ++ "</a>").
Proof.
  unfold str, Examples.anchor_timed. cbn [decode map].
  change (attribute_string [("class", "t")])
    with (" class=" ++ dquote ++ "t" ++ dquote).
  change (attribute_string [("href", "#")])
    with (" href=" ++ dquote ++ "#" ++ dquote).
  change (is_void "span") with false.
  unfold string_markup.
  change (cdata_containing "a") with false.
  change (cdata_containing "span") with false. cbv iota.
  unfold Re.span_open, Re.span_close, dquote.
  cbn [String.concat append]. rewrite !str_app_assoc. cbn [append].
  rewrite ?str_app_assoc. reflexivity.
Qed.

(** An anchor [<a href="#">text<span class="t">H:M</span></a>], the text
    without newline: the pattern matches, the time is that of the [span],
    and the title is the text as the markup writes it (with the entities
    for [&], [<] and [>]), trimmed on the right only. *)
Theorem rojadirecta_anchor_with_time (text h m : string) :
  lacks newline text = true ->
  h <> EmptyString -> m <> EmptyString ->
  Re.all_digits h = true -> Re.all_digits m = true ->
  RojadirectaScraper.title_and_time (Examples.anchor_timed text (h ++ ":" ++ m))
  = (rstrip (escape_xml text), h ++ ":" ++ m).
Proof.
  intros Hnl Hh Hm Dh Dm. unfold RojadirectaScraper.title_and_time.
  rewrite str_anchor_timed, (escape_xml_time h m Dh Dm).
  set (lead := "a href=" ++ dquote ++ "#" ++ dquote ++ ">").
  set (rest := Re.span_open ++ (h ++ ":" ++ m) ++ Re.span_close ++ "</a>").
  replace (String "<" ("a href=" ++ dquote ++ "#" ++ dquote ++ ">"
                       ++ escape_xml text ++ rest))
    with (String "<" ((lead ++ escape_xml text) ++ rest))
    by (unfold lead; now rewrite !str_app_assoc).
  rewrite (time_span_search_lead _ (String "<" (lead ++ escape_xml text), h ++ ":" ++ m)).
  - f_equal.
    change (String "<" (lead ++ escape_xml text))
      with (("<a href=" ++ dquote ++ "#" ++ dquote)
            ++ String ">" (escape_xml text)).
    rewrite strip_app_plain by reflexivity.
    change (("<a href=" ++ dquote ++ "#" ++ dquote)
            ++ String ">" (rstrip (escape_xml text)))
      with (RojadirectaScraper.placeholder ++ rstrip (escape_xml text)).
    apply replace_at_start; [discriminate |].
    apply lacks_contains, (lacks_substr _ _ _ (substr_rstrip _)),
      escape_xml_lacks_lt.
  - apply match_lead_skip; [| | | reflexivity].
    + rewrite lacks_app, escape_xml_lacks_lt. reflexivity.
    + rewrite lacks_app, (escape_xml_lacks_newline _ Hnl). reflexivity.
    + now apply match_time_span_found.
Qed.

(** An anchor [<a href="#">text</a>], the text holding neither the sentinel
    nor the placeholder: the time is the sentinel and the title the text,
    trimmed. *)
Theorem rojadirecta_anchor_without_time (text : string) :
  contains RojadirectaScraper.no_especificado text = false ->
  contains RojadirectaScraper.placeholder text = false ->
  RojadirectaScraper.title_and_time (Examples.anchor_plain text)
  = (strip text, RojadirectaScraper.no_especificado).
Proof.
  intros Hs Hp. unfold RojadirectaScraper.title_and_time.
  rewrite str_anchor_plain, time_span_search_free.
  - change (find_class "span" "t" (Examples.anchor_plain text)) with (@None node).
    change (get_text (Examples.anchor_plain text)) with text.
    rewrite (replace_absent _ _ (strip text))
      by (apply (contains_substr_false _ _ _ (substr_strip text)), Hs).
    rewrite strip_idem.
    rewrite (replace_absent _ _ (strip text))
      by (apply (contains_substr_false _ _ _ (substr_strip text)), Hp).
    reflexivity.
  - change (Re.lt_s_free (RojadirectaScraper.placeholder ++ escape_xml text ++ "</a>"))
      with (Re.lt_s_free (escape_xml text ++ "</a>")).
    rewrite lt_s_free_lacks by apply escape_xml_lacks_lt. reflexivity.
Qed.

Lemma rojadirecta_anchor_with_time_example :
  lacks newline (" Real & Madrid" ++ Examples.nbsp) = true
  /\ Re.all_digits "٢٠" = true
  /\ RojadirectaScraper.title_and_time
       (Examples.anchor_timed (" Real & Madrid" ++ Examples.nbsp)
          ("٢٠" ++ ":" ++ "00"))
     = (" Real &amp; Madrid", "٢٠:00").
Proof.
  split; [reflexivity |]. split; [reflexivity |].
  exact (rojadirecta_anchor_with_time (" Real & Madrid" ++ Examples.nbsp)
           "٢٠" "00" eq_refl
           ltac:(discriminate) ltac:(discriminate) eq_refl eq_refl).
Defined.

Lemma rojadirecta_anchor_without_time_example :
  contains RojadirectaScraper.no_especificado
    (Examples.nbsp ++ "Amistoso ") = false
  /\ contains RojadirectaScraper.placeholder (Examples.nbsp ++ "Amistoso ")
     = false
  /\ RojadirectaScraper.title_and_time
       (Examples.anchor_plain (Examples.nbsp ++ "Amistoso "))
     = ("Amistoso", RojadirectaScraper.no_especificado).
Proof.
  split; [reflexivity |]. split; [reflexivity |].
  exact (rojadirecta_anchor_without_time (Examples.nbsp ++ "Amistoso ")
           eq_refl eq_refl).
Defined.


End AnchorFacts.

(** ** The three ways into a scraper *)

Section EntryPoints.
Import PyStr.
Variable netloc : string -> result string.
Variable requests_get : string -> option (Z * string).
Variable BeautifulSoup : string -> option Bs4.node.
Variable read_file : string -> option string.

Local Abbreviation scrape_url :=
  (ScraperManager.scrape_url netloc requests_get BeautifulSoup).
Local Abbreviation scrape_from_html := (ScraperManager.scrape_from_html BeautifulSoup).
Local Abbreviation scrape_file := (ScraperManager.scrape_file BeautifulSoup read_file).

(** What [scrape_from_html] returns: the events of the parsed text, or the
    empty list when the parser raises. *)
Lemma scrape_from_html_spec (self : ScraperManager.t) (html : string)
  (cls : scraper_class) :
  scrape_from_html self html cls
  = match BeautifulSoup html with
    | Some doc => scrape_of cls (Some doc)
    | None => Ok []
    end.
Proof.
  unfold ScraperManager.scrape_from_html, BaseScraper.load_from_html.
  now destruct (BeautifulSoup html).
Qed.

(** When the registry gives a class for a URL and the request answers 200,
    [scrape_url] returns the events [scrape_from_html] returns for the text
    of the answer and that class, and stores them under the URL exactly when
    the text parses. *)
Theorem scrape_url_as_scrape_from_html (self : ScraperManager.t) (u text : string)
  (cls : scraper_class) :
  ScraperManager.get_scraper_for_url netloc self u = Ok (Some cls) ->
  requests_get u = Some (200%Z, text) ->
  exists self' events,
    scrape_url self u = Ok (self', events)
    /\ scrape_from_html self text cls = Ok events
    /\ ScraperManager.results self'
       = match BeautifulSoup text with
         | Some _ => PyDict.set u events (ScraperManager.results self)
         | None => ScraperManager.results self
         end.
Proof.
  intros Hcls Hget. rewrite scrape_from_html_spec.
  unfold ScraperManager.scrape_url, BaseScraper.load_from_url. rewrite Hcls.
  cbn [bind BaseScraper.url BaseScraper.init]. rewrite Hget. cbn [Z.eqb Pos.eqb].
  destruct (BeautifulSoup text) as [doc|]; cbn [BaseScraper.soup].
  - destruct (scrape_of_total cls (Some doc)) as [events He]. rewrite He.
    cbn [bind]. eexists. exists events. repeat split.
  - exists self, []. repeat split.
Qed.

(** [scrape_file] returns the events [scrape_from_html] returns for the text
    of the file, whatever the registry holds, and stores them under the
    path exactly when the text parses; a file that cannot be read gives the
    empty list and leaves the manager as it was. *)
Theorem scrape_file_as_scrape_from_html (self : ScraperManager.t)
  (filepath : string) (cls : scraper_class) :
  match read_file filepath with
  | None => scrape_file self filepath cls = Ok (self, [])
  | Some text =>
      exists self' events,
        scrape_file self filepath cls = Ok (self', events)
        /\ scrape_from_html self text cls = Ok events
        /\ ScraperManager.scraper_map self' = ScraperManager.scraper_map self
        /\ ScraperManager.results self'
           = match BeautifulSoup text with
             | Some _ => PyDict.set filepath events (ScraperManager.results self)
             | None => ScraperManager.results self
             end
  end.
Proof.
  unfold ScraperManager.scrape_file, BaseScraper.load_from_file.
  destruct (read_file filepath) as [text|]; [| reflexivity].
  rewrite scrape_from_html_spec.
  destruct (BeautifulSoup text) as [doc|]; cbn [BaseScraper.soup].
  - destruct (scrape_of_total cls (Some doc)) as [events He]. rewrite He.
    cbn [bind]. eexists. exists events. repeat split.
  - exists self, []. repeat split.
Qed.

End EntryPoints.

Lemma scrape_url_as_scrape_from_html_example :
  (forall bracketed_host_ok nfkc_ok,
      ScraperManager.get_scraper_for_url
        (Urllib.netloc bracketed_host_ok nfkc_ok) Examples.manager
        Examples.url_up
      = Ok (Some DaddyLive))
  /\ Examples.requests_get Examples.url_up = Some (200%Z, Examples.page_up)
  /\ forall bracketed_host_ok nfkc_ok,
     exists self' events,
       ScraperManager.scrape_url (Urllib.netloc bracketed_host_ok nfkc_ok)
         Examples.requests_get Examples.BeautifulSoup Examples.manager
         Examples.url_up
       = Ok (self', events)
       /\ ScraperManager.scrape_from_html Examples.BeautifulSoup Examples.manager
            Examples.page_up DaddyLive
          = Ok events
       /\ ScraperManager.results self'
          = match Examples.BeautifulSoup Examples.page_up with
            | Some _ =>
                PyDict.set Examples.url_up events
                  (ScraperManager.results Examples.manager)
            | None => ScraperManager.results Examples.manager
            end.
Proof.
  split; [reflexivity |]. split; [reflexivity |].
  intros bracketed_host_ok nfkc_ok.
  exact (scrape_url_as_scrape_from_html
           (Urllib.netloc bracketed_host_ok nfkc_ok) Examples.requests_get
           Examples.BeautifulSoup Examples.manager Examples.url_up
           Examples.page_up DaddyLive eq_refl eq_refl).
Defined.

(** ** Registering and resolving *)

Section RegisterFacts.
Import PyStr.
Variable netloc : string -> result string.

(** [get_scraper_for_url] after [register_scraper(pattern, cls)]. When
    [urlparse] rejects the URL the call raises, as before the
    registration. Else the URL resolves by the first key, in the order of
    first registration, that its network location holds: to [cls] when
    that key is the pattern, else to what it resolved to before; when no
    earlier key matches, it resolves to [cls] exactly when the pattern
    matches. *)
Theorem get_scraper_after_register (self : ScraperManager.t)
  (url_pattern : string) (cls : scraper_class) (u : string) :
  ScraperManager.get_scraper_for_url netloc
    (ScraperManager.register_scraper self url_pattern cls) u
  = (domain <- netloc u ;;
     Ok match List.find (fun k => contains k domain)
                        (PyDict.keys (ScraperManager.scraper_map self)) with
        | Some k =>
            if String.eqb k url_pattern then Some cls
            else ScraperManager.first_match domain
                   (ScraperManager.scraper_map self)
        | None => if contains url_pattern domain then Some cls else None
        end)
  /\ (forall domain,
         netloc u = Ok domain ->
         ScraperManager.get_scraper_for_url netloc self u
         = Ok (ScraperManager.first_match domain
                 (ScraperManager.scraper_map self)))
  /\ (forall e,
         netloc u = Raise e ->
         ScraperManager.get_scraper_for_url netloc self u = Raise e
         /\ ScraperManager.get_scraper_for_url netloc
              (ScraperManager.register_scraper self url_pattern cls) u
            = Raise e).
Proof.
  unfold ScraperManager.get_scraper_for_url, ScraperManager.register_scraper.
  cbn [ScraperManager.scraper_map].
  split; [| split; [intros domain -> | intros e ->]; [reflexivity | now split]].
  destruct (netloc u) as [domain|e]; cbn [bind]; [| reflexivity]. f_equal.
  rewrite !first_match_find, keys_set.
  set (d := ScraperManager.scraper_map self).
  set (M := fun k => contains k domain).
  destruct (existsb (String.eqb url_pattern) (PyDict.keys d)) eqn:Ein.
  - apply existsb_eqb_In in Ein.
    destruct (List.find M (PyDict.keys d)) as [k|] eqn:Ef.
    + destruct (String.eqb_spec k url_pattern) as [-> | Hne];
        [apply get_set_eq | now apply get_set_neq].
    + pose proof (find_none _ _ Ef _ Ein) as Hp. unfold M in Hp. now rewrite Hp.
  - rewrite find_app_last.
    destruct (List.find M (PyDict.keys d)) as [k|] eqn:Ef.
    + apply find_some in Ef as [Hk _].
      destruct (String.eqb_spec k url_pattern) as [-> | Hne].
      * apply existsb_eqb_In in Hk. congruence.
      * now apply get_set_neq.
    + fold (M url_pattern). destruct (M url_pattern); [apply get_set_eq | reflexivity].
Qed.

End RegisterFacts.

(** ** Batches *)

Section BatchFacts.
Import PyStr.
Variable netloc : string -> result string.
Variable requests_get : string -> option (Z * string).
Variable BeautifulSoup : string -> option Bs4.node.

Local Abbreviation url_outcome :=
  (ScraperManager.url_outcome netloc requests_get BeautifulSoup).
Local Abbreviation scrape_multiple_urls :=
  (ScraperManager.scrape_multiple_urls netloc requests_get BeautifulSoup).
Local Abbreviation accepted := (ScraperManager.accepted netloc).
Local Abbreviation succeeds :=
  (ScraperManager.succeeds netloc requests_get BeautifulSoup).

Lemma set_same {V : Type} (k : string) (v : V) (d : PyDict.dict V) :
  PyDict.get k d = Some v -> PyDict.set k v d = d.
Proof.
  induction d as [|[k' v'] d IH]; [discriminate |]. cbn [PyDict.get PyDict.set].
  destruct (String.eqb_spec k k') as [-> | Hne].
  - now intros [= ->].
  - intros H. now rewrite IH.
Qed.

Lemma update_same {V : Type} (d other : PyDict.dict V) :
  (forall k v, In (k, v) other -> PyDict.get k d = Some v) ->
  PyDict.update d other = d.
Proof.
  unfold PyDict.update. induction other as [|[k v] other IH]; intros H;
    [reflexivity |].
  cbn [fold_left fst snd]. rewrite set_same by (apply H; now left).
  apply IH. intros k' v' Hin. apply H. now right.
Qed.

Lemma in_set {V : Type} (k u : string) (v w : V) (d : PyDict.dict V) :
  In (k, v) (PyDict.set u w d) -> (k = u /\ v = w) \/ In (k, v) d.
Proof.
  induction d as [|[k' v'] d IH]; cbn [PyDict.set].
  - intros [[= <- <-] | []]. now left.
  - destruct (String.eqb u k').
    + intros [[= <- <-] | H]; [now left | right; now right].
    + intros [H | H]; [right; now left |].
      destruct (IH H) as [? | ?]; [now left | right; now right].
Qed.

Lemma in_fold_set {V : Type} (f : string -> V) (urls : list string)
  (acc : PyDict.dict V) (k : string) (v : V) :
  In (k, v) (fold_left (fun a u => PyDict.set u (f u) a) urls acc) ->
  (In k urls /\ v = f k) \/ In (k, v) acc.
Proof.
  revert acc. induction urls as [|u urls IH]; intros acc H; [now right |].
  cbn [fold_left] in H. destruct (IH _ H) as [[Hk Hv] | Hin].
  - left. split; [now right | exact Hv].
  - apply in_set in Hin as [[-> ->] | Hin]; [left; split; [now left | reflexivity] |].
    now right.
Qed.

Lemma fold_store_same {V : Type} (o : string -> option V) (urls : list string)
  (r : PyDict.dict V) :
  (forall u v, In u urls -> o u = Some v -> PyDict.get u r = Some v) ->
  fold_left (fun r u => match o u with
                        | Some v => PyDict.set u v r
                        | None => r
                        end) urls r
  = r.
Proof.
  induction urls as [|u urls IH]; intros H; [reflexivity |].
  cbn [fold_left]. destruct (o u) as [v|] eqn:Eu.
  - rewrite set_same by (apply H; [now left | exact Eu]).
    apply IH. intros u' v' Hin. apply H. now right.
  - apply IH. intros u' v' Hin. apply H. now right.
Qed.

(** Either [urlparse] accepts every URL of a list, or there is a first
    one that it rejects. *)
Lemma accepted_split (urls : list string) :
  forallb accepted urls = true
  \/ exists pre url post e,
       urls = (pre ++ url :: post)%list
       /\ forallb accepted pre = true
       /\ netloc url = Raise e.
Proof.
  induction urls as [|u urls IH]; [now left |].
  destruct (netloc u) as [d|e] eqn:Eu.
  - assert (Ha : accepted u = true)
      by (unfold ScraperManager.accepted; now rewrite Eu).
    destruct IH as [H | (pre & url & post & e & -> & Hp & He)].
    + left. cbn [forallb]. now rewrite Ha.
    + right. exists (u :: pre), url, post, e.
      split; [reflexivity |]. split; [| exact He].
      cbn [forallb]. now rewrite Ha.
  - right. exists [], u, urls, e. repeat split. exact Eu.
Qed.

(** [scrape_multiple_urls], written out: when every URL is accepted, and
    when the loop is left at a URL that is rejected. *)
Lemma scrape_multiple_urls_with (o : string -> option (list Event))
  (self : ScraperManager.t) (urls : list string) :
  (forall u, In u urls -> url_outcome self u = Ok (o u)) ->
  scrape_multiple_urls self urls
  = ({| ScraperManager.scraper_map := ScraperManager.scraper_map self;
        ScraperManager.results :=
          PyDict.update
            (fold_left (fun r u => match o u with
                                   | Some events => PyDict.set u events r
                                   | None => r
                                   end) urls (ScraperManager.results self))
            (fold_left (fun a u => PyDict.set u (match o u with
                                                 | Some events => events
                                                 | None => []
                                                 end) a) urls []) |},
     Ok (fold_left (fun a u => PyDict.set u (match o u with
                                             | Some events => events
                                             | None => []
                                             end) a) urls [])).
Proof.
  intros Ho.
  destruct (scrape_loop_spec netloc requests_get BeautifulSoup o urls self [] Ho)
    as (self1 & Hloop & Hmap & Hres).
  unfold ScraperManager.scrape_multiple_urls. rewrite Hloop.
  now rewrite Hmap, Hres.
Qed.

Lemma scrape_multiple_urls_raise (o : string -> option (list Event))
  (self : ScraperManager.t) (pre : list string) (url : string)
  (post : list string) (e : exn) :
  (forall u, In u pre -> url_outcome self u = Ok (o u)) ->
  netloc url = Raise e ->
  scrape_multiple_urls self (pre ++ url :: post)
  = ({| ScraperManager.scraper_map := ScraperManager.scraper_map self;
        ScraperManager.results :=
          fold_left (fun r u => match o u with
                                | Some events => PyDict.set u events r
                                | None => r
                                end) pre (ScraperManager.results self) |},
     Raise e).
Proof.
  intros Ho He.
  destruct (scrape_loop_spec netloc requests_get BeautifulSoup o pre self [] Ho)
    as (self1 & Hloop & Hmap & Hres).
  unfold ScraperManager.scrape_multiple_urls.
  rewrite scrape_loop_app, Hloop. cbn [ScraperManager.scrape_loop].
  rewrite scrape_url_outcome.
  rewrite (url_outcome_raise netloc requests_get BeautifulSoup self1 url e He).
  destruct self1 as [m r].
  cbn [ScraperManager.scraper_map ScraperManager.results] in Hmap, Hres.
  now subst.
Qed.

(** The outcomes of a manager do not depend on its results. *)
Lemma outcomes_ext (o : string -> option (list Event))
  (a b : ScraperManager.t) (urls : list string) :
  ScraperManager.scraper_map b = ScraperManager.scraper_map a ->
  (forall u, In u urls -> url_outcome a u = Ok (o u)) ->
  forall u, In u urls -> url_outcome b u = Ok (o u).
Proof.
  intros Hm Ho u Hu. rewrite <- (Ho u Hu).
  now apply url_outcome_ext.
Qed.

(** Running the same batch again on the manager it left changes nothing:
    the second call returns the same map, or raises the same exception,
    and leaves the same manager. *)
Theorem scrape_multiple_urls_again (self : ScraperManager.t) (urls : list string) :
  exists self' outcome,
    scrape_multiple_urls self urls = (self', outcome)
    /\ scrape_multiple_urls self' urls = (self', outcome).
Proof.
  set (o := fun u => match url_outcome self u with
                     | Ok x => x
                     | Raise _ => None
                     end).
  destruct (accepted_split urls)
    as [Hacc | (pre & url & post & e & -> & Hacc & He)].
  - assert (Ho : forall u, In u urls -> url_outcome self u = Ok (o u))
      by exact (outcomes netloc requests_get BeautifulSoup self urls Hacc).
    rewrite (scrape_multiple_urls_with o self urls Ho).
    set (returned := fold_left (fun a u => PyDict.set u (match o u with
                                                        | Some events => events
                                                        | None => []
                                                        end) a) urls []).
    set (stored := fold_left (fun r u => match o u with
                                         | Some events => PyDict.set u events r
                                         | None => r
                                         end) urls (ScraperManager.results self)).
    eexists. exists (Ok returned). split; [reflexivity |].
    rewrite (scrape_multiple_urls_with o)
      by (apply (outcomes_ext o self); [reflexivity | exact Ho]).
    cbn [ScraperManager.scraper_map ScraperManager.results]. fold returned.
    assert (Hwf : PyDict.wf returned) by (apply wf_fold_set; constructor).
    assert (Hget : forall u, In u urls ->
                    PyDict.get u (PyDict.update stored returned)
                    = Some (match o u with Some events => events | None => [] end)).
    { intros u Hu. rewrite (get_update u _ returned Hwf).
      unfold returned. rewrite get_fold_set.
      apply existsb_eqb_In in Hu. now rewrite Hu. }
    rewrite fold_store_same.
    + rewrite (update_same (PyDict.update stored returned) returned);
        [reflexivity |].
      intros k v Hin. apply in_fold_set in Hin as [[Hk ->] | []].
      now apply Hget.
    + intros u v Hu Hv. rewrite (Hget u Hu). now rewrite Hv.
  - assert (Ho : forall u, In u pre -> url_outcome self u = Ok (o u))
      by exact (outcomes netloc requests_get BeautifulSoup self pre Hacc).
    rewrite (scrape_multiple_urls_raise o self pre url post e Ho He).
    eexists. exists (Raise e). split; [reflexivity |].
    rewrite (scrape_multiple_urls_raise o _ pre url post e)
      by (first [exact He | apply (outcomes_ext o self); [reflexivity | exact Ho]]).
    cbn [ScraperManager.scraper_map ScraperManager.results].
    rewrite fold_store_same; [reflexivity |].
    intros u v Hu Hv. now apply (get_fold_store_in o).
Qed.

(** On a manager without results, a batch in which every URL succeeds (a
    pattern matches it and its page loads) returns, and leaves in the
    manager the map it returns: the sources in the order of submission, a
    URL submitted more than once standing where it first was. *)
Theorem scrape_multiple_urls_all_succeed (self : ScraperManager.t)
  (urls : list string) :
  ScraperManager.results self = [] ->
  (forall u, In u urls -> succeeds self u = true) ->
  exists self' returned,
    scrape_multiple_urls self urls = (self', Ok returned)
    /\ ScraperManager.results self' = returned
    /\ PyDict.keys returned = distinct urls.
Proof.
  intros Hempty Hok.
  set (o := fun u => match url_outcome self u with
                     | Ok x => x
                     | Raise _ => None
                     end).
  assert (Hsome : forall u, In u urls ->
                            exists events, url_outcome self u = Ok (Some events)).
  { intros u Hu. specialize (Hok u Hu).
    rewrite (url_outcome_some netloc requests_get BeautifulSoup) in Hok.
    destruct (url_outcome self u) as [[events|]|]; try discriminate.
    now exists events. }
  assert (Ho : forall u, In u urls -> url_outcome self u = Ok (o u)).
  { intros u Hu. unfold o. now destruct (Hsome u Hu) as [events ->]. }
  rewrite (scrape_multiple_urls_with o self urls Ho).
  rewrite Hempty.
  assert (Hstored : forall acc,
             fold_left (fun r u => match o u with
                                   | Some events => PyDict.set u events r
                                   | None => r
                                   end) urls acc
             = fold_left (fun a u => PyDict.set u (match o u with
                                                   | Some events => events
                                                   | None => []
                                                   end) a) urls acc).
  { clear Ho Hok. induction urls as [|u urls IH]; intros acc; [reflexivity |].
    cbn [fold_left].
    destruct (Hsome u (or_introl eq_refl)) as [events Eu].
    assert (Eo : o u = Some events) by (unfold o; now rewrite Eu).
    rewrite Eo. apply IH. intros u' Hu'. apply Hsome. now right. }
  rewrite Hstored.
  set (returned := fold_left (fun a u => PyDict.set u (match o u with
                                                      | Some events => events
                                                      | None => []
                                                      end) a) urls []).
  eexists. exists returned. split; [reflexivity |].
  cbn [ScraperManager.results]. split; [| apply keys_fold_set].
  apply update_same. intros k v Hin.
  pose proof Hin as Hin'. apply in_fold_set in Hin' as [[Hk ->] | []].
  unfold returned. rewrite get_fold_set.
  apply existsb_eqb_In in Hk. now rewrite Hk.
Qed.

End BatchFacts.

Lemma scrape_multiple_urls_all_succeed_example :
  ScraperManager.results Examples.manager = []
  /\ (forall bracketed_host_ok nfkc_ok u,
         In u [Examples.url_alt; Examples.url_up; Examples.url_alt] ->
         ScraperManager.succeeds (Urllib.netloc bracketed_host_ok nfkc_ok)
           Examples.requests_get Examples.BeautifulSoup Examples.manager u
         = true)
  /\ distinct [Examples.url_alt; Examples.url_up; Examples.url_alt]
     = [Examples.url_alt; Examples.url_up]
  /\ forall bracketed_host_ok nfkc_ok,
     exists self' returned,
       ScraperManager.scrape_multiple_urls
         (Urllib.netloc bracketed_host_ok nfkc_ok) Examples.requests_get
         Examples.BeautifulSoup Examples.manager
         [Examples.url_alt; Examples.url_up; Examples.url_alt]
       = (self', Ok returned)
       /\ ScraperManager.results self' = returned
       /\ PyDict.keys returned
          = distinct [Examples.url_alt; Examples.url_up; Examples.url_alt].
Proof.
  assert (H : forall bracketed_host_ok nfkc_ok u,
             In u [Examples.url_alt; Examples.url_up; Examples.url_alt] ->
             ScraperManager.succeeds (Urllib.netloc bracketed_host_ok nfkc_ok)
               Examples.requests_get Examples.BeautifulSoup Examples.manager u
             = true).
  { intros b n u [<- | [<- | [<- | []]]]; reflexivity. }
  split; [reflexivity |]. split; [exact H |]. split; [reflexivity |].
  intros bracketed_host_ok nfkc_ok.
  exact (scrape_multiple_urls_all_succeed
           (Urllib.netloc bracketed_host_ok nfkc_ok) Examples.requests_get
           Examples.BeautifulSoup Examples.manager
           [Examples.url_alt; Examples.url_up; Examples.url_alt] eq_refl
           (H bracketed_host_ok nfkc_ok)).
Defined.

(** ** What every manager keeps *)

Section ManagerInvariants.
Import PyStr.
Variable netloc : string -> result string.
Variable requests_get : string -> option (Z * string).
Variable BeautifulSoup : string -> option Bs4.node.
Variable read_file : string -> option string.

Local Abbreviation scrape_url :=
  (ScraperManager.scrape_url netloc requests_get BeautifulSoup).
Local Abbreviation scrape_file :=
  (ScraperManager.scrape_file BeautifulSoup read_file).
Local Abbreviation scrape_multiple_urls :=
  (ScraperManager.scrape_multiple_urls netloc requests_get BeautifulSoup).
Local Abbreviation url_outcome :=
  (ScraperManager.url_outcome netloc requests_get BeautifulSoup).
Local Abbreviation accepted := (ScraperManager.accepted netloc).
Local Abbreviation reachable :=
  (reachable netloc requests_get BeautifulSoup read_file).

Lemma keys_set_grows {V : Type} (k : string) (v : V) (d : PyDict.dict V) :
  exists extra, PyDict.keys (PyDict.set k v d) = (PyDict.keys d ++ extra)%list.
Proof.
  rewrite keys_set. destruct (existsb (String.eqb k) (PyDict.keys d)).
  - exists []. now rewrite app_nil_r.
  - now exists [k].
Qed.

Lemma keys_update_grows {V : Type} (other d : PyDict.dict V) :
  exists extra, PyDict.keys (PyDict.update d other) = (PyDict.keys d ++ extra)%list.
Proof.
  unfold PyDict.update. revert d.
  induction other as [|[k v] other IH]; intros d.
  - exists []. now rewrite app_nil_r.
  - cbn [fold_left fst snd]. destruct (IH (PyDict.set k v d)) as (e2 & ->).
    destruct (keys_set_grows k v d) as (e1 & ->).
    exists (e1 ++ e2)%list. now rewrite app_assoc.
Qed.

Lemma keys_fold_store_grows {V : Type} (o : string -> option V)
  (urls : list string) (r : PyDict.dict V) :
  exists extra,
    PyDict.keys (fold_left (fun r u => match o u with
                                       | Some v => PyDict.set u v r
                                       | None => r
                                       end) urls r)
    = (PyDict.keys r ++ extra)%list.
Proof.
  revert r. induction urls as [|u urls IH]; intros r.
  - exists []. now rewrite app_nil_r.
  - cbn [fold_left]. destruct (o u) as [v|]; [| apply IH].
    destruct (IH (PyDict.set u v r)) as (e2 & ->).
    destruct (keys_set_grows u v r) as (e1 & ->).
    exists (e1 ++ e2)%list. now rewrite app_assoc.
Qed.

Lemma wf_update {V : Type} (other d : PyDict.dict V) :
  PyDict.wf d -> PyDict.wf (PyDict.update d other).
Proof.
  unfold PyDict.update. revert d.
  induction other as [|[k v] other IH]; intros d Hd; [exact Hd |].
  cbn [fold_left fst snd]. now apply IH, wf_set.
Qed.

Lemma wf_fold_store {V : Type} (o : string -> option V)
  (urls : list string) (r : PyDict.dict V) :
  PyDict.wf r ->
  PyDict.wf (fold_left (fun r u => match o u with
                                   | Some v => PyDict.set u v r
                                   | None => r
                                   end) urls r).
Proof.
  revert r. induction urls as [|u urls IH]; intros r Hr; [exact Hr |].
  cbn [fold_left]. destruct (o u) as [v|]; [| now apply IH].
  now apply IH, wf_set.
Qed.

(** [scrape_file]: the events are stored under the path and returned, or
    nothing is stored and the empty list is returned. *)
Lemma scrape_file_outcome (self : ScraperManager.t) (filepath : string)
  (cls : scraper_class) :
  exists events,
    scrape_file self filepath cls
    = Ok ({| ScraperManager.scraper_map := ScraperManager.scraper_map self;
             ScraperManager.results :=
               PyDict.set filepath events (ScraperManager.results self) |},
          events)
    \/ scrape_file self filepath cls = Ok (self, []).
Proof.
  unfold ScraperManager.scrape_file.
  destruct (BaseScraper.load_from_file _ _ _ _) as [scraper loaded].
  destruct loaded; [| exists []; now right].
  destruct (scrape_of_total cls (BaseScraper.soup scraper)) as [events ->].
  exists events. now left.
Qed.

(** The manager after [scrape_multiple_urls], whether the call returned or
    raised: the registry it had, and the results it had after some stores
    of the loop and an update. *)
Lemma scrape_multiple_urls_state (self : ScraperManager.t) (urls : list string) :
  exists (o : string -> option (list Event)) (stored : list string)
         (other : PyDict.dict (list Event)),
    fst (scrape_multiple_urls self urls)
    = {| ScraperManager.scraper_map := ScraperManager.scraper_map self;
         ScraperManager.results :=
           PyDict.update
             (fold_left (fun r u => match o u with
                                    | Some events => PyDict.set u events r
                                    | None => r
                                    end) stored (ScraperManager.results self))
             other |}.
Proof.
  set (o := fun u => match url_outcome self u with
                     | Ok x => x
                     | Raise _ => None
                     end).
  exists o.
  destruct (accepted_split netloc urls)
    as [Hacc | (pre & url & post & e & -> & Hacc & He)].
  - rewrite (scrape_multiple_urls_with netloc requests_get BeautifulSoup o self
               urls (outcomes netloc requests_get BeautifulSoup self urls Hacc)).
    now eexists urls, _.
  - rewrite (scrape_multiple_urls_raise netloc requests_get BeautifulSoup o self
               pre url post e
               (outcomes netloc requests_get BeautifulSoup self pre Hacc) He).
    now exists pre, [].
Qed.

(** No scraping method removes a source from the results or moves one:
    whether it returns or raises, each leaves the registry as it was and
    leaves the sources the results had where they stood, new ones after
    them. [scrape_url] returns for a URL that [urlparse] accepts and raises
    the exception of [urlparse] for one it rejects, [scrape_file] returns,
    and [scrape_multiple_urls] returns when [urlparse] accepts every URL
    and raises at the first that it rejects. *)
Theorem results_only_grow (self : ScraperManager.t) :
  (forall u,
      match netloc u with
      | Ok _ =>
          exists self' events,
            scrape_url self u = Ok (self', events)
            /\ ScraperManager.scraper_map self' = ScraperManager.scraper_map self
            /\ exists extra,
                 PyDict.keys (ScraperManager.results self')
                 = (PyDict.keys (ScraperManager.results self) ++ extra)%list
      | Raise e => scrape_url self u = Raise e
      end)
  /\ (forall filepath cls, exists self' events,
        scrape_file self filepath cls = Ok (self', events)
        /\ ScraperManager.scraper_map self' = ScraperManager.scraper_map self
        /\ exists extra,
             PyDict.keys (ScraperManager.results self')
             = (PyDict.keys (ScraperManager.results self) ++ extra)%list)
  /\ (forall urls,
        let after := scrape_multiple_urls self urls in
        ScraperManager.scraper_map (fst after) = ScraperManager.scraper_map self
        /\ (exists extra,
              PyDict.keys (ScraperManager.results (fst after))
              = (PyDict.keys (ScraperManager.results self) ++ extra)%list)
        /\ (forallb accepted urls = true ->
            exists returned, snd after = Ok returned)
        /\ (forall pre url post e,
              urls = (pre ++ url :: post)%list ->
              forallb accepted pre = true ->
              netloc url = Raise e ->
              snd after = Raise e)).
Proof.
  split; [| split].
  - intros u. rewrite scrape_url_outcome.
    destruct (netloc u) as [domain|e] eqn:Eu.
    + destruct (url_outcome_accepted netloc requests_get BeautifulSoup self u)
        as [[events|] ->].
      { unfold ScraperManager.accepted. now rewrite Eu. }
      * do 2 eexists. split; [reflexivity |]. split; [reflexivity |].
        apply keys_set_grows.
      * do 2 eexists. split; [reflexivity |]. split; [reflexivity |].
        exists []. now rewrite app_nil_r.
    + now rewrite (url_outcome_raise netloc requests_get BeautifulSoup self u e Eu).
  - intros filepath cls.
    destruct (scrape_file_outcome self filepath cls) as (events & [-> | ->]).
    + do 2 eexists. split; [reflexivity |]. split; [reflexivity |].
      apply keys_set_grows.
    + do 2 eexists. split; [reflexivity |]. split; [reflexivity |].
      exists []. now rewrite app_nil_r.
  - intros urls after.
    destruct (scrape_multiple_urls_state self urls) as (o & stored & other & E).
    fold after in E. rewrite E.
    cbn [ScraperManager.scraper_map ScraperManager.results].
    split; [reflexivity |]. split; [| split].
    + destruct (keys_update_grows other
                  (fold_left (fun r u => match o u with
                                         | Some events => PyDict.set u events r
                                         | None => r
                                         end) stored (ScraperManager.results self)))
        as (e2 & ->).
      destruct (keys_fold_store_grows o stored (ScraperManager.results self))
        as (e1 & ->).
      exists (e1 ++ e2)%list. now rewrite app_assoc.
    + intros Hacc. subst after.
      rewrite (scrape_multiple_urls_with netloc requests_get BeautifulSoup _ self
                 urls (outcomes netloc requests_get BeautifulSoup self urls Hacc)).
      eexists. reflexivity.
    + intros pre url post e -> Hacc He. subst after.
      now rewrite (scrape_multiple_urls_raise netloc requests_get BeautifulSoup
                     _ self pre url post e
                     (outcomes netloc requests_get BeautifulSoup self pre Hacc) He).
Qed.

(** In a manager made by the methods, a pattern stands once in the registry
    and a source once in the results. *)
Lemma reachable_wf (self : ScraperManager.t) :
  reachable self ->
  PyDict.wf (ScraperManager.scraper_map self)
  /\ PyDict.wf (ScraperManager.results self).
Proof.
  induction 1 as [| self url_pattern cls _ [IHm IHr]
                  | self self' u events _ [IHm IHr] Hs
                  | self self' filepath cls events _ [IHm IHr] Hs
                  | self urls _ [IHm IHr]].
  - split; constructor.
  - split; [now apply wf_set | exact IHr].
  - rewrite scrape_url_outcome in Hs.
    destruct (url_outcome self u) as [[ev|]|]; [| | discriminate];
      injection Hs as <- _.
    + split; [exact IHm | now apply wf_set].
    + now split.
  - destruct (scrape_file_outcome self filepath cls) as (ev & [E | E]);
      rewrite E in Hs; injection Hs as <- _.
    + split; [exact IHm | now apply wf_set].
    + now split.
  - destruct (scrape_multiple_urls_state self urls) as (o & stored & other & ->).
    cbn [ScraperManager.scraper_map ScraperManager.results].
    split; [exact IHm |]. now apply wf_update, wf_fold_store.
Qed.

(** Whatever calls of [register_scraper], [scrape_url], [scrape_file] and
    [scrape_multiple_urls] made a manager, the text [export_to_json] writes
    for it is read back as its results. *)
Theorem reachable_json_round_trip (self : ScraperManager.t) :
  reachable self ->
  Json.loads (export_to_json self)
  = Some (results_value (ScraperManager.results self)).
Proof.
  intros H. apply loads_dumps, wf_results_value, (reachable_wf self H).
Qed.

(** Two managers made by the methods that write the same JSON text hold the
    same results. *)
Theorem export_to_json_determines_results (a b : ScraperManager.t) :
  reachable a -> reachable b ->
  export_to_json a = export_to_json b ->
  ScraperManager.results a = ScraperManager.results b.
Proof.
  intros Ha Hb E.
  pose proof (loads_dumps _ (wf_results_value _ (proj2 (reachable_wf a Ha)))) as La.
  pose proof (loads_dumps _ (wf_results_value _ (proj2 (reachable_wf b Hb)))) as Lb.
  unfold export_to_json in E. rewrite E, Lb in La.
  apply results_value_inj. congruence.
Qed.

End ManagerInvariants.

Lemma reachable_manager_after_scrape (bracketed_host_ok nfkc_ok : string -> bool) :
  reachable (Urllib.netloc bracketed_host_ok nfkc_ok) Examples.requests_get
    Examples.BeautifulSoup Examples.read_file Examples.manager_after_scrape.
Proof.
  apply (reach_scrape_url _ _ _ _ Examples.manager _ Examples.url_up
           [ {| country_league := EmptyString; title := "Final"; time := "20:00";
                channels := [] |} ]).
  - apply reach_register, reach_init.
  - reflexivity.
Defined.

Lemma reachable_json_round_trip_example :
  (forall bracketed_host_ok nfkc_ok,
      reachable (Urllib.netloc bracketed_host_ok nfkc_ok) Examples.requests_get
        Examples.BeautifulSoup Examples.read_file Examples.manager_after_scrape)
  /\ Json.loads (export_to_json Examples.manager_after_scrape)
     = Some (results_value (ScraperManager.results Examples.manager_after_scrape)).
Proof.
  split; [exact reachable_manager_after_scrape |].
  exact (reachable_json_round_trip
           (Urllib.netloc (fun _ => true) (fun _ => true)) _ _ _ _
           (reachable_manager_after_scrape _ _)).
Defined.

Lemma export_to_json_determines_results_example :
  (forall bracketed_host_ok nfkc_ok,
      reachable (Urllib.netloc bracketed_host_ok nfkc_ok) Examples.requests_get
        Examples.BeautifulSoup Examples.read_file Examples.manager_after_scrape)
  /\ (forall bracketed_host_ok nfkc_ok,
         reachable (Urllib.netloc bracketed_host_ok nfkc_ok)
           Examples.requests_get Examples.BeautifulSoup Examples.read_file
           (ScraperManager.register_scraper Examples.manager_after_scrape
              "roja" Rojadirecta))
  /\ export_to_json Examples.manager_after_scrape
     = export_to_json (ScraperManager.register_scraper
                         Examples.manager_after_scrape "roja" Rojadirecta)
  /\ ScraperManager.results Examples.manager_after_scrape
     = ScraperManager.results (ScraperManager.register_scraper
                                 Examples.manager_after_scrape "roja" Rojadirecta).
Proof.
  assert (Hb : forall bracketed_host_ok nfkc_ok,
             reachable (Urllib.netloc bracketed_host_ok nfkc_ok)
               Examples.requests_get Examples.BeautifulSoup Examples.read_file
               (ScraperManager.register_scraper Examples.manager_after_scrape
                  "roja" Rojadirecta)).
  { intros b n. apply reach_register, reachable_manager_after_scrape. }
  split; [exact reachable_manager_after_scrape |].
  split; [exact Hb |]. split; [reflexivity |].
  exact (export_to_json_determines_results
           (Urllib.netloc (fun _ => true) (fun _ => true)) _ _ _ _ _
           (reachable_manager_after_scrape _ _) (Hb _ _) eq_refl).
Defined.

(** ** The text of the playlist *)

Section PlaylistText.
Import PyStr.
Variable repr : pyval -> string.
Variable netloc : string -> result string.

(** The rows [export_to_m3u] builds. For each source of the results that
    has events, in the order of the results, [urlparse] is applied to the
    source: when it raises, the method raises and no file is written;
    else the source gives one row for each channel of each of its events,
    in order, each of the same seven fields, the first being the network
    location of the source; a channel without [href] has [None] for its
    address. A source without events gives no row, and [urlparse] is not
    applied to it. *)
Theorem playlist_rows (self : ScraperManager.t) :
  ScraperManager.all_rows netloc self
  = (rows <- mapM (fun ue => source_items netloc
                               (fun domain => row_fields domain (fst ue)) ue)
                  (ScraperManager.results self) ;;
     Ok (List.concat rows)).
Proof. apply all_rows_fields. Qed.

Lemma fold_write_row (line : ScraperManager.row -> string)
  (rows : list ScraperManager.row) :
  (forall f row, In row rows -> Playlist.write_row repr f row = f ++ line row) ->
  forall f,
    fold_left (Playlist.write_row repr) rows f
    = f ++ fold_right append EmptyString (map line rows).
Proof.
  induction rows as [|row rows IH]; intros H f.
  - cbn. now rewrite str_app_empty_r.
  - cbn [fold_left map fold_right]. rewrite H by now left.
    rewrite IH by (intros f' row' Hin; apply H; now right).
    now rewrite str_app_assoc.
Qed.

(** The lines of a source are the two lines of each of its rows. *)
Lemma source_lines (line : ScraperManager.row -> string)
  (ue : string * list Event) :
  (forall domain e c,
      line (row_fields domain (fst ue) e c) = row_lines domain e c) ->
  source_items netloc row_lines ue
  = (rows <- source_items netloc (fun domain => row_fields domain (fst ue)) ue ;;
     Ok (map line rows)).
Proof.
  intros Hline. unfold source_items. destruct (snd ue) as [|e events];
    [reflexivity |].
  destruct (netloc (fst ue)) as [domain|err]; cbn [bind]; [| reflexivity].
  f_equal. induction (e :: events) as [|e' l IH]; [reflexivity |].
  cbn [flat_map]. rewrite map_app, <- IH, map_map. f_equal.
  apply map_ext. intros c. now rewrite Hline.
Qed.

Lemma results_lines (line : ScraperManager.row -> string)
  (results : PyDict.dict (list Event)) :
  (forall domain source e c,
      line (row_fields domain source e c) = row_lines domain e c) ->
  mapM (source_items netloc row_lines) results
  = (rows <- mapM (fun ue => source_items netloc
                               (fun domain => row_fields domain (fst ue)) ue)
                  results ;;
     Ok (map (map line) rows)).
Proof.
  intros Hline. induction results as [|ue results IH]; [reflexivity |].
  cbn [mapM]. rewrite (source_lines line ue) by (intros; apply Hline).
  destruct (source_items netloc _ ue) as [rows|err]; cbn [bind]; [| reflexivity].
  rewrite IH.
  destruct (mapM (fun ue0 => source_items netloc
                               (fun domain => row_fields domain (fst ue0)) ue0)
                 results) as [rs|err]; reflexivity.
Qed.

(** The text [export_to_m3u] writes. For each source of the results that
    has events, in the order of the results, [urlparse] is applied to the
    source, and when it raises the method raises and no file is written.
    Else the text has, for each channel of each event of each source, in
    order, the info line with the network location of the source as group,
    the title and the name of the channel, then the address of the channel
    on a line of its own, which for a channel without [href] is the word
    [None]. Nothing stands before the first info line. Without any channel
    no file is written. *)
Theorem playlist_text (self : ScraperManager.t) :
  Playlist.export_to_m3u repr netloc self
  = (entries <- mapM (source_items netloc row_lines)
                     (ScraperManager.results self) ;;
     Ok (match List.concat entries with
         | [] => None
         | entry :: rest =>
             Some (fold_right append EmptyString (entry :: rest))
         end)).
Proof.
  unfold Playlist.export_to_m3u. rewrite all_rows_fields.
  set (line := fun row : ScraperManager.row =>
                 Playlist.extinf (Playlist.field repr row "source")
                   (Playlist.field repr row "title")
                   (Playlist.field repr row "channel_name")
                 ++ Playlist.field repr row "channel_url"
                 ++ String newline EmptyString).
  assert (Hfold : forall rows,
             fold_left (Playlist.write_row repr) rows EmptyString
             = fold_right append EmptyString (map line rows)).
  { intros rows. rewrite (fold_write_row line); [reflexivity |].
    intros f row _. unfold Playlist.write_row, line.
    now rewrite str_app_assoc. }
  assert (Hline : forall domain source e c,
             line (row_fields domain source e c) = row_lines domain e c).
  { intros domain source e c. unfold line, row_lines, row_fields, Playlist.field.
    cbn [PyDict.get String.eqb Ascii.eqb Bool.eqb]. cbn.
    now destruct (url c). }
  rewrite (results_lines line _ Hline).
  destruct (mapM _ (ScraperManager.results self)) as [rs|err]; cbn [bind];
    [| reflexivity].
  f_equal. rewrite <- concat_map.
  destruct (List.concat rs) as [|row rows]; [reflexivity |].
  rewrite Hfold. reflexivity.
Qed.

End PlaylistText.

(** The playlist of a manager whose results hold a source with two events
    and a source without events: the event without channels gives no
    line, and the group is the network location of the source. A source
    that [urlparse] rejects makes the method raise. *)
Lemma playlist_examples (bracketed_host_ok nfkc_ok : string -> bool)
  (repr : pyval -> string) :
  Playlist.export_to_m3u repr (Urllib.netloc bracketed_host_ok nfkc_ok)
    {| ScraperManager.scraper_map := [];
       ScraperManager.results :=
         [ (Examples.url_userinfo,
            [Examples.event_without_channels; Examples.event_with_two_channels]);
           (Examples.url_bad, []) ] |}
  = Ok (Some (Playlist.extinf "rojadirecta@evil.example" "Derbi" "Canal1"
              ++ "u1" ++ String PyStr.newline
                   (Playlist.extinf "rojadirecta@evil.example" "Derbi" "Canal2"
                    ++ "None" ++ String PyStr.newline EmptyString)))
  /\ Playlist.export_to_m3u repr (Urllib.netloc bracketed_host_ok nfkc_ok)
       {| ScraperManager.scraper_map := [];
          ScraperManager.results :=
            [ (Examples.url_bad, [Examples.event_with_two_channels]) ] |}
     = Raise ValueError.
Proof. split; reflexivity. Qed.
